(** * Receipts bot: validation library, order store, intake workflow, receipt

    A shallow embedding of [telegram_receipts_bot.py].  Python [str] values
    are Rocq strings, one [ascii] per code point (code points below 256);
    Python [float] values are IEEE binary64 numbers in the [spec_float]
    representation of the Standard Library; the SQLite table [pedidos] is a
    list of rows; the per-user [context.user_data] dictionary is a [gmap]. *)

From Stdlib Require Import ZArith Ascii String List Bool Lia.
From Stdlib Require Import Sorting.Permutation Sorting.Sorted.
From Stdlib Require Import Floats.SpecFloat Numbers.DecimalString.
From Stdlib Require Numbers.DecimalPos.
From stdpp Require Import base option gmap strings.
Import ListNotations.

Local Open Scope string_scope.

(** ** Python string primitives *)

Module PyStr.

Definition code (c : ascii) : N := N_of_ascii c.

Definition in_range (lo hi : N) (c : ascii) : bool :=
  ((lo <=? code c) && (code c <=? hi))%N.

(** [str.isspace] on one code point below 256: TAB..CR, FS..US, SPACE,
    NEL (0x85) and NBSP (0xA0). *)
Definition is_space (c : ascii) : bool :=
  in_range 9 13 c || in_range 28 32 c || (code c =? 133)%N || (code c =? 160)%N.

(** The class [0-9] of the regular expressions. *)
Definition is_digit (c : ascii) : bool := in_range 48 57 c.

Definition is_ascii_upper (c : ascii) : bool := in_range 65 90 c.
Definition is_ascii_lower (c : ascii) : bool := in_range 97 122 c.

Definition shift_up (c : ascii) : ascii := ascii_of_N (code c + 32).
Definition shift_down (c : ascii) : ascii := ascii_of_N (code c - 32).

(** [str.lower] on one code point: A-Z and the Latin-1 capitals
    (0xC0..0xDE without the multiplication sign 0xD7). *)
Definition lower_char (c : ascii) : ascii :=
  if is_ascii_upper c then shift_up c
  else if in_range 192 222 c && negb (code c =? 215)%N then shift_up c
  else c.

(** [str.upper] on one code point: a-z and the Latin-1 small letters
    (0xE0..0xFE without the division sign 0xF7).  The three code points
    below 256 whose capital form is not below 256 or is not a single
    character (0xB5, 0xDF, 0xFF) are left as they are. *)
Definition upper_char (c : ascii) : ascii :=
  if is_ascii_lower c then shift_down c
  else if in_range 224 254 c && negb (code c =? 247)%N then shift_down c
  else c.

Fixpoint map_chars (f : ascii -> ascii) (s : string) : string :=
  match s with
  | EmptyString => EmptyString
  | String c s' => String (f c) (map_chars f s')
  end.

Definition lower : string -> string := map_chars lower_char.
Definition upper : string -> string := map_chars upper_char.

Definition len (s : string) : nat := String.length s.

(** Truthiness of a string: [not text] holds for the empty string. *)
Definition is_empty (s : string) : bool :=
  match s with EmptyString => true | _ => false end.

Fixpoint lstrip (s : string) : string :=
  match s with
  | EmptyString => EmptyString
  | String c s' => if is_space c then lstrip s' else s
  end.

Fixpoint rstrip (s : string) : string :=
  match s with
  | EmptyString => EmptyString
  | String c s' =>
      let r := rstrip s' in
      if is_empty r && is_space c then EmptyString else String c r
  end.

Definition strip (s : string) : string := rstrip (lstrip s).

(** The slice [s[:n]] for a non-negative [n]. *)
Fixpoint take (n : nat) (s : string) : string :=
  match n, s with
  | S n', String c s' => String c (take n' s')
  | _, _ => EmptyString
  end.

Fixpoint drop (n : nat) (s : string) : string :=
  match n, s with
  | S n', String _ s' => drop n' s'
  | _, _ => s
  end.

Fixpoint starts_with (p s : string) : bool :=
  match p, s with
  | EmptyString, _ => true
  | String a p', String b s' => Ascii.eqb a b && starts_with p' s'
  | String _ _, EmptyString => false
  end.

(** [s.replace(old, new)] for a non-empty [old]: occurrences are replaced
    from left to right and never overlap.  [skip] counts the characters of
    the occurrence being consumed. *)
Fixpoint replace_from (old new : string) (skip : nat) (s : string) : string :=
  match s with
  | EmptyString => EmptyString
  | String c s' =>
      match skip with
      | S k => replace_from old new k s'
      | O =>
          if starts_with old s
          then new ++ replace_from old new (len old - 1) s'
          else String c (replace_from old new 0 s')
      end
  end.

Definition replace (old new s : string) : string := replace_from old new 0 s.

Fixpoint keep (f : ascii -> bool) (s : string) : string :=
  match s with
  | EmptyString => EmptyString
  | String c s' => if f c then String c (keep f s') else keep f s'
  end.

(** [re.sub(r'[^0-9]', '', s)]. *)
Definition digits_only (s : string) : string := keep is_digit s.

(** Substring test of Python's [in], case-sensitive. *)
Fixpoint contains (needle s : string) : bool :=
  starts_with needle s ||
  match s with
  | EmptyString => false
  | String _ s' => contains needle s'
  end.

(** [s.split()]: the words of [s], the runs of characters between white
    space; [word] is the beginning of the word being read. *)
Fixpoint split_from (word s : string) : list string :=
  match s with
  | EmptyString => if is_empty word then [] else [word]
  | String c s' =>
      if is_space c
      then (if is_empty word then split_from EmptyString s'
            else word :: split_from EmptyString s')
      else split_from (word ++ String c EmptyString) s'
  end.

Definition split (s : string) : list string := split_from EmptyString s.

End PyStr.

(** ** Validation library *)

Definition validate_cpf (cpf : string) : bool :=
  if PyStr.is_empty cpf then true
  else Nat.eqb (PyStr.len (PyStr.digits_only cpf)) 11.

Definition sanitize_input (text : string) (max_length : nat) : string :=
  if PyStr.is_empty text then ""
  else PyStr.take max_length (PyStr.strip text).

(** ** Python floats (IEEE binary64) *)

Module PyFloat.

Definition float : Type := spec_float.

Definition prec : Z := 53.
Definition emax : Z := 1024.

Definition zero : float := S754_zero false.

(** The binary64 number nearest to [(-1)^neg * m * 10^e] (ties to even),
    the conversion done by [float(str)]; too large a value becomes an
    infinity, too small a value a zero. *)
Definition of_decimal (neg : bool) (m : N) (e : Z) : float :=
  match m with
  | N0 => S754_zero neg
  | Npos p =>
      match e with
      | Zneg k =>
          let '(q, e', l) :=
            SFdiv_core_binary prec emax (Zpos p) 0 (Zpos (10 ^ k)) 0 in
          binary_round_aux prec emax neg q e' l
      | _ => binary_round prec emax neg (p * Z.to_pos (10 ^ e)) 0
      end
  end.

(** [m * 2^e * 100] rounded to the nearest integer, ties to even. *)
Definition cents (m : positive) (e : Z) : N :=
  match e with
  | Zneg k =>
      let n := (Npos m * 100)%N in
      let d := (2 ^ Npos k)%N in
      let q := (n / d)%N in
      let r := (n mod d)%N in
      match (2 * r ?= d)%N with
      | Lt => q
      | Gt => (q + 1)%N
      | Eq => if N.even q then q else (q + 1)%N
      end
  | _ => (Npos m * 2 ^ Z.to_N e * 100)%N
  end.

(** [round(x, 2)]: the decimal with two fraction digits nearest to the
    exact value of [x], converted back to binary64; infinities, NaN and
    zeros round to themselves. *)
Definition round2 (x : float) : float :=
  match x with
  | S754_finite s m e => of_decimal s (cents m e) (-2)
  | _ => x
  end.

Definition string_of_N (n : N) : string :=
  NilEmpty.string_of_uint (N.to_uint n).

Definition two_digits (n : N) : string :=
  if (n <? 10)%N then "0" ++ string_of_N n else string_of_N n.

Definition sign_prefix (s : bool) : string := if s then "-" else "".

(** [format(x, '.2f')], the conversion of the f-strings [{x:.2f}]. *)
Definition format_2f (x : float) : string :=
  match x with
  | S754_nan => "nan"
  | S754_infinity s => sign_prefix s ++ "inf"
  | S754_zero s => sign_prefix s ++ "0.00"
  | S754_finite s m e =>
      let c := cents m e in
      sign_prefix s ++ string_of_N (c / 100) ++ "." ++ two_digits (c mod 100)
  end.

(** [x >= 0], [a > b] and [a - b] on floats. *)
Definition ge0 (x : float) : bool := SFleb zero x.
Definition gt (a b : float) : bool := SFltb b a.
Definition sub (a b : float) : float := SFsub prec emax a b.

(** *** [float(str)] *)

Fixpoint span_digits (s : string) : string * string :=
  match s with
  | String c s' =>
      if PyStr.is_digit c
      then let '(d, r) := span_digits s' in (String c d, r)
      else (EmptyString, s)
  | EmptyString => (EmptyString, EmptyString)
  end.

Definition digit_val (c : ascii) : N := (PyStr.code c - 48)%N.

Fixpoint N_of_digits_from (acc : N) (s : string) : N :=
  match s with
  | EmptyString => acc
  | String c s' => N_of_digits_from (acc * 10 + digit_val c)%N s'
  end.

Definition N_of_digits : string -> N := N_of_digits_from 0%N.

(** Underscores are dropped when each one stands between two digits;
    any other underscore makes the literal invalid. *)
Fixpoint drop_underscores (prev_digit : bool) (s : string) : option string :=
  match s with
  | EmptyString => Some EmptyString
  | String c s' =>
      if Ascii.eqb c "_"
      then
        match s' with
        | String d _ =>
            if prev_digit && PyStr.is_digit d
            then drop_underscores false s'
            else None
        | EmptyString => None
        end
      else
        match drop_underscores (PyStr.is_digit c) s' with
        | Some r => Some (String c r)
        | None => None
        end
  end.

Definition split_sign (s : string) : bool * string :=
  match s with
  | String "-" s' => (true, s')
  | String "+" s' => (false, s')
  | _ => (false, s)
  end.

(** The exponent part: empty, or [e]/[E], an optional sign and digits. *)
Definition parse_exponent (s : string) : option Z :=
  match s with
  | EmptyString => Some 0%Z
  | String c s' =>
      if Ascii.eqb c "e" || Ascii.eqb c "E"
      then
        let '(neg, r) := split_sign s' in
        let '(d, rest) := span_digits r in
        if PyStr.is_empty d || negb (PyStr.is_empty rest) then None
        else
          let v := Z.of_N (N_of_digits d) in
          Some (if neg then (- v)%Z else v)
      else None
  end.

(** A decimal literal without sign: digits, an optional point and an
    optional exponent, with at least one digit before the exponent. *)
Definition parse_number (neg : bool) (s : string) : option float :=
  let '(ip, r) := span_digits s in
  let '(fp, r') :=
    match r with
    | String "." t => span_digits t
    | _ => (EmptyString, r)
    end in
  if PyStr.is_empty ip && PyStr.is_empty fp then None
  else
    match parse_exponent r' with
    | Some ex =>
        Some (of_decimal neg (N_of_digits (ip ++ fp))
                (ex - Z.of_nat (PyStr.len fp)))
    | None => None
    end.

Definition parse_inf_or_nan (neg : bool) (s : string) : option float :=
  let l := PyStr.map_chars PyStr.lower_char s in
  if String.eqb l "inf" || String.eqb l "infinity" then Some (S754_infinity neg)
  else if String.eqb l "nan" then Some S754_nan
  else None.

(** [float(s)]; [None] stands for the [ValueError] of an invalid literal. *)
Definition of_string (s : string) : option float :=
  match drop_underscores false (PyStr.strip s) with
  | None => None
  | Some t =>
      let '(neg, body) := split_sign t in
      match parse_number neg body with
      | Some x => Some x
      | None => parse_inf_or_nan neg body
      end
  end.

End PyFloat.

(** [value_str.replace(',', '.').replace('R$', '').strip()]. *)
Definition clean_value (value_str : string) : string :=
  PyStr.strip (PyStr.replace "R$" "" (PyStr.replace "," "." value_str)).

(** [validate_value]: the cleaned text is parsed by [float]; a value that
    is not at least zero and an invalid literal are both answered with
    [None]. *)
Definition validate_value (value_str : string) : option PyFloat.float :=
  match PyFloat.of_string (clean_value value_str) with
  | Some value => if PyFloat.ge0 value then Some (PyFloat.round2 value) else None
  | None => None
  end.

(** ** Dates: [datetime.strptime] and [strftime] for ['%d/%m/%Y %H:%M:%S'] *)

Module PyDate.

Record datetime : Type := mk_datetime {
  year : N; month : N; day : N; hour : N; minute : N; second : N
}.

Definition is_leap (y : N) : bool :=
  ((y mod 4 =? 0) && (negb (y mod 100 =? 0) || (y mod 400 =? 0)))%N.

Definition days_in_month (y m : N) : N :=
  match m with
  | 2 => if is_leap y then 29 else 28
  | 4 | 6 | 9 | 11 => 30
  | _ => 31
  end%N.

(** The range checks of the [datetime] constructor. *)
Definition valid (dt : datetime) : bool :=
  ((1 <=? year dt) && (year dt <=? 9999) &&
   (1 <=? month dt) && (month dt <=? 12) &&
   (1 <=? day dt) && (day dt <=? days_in_month (year dt) (month dt)) &&
   (hour dt <=? 23) && (minute dt <=? 59) && (second dt <=? 59))%N.

(** [dt.strftime('%d/%m/%Y %H:%M:%S')]: two-digit fields; the year is
    printed by the C library without padding. *)
Definition strftime (dt : datetime) : string :=
  PyFloat.two_digits (day dt) ++ "/" ++ PyFloat.two_digits (month dt) ++ "/" ++
  PyFloat.string_of_N (year dt) ++ " " ++
  PyFloat.two_digits (hour dt) ++ ":" ++ PyFloat.two_digits (minute dt) ++ ":" ++
  PyFloat.two_digits (second dt).

(** *** The regular expression that [strptime] builds from the format *)

Inductive cclass : Type :=
| CLit (c : ascii)
| CRange (lo hi : N)
| CDigit.

Definition cmatch (cl : cclass) (c : ascii) : bool :=
  match cl with
  | CLit a => Ascii.eqb a c
  | CRange lo hi => PyStr.in_range lo hi c
  | CDigit => PyStr.is_digit c
  end.

(** One alternative: a sequence of character classes; the answer is the
    matched text and the rest of the input. *)
Fixpoint match_seq (p : list cclass) (s : string) : option (string * string) :=
  match p with
  | [] => Some (EmptyString, s)
  | cl :: p' =>
      match s with
      | String c s' =>
          if cmatch cl c
          then match match_seq p' s' with
               | Some (m, r) => Some (String c m, r)
               | None => None
               end
          else None
      | EmptyString => None
      end
  end.

(** Ordered alternation with backtracking into the continuation [k]. *)
Fixpoint match_alts {A : Type} (alts : list (list cclass)) (s : string)
    (k : string -> string -> option A) : option A :=
  match alts with
  | [] => None
  | a :: alts' =>
      match match_seq a s with
      | Some (m, r) =>
          match k m r with
          | Some x => Some x
          | None => match_alts alts' s k
          end
      | None => match_alts alts' s k
      end
  end.

Definition d0 : N := 48.  (* the code of the digit 0 *)

(** [%d] is [3[0-1]|[1-2]\d|0[1-9]|[1-9]| [1-9]]. *)
Definition re_d : list (list cclass) :=
  [ [CLit "3"; CRange d0 (d0 + 1)]; [CRange (d0 + 1) (d0 + 2); CDigit];
    [CLit "0"; CRange (d0 + 1) (d0 + 9)]; [CRange (d0 + 1) (d0 + 9)];
    [CLit " "; CRange (d0 + 1) (d0 + 9)] ]%N.
(** [%m] is [1[0-2]|0[1-9]|[1-9]]. *)
Definition re_m : list (list cclass) :=
  [ [CLit "1"; CRange d0 (d0 + 2)]; [CLit "0"; CRange (d0 + 1) (d0 + 9)];
    [CRange (d0 + 1) (d0 + 9)] ]%N.
(** [%Y] is [\d\d\d\d]. *)
Definition re_Y : list (list cclass) := [ [CDigit; CDigit; CDigit; CDigit] ].
(** [%H] is [2[0-3]|[0-1]\d|\d]. *)
Definition re_H : list (list cclass) :=
  [ [CLit "2"; CRange d0 (d0 + 3)]; [CRange d0 (d0 + 1); CDigit]; [CDigit] ]%N.
(** [%M] is [[0-5]\d|\d]. *)
Definition re_M : list (list cclass) :=
  [ [CRange d0 (d0 + 5); CDigit]; [CDigit] ]%N.
(** [%S] is [6[0-1]|[0-5]\d|\d]. *)
Definition re_S : list (list cclass) :=
  [ [CLit "6"; CRange d0 (d0 + 1)]; [CRange d0 (d0 + 5); CDigit]; [CDigit] ]%N.

Definition lit {A : Type} (c : ascii) (s : string) (k : string -> option A) : option A :=
  match s with
  | String a s' => if Ascii.eqb a c then k s' else None
  | EmptyString => None
  end.

(** [\s+], which stands for the blank of the format: one white-space
    character or more.  No field starts with white space, so taking the
    longest run is the only way the rest can match. *)
Definition spaces {A : Type} (s : string) (k : string -> option A) : option A :=
  match s with
  | String a s' => if PyStr.is_space a then k (PyStr.lstrip s') else None
  | EmptyString => None
  end.

(** [int(group)]; the group of [%d] may start with a blank. *)
Definition int_of_group (g : string) : N := PyFloat.N_of_digits (PyStr.strip g).

(** The groups of the match, and the text left after it. *)
Definition re_match (s : string) : option (datetime * string) :=
  match_alts re_d s (fun gd r =>
  lit "/" r (fun r =>
  match_alts re_m r (fun gm r =>
  lit "/" r (fun r =>
  match_alts re_Y r (fun gy r =>
  spaces r (fun r =>
  match_alts re_H r (fun gh r =>
  lit ":" r (fun r =>
  match_alts re_M r (fun gmi r =>
  lit ":" r (fun r =>
  match_alts re_S r (fun gs r =>
    Some (mk_datetime (int_of_group gy) (int_of_group gm) (int_of_group gd)
            (int_of_group gh) (int_of_group gmi) (int_of_group gs), r)))))))))))).

(** [datetime.strptime(s, '%d/%m/%Y %H:%M:%S')]; [None] stands for
    [ValueError]: no match, text left over, or a date or time that the
    [datetime] constructor refuses. *)
Definition strptime (s : string) : option datetime :=
  match re_match s with
  | Some (dt, rest) =>
      if PyStr.is_empty rest && valid dt then Some dt else None
  | None => None
  end.

End PyDate.

(** [validate_date]; [now] is the value of [datetime.now()]. *)
Definition validate_date (now : PyDate.datetime) (date_str : string) : option string :=
  if String.eqb (PyStr.lower date_str) "agora" then Some (PyDate.strftime now)
  else
    match PyDate.strptime date_str with
    | Some dt => Some (PyDate.strftime dt)
    | None => None
    end.

(** ** Order records *)

(** The dictionary [pedido] of the workflow and of the query results.  Its
    keys are the eleven column names; [None] is an absent key.  The program
    only ever stores text under the text keys and floats under [valor],
    [desconto] and [economia]. *)
Record pedido : Type := mk_pedido {
  p_id : option string;
  p_cpf : option string;
  p_nome : option string;
  p_produto : option string;
  p_valor : option PyFloat.float;
  p_desconto : option PyFloat.float;
  p_economia : option PyFloat.float;
  p_status : option string;
  p_created_at : option string;
  p_trans_id : option string;
  p_updated_at : option string
}.

(** The dictionary [{'id': pid}]. *)
Definition new_pedido (pid : string) : pedido :=
  mk_pedido (Some pid) None None None None None None None None None None.

Definition set_cpf (v : string) (p : pedido) : pedido :=
  mk_pedido (p_id p) (Some v) (p_nome p) (p_produto p) (p_valor p) (p_desconto p)
    (p_economia p) (p_status p) (p_created_at p) (p_trans_id p) (p_updated_at p).
Definition set_nome (v : string) (p : pedido) : pedido :=
  mk_pedido (p_id p) (p_cpf p) (Some v) (p_produto p) (p_valor p) (p_desconto p)
    (p_economia p) (p_status p) (p_created_at p) (p_trans_id p) (p_updated_at p).
Definition set_produto (v : string) (p : pedido) : pedido :=
  mk_pedido (p_id p) (p_cpf p) (p_nome p) (Some v) (p_valor p) (p_desconto p)
    (p_economia p) (p_status p) (p_created_at p) (p_trans_id p) (p_updated_at p).
Definition set_valor (v : PyFloat.float) (p : pedido) : pedido :=
  mk_pedido (p_id p) (p_cpf p) (p_nome p) (p_produto p) (Some v) (p_desconto p)
    (p_economia p) (p_status p) (p_created_at p) (p_trans_id p) (p_updated_at p).
Definition set_desconto (v : PyFloat.float) (p : pedido) : pedido :=
  mk_pedido (p_id p) (p_cpf p) (p_nome p) (p_produto p) (p_valor p) (Some v)
    (p_economia p) (p_status p) (p_created_at p) (p_trans_id p) (p_updated_at p).
Definition set_economia (v : PyFloat.float) (p : pedido) : pedido :=
  mk_pedido (p_id p) (p_cpf p) (p_nome p) (p_produto p) (p_valor p) (p_desconto p)
    (Some v) (p_status p) (p_created_at p) (p_trans_id p) (p_updated_at p).
Definition set_status (v : string) (p : pedido) : pedido :=
  mk_pedido (p_id p) (p_cpf p) (p_nome p) (p_produto p) (p_valor p) (p_desconto p)
    (p_economia p) (Some v) (p_created_at p) (p_trans_id p) (p_updated_at p).
Definition set_created_at (v : string) (p : pedido) : pedido :=
  mk_pedido (p_id p) (p_cpf p) (p_nome p) (p_produto p) (p_valor p) (p_desconto p)
    (p_economia p) (p_status p) (Some v) (p_trans_id p) (p_updated_at p).
Definition set_trans_id (v : string) (p : pedido) : pedido :=
  mk_pedido (p_id p) (p_cpf p) (p_nome p) (p_produto p) (p_valor p) (p_desconto p)
    (p_economia p) (p_status p) (p_created_at p) (Some v) (p_updated_at p).

(** One row of the table [pedidos], columns in the order of [CREATE TABLE]. *)
Record row : Type := mk_row {
  id : string;
  cpf : string;
  nome : string;
  produto : string;
  valor : PyFloat.float;
  desconto : PyFloat.float;
  economia : PyFloat.float;
  status : string;
  created_at : string;
  trans_id : string;
  updated_at : string
}.

(** [dict(zip(keys, row))]. *)
Definition dict_of_row (r : row) : pedido :=
  mk_pedido (Some (id r)) (Some (cpf r)) (Some (nome r)) (Some (produto r))
    (Some (valor r)) (Some (desconto r)) (Some (economia r)) (Some (status r))
    (Some (created_at r)) (Some (trans_id r)) (Some (updated_at r)).

(** ** The SQLite database *)

(** [io_fails] holds while the file cannot be opened, read or written;
    [pedidos] is [None] until [init_db] has created the table, and lists
    the rows in the order of insertion afterwards. *)
Record database : Type := mk_db {
  io_fails : bool;
  pedidos : option (list row)
}.

Inductive exn : Type :=
| OperationalError   (* the file is out of reach, or there is no table *)
| IntegrityError     (* UNIQUE or NOT NULL constraint failed *)
| OverflowError      (* an integer parameter outside 64 bits *)
| KeyError (key : string).

(** The calls of [logger]: level, message template and arguments. *)
Inductive log_record : Type :=
| Info_database_initialized
| Error_initializing_database (e : exn)
| Info_order_added (pid : string)
| Error_adding_order (e : exn)
| Error_fetching_order (pid : string) (e : exn)
| Error_searching_orders (e : exn)
| Error_listing_orders (e : exn)
| Info_status_updated (pid status : string)
| Error_updating_status (e : exn).

(** [sqlite3.connect(DB_PATH)] and [conn.cursor()]. *)
Definition connect (db : database) : exn + unit :=
  if io_fails db then inl OperationalError else inr tt.

(** [cur.execute] of a statement on the table [pedidos]: the rows it
    works on, or the error of a missing table. *)
Definition execute_on_table (db : database) : exn + list row :=
  match pedidos db with
  | Some rows => inr rows
  | None => inl OperationalError
  end.

(** [connect] followed at once by [execute_on_table]. *)
Definition open_table (db : database) : exn + list row :=
  match connect db with
  | inl e => inl e
  | inr _ => execute_on_table db
  end.

Definition with_rows (rows : list row) (db : database) : database :=
  mk_db (io_fails db) (Some rows).

Definition is_nan (x : PyFloat.float) : bool :=
  match x with S754_nan => true | _ => false end.

(** What a [REAL] column holds for a float parameter.  SQLite keeps a
    whole number as an integer, so a negative zero comes back as [0.0];
    every other number and the infinities come back as they were.  A NaN
    is bound as NULL and comes back as [None]: in a row, and in the
    dictionary read from a row, [S754_nan] stands for that NULL. *)
Definition sql_real (x : PyFloat.float) : PyFloat.float :=
  match x with
  | S754_zero _ => PyFloat.zero
  | _ => x
  end.

(** The row that the table holds for the parameters [r]. *)
Definition stored (r : row) : row :=
  mk_row (id r) (cpf r) (nome r) (produto r) (sql_real (valor r))
    (sql_real (desconto r)) (sql_real (economia r)) (status r) (created_at r)
    (trans_id r) (updated_at r).

(** [INSERT INTO pedidos]: [id] is the primary key, and a NaN parameter is
    bound as NULL, which [valor REAL NOT NULL] refuses; [desconto] and
    [economia] may be NULL. *)
Definition sql_insert (r : row) (rows : list row) : exn + list row :=
  if existsb (fun r' => String.eqb (id r') (id r)) rows then inl IntegrityError
  else if is_nan (valor r) then inl IntegrityError
  else inr (rows ++ [stored r])%list.

(** [init_db]: [CREATE TABLE IF NOT EXISTS]; an error is logged and raised
    again. *)
Definition init_db (db : database) : (exn + unit) * database * list log_record :=
  if io_fails db
  then (inl OperationalError, db, [Error_initializing_database OperationalError])
  else (inr tt, with_rows (default [] (pedidos db)) db, [Info_database_initialized]).

Definition or_default {A : Type} (d : A) (o : option A) : A := default d o.

(** The parameters of the [INSERT] of [add_pedido_db], in the order of
    the columns: [pedido['id']], then [pedido.get(key, default)] for the
    other keys; [now_default] and [now] are the texts of the two
    [datetime.now().strftime('%d/%m/%Y %H:%M:%S')], the default of
    [created_at] and the value of [updated_at]. *)
Definition insert_parameters (now_default now pid : string) (pedido : pedido) : row :=
  mk_row pid
    (or_default "" (p_cpf pedido))
    (or_default "" (p_nome pedido))
    (or_default "" (p_produto pedido))
    (or_default PyFloat.zero (p_valor pedido))
    (or_default PyFloat.zero (p_desconto pedido))
    (or_default PyFloat.zero (p_economia pedido))
    (or_default "pendente" (p_status pedido))
    (or_default now_default (p_created_at pedido))
    (or_default "" (p_trans_id pedido))
    now.

(** [add_pedido_db]: a missing ['id'] raises [KeyError] inside the [try],
    like the errors of the database. *)
Definition add_pedido_db (now_default now : string) (pedido : pedido) (db : database)
  : bool * database * list log_record :=
  match connect db with
  | inl e => (false, db, [Error_adding_order e])
  | inr _ =>
      match p_id pedido with
      | None => (false, db, [Error_adding_order (KeyError "id")])
      | Some pid =>
          match execute_on_table db with
          | inl e => (false, db, [Error_adding_order e])
          | inr rows =>
              match sql_insert (insert_parameters now_default now pid pedido) rows with
              | inl e => (false, db, [Error_adding_order e])
              | inr rows' => (true, with_rows rows' db, [Info_order_added pid])
              end
          end
      end
  end.

(** [get_pedido_by_id]: the first row of [SELECT * FROM pedidos WHERE id = ?]. *)
Definition get_pedido_by_id (pid : string) (db : database)
  : option pedido * list log_record :=
  match open_table db with
  | inl e => (None, [Error_fetching_order pid e])
  | inr rows =>
      match find (fun r => String.eqb (id r) pid) rows with
      | Some r => (Some (dict_of_row r), [])
      | None => (None, [])
      end
  end.

(** *** [LIKE], [ORDER BY] and [LIMIT] *)

Module Sql.

(** SQLite's [LIKE] compares letters of the ASCII range without regard
    to case. *)
Definition fold_char (c : ascii) : ascii :=
  if PyStr.is_ascii_upper c then PyStr.shift_up c else c.

Definition char_eq_nocase (a b : ascii) : bool :=
  Ascii.eqb (fold_char a) (fold_char b).

(** [s LIKE p]: [%] stands for any run of characters, [_] for any one
    character; there is no escape character.  The patterns of the bot
    are made from the text of a Telegram message, at most 4096
    characters without a NUL; what SQLite does with a NUL in a pattern
    and with a pattern over 50000 bytes is not modelled. *)
Fixpoint like (p s : string) : bool :=
  match p with
  | EmptyString => PyStr.is_empty s
  | String c p' =>
      if Ascii.eqb c "%" then
        (fix any (t : string) : bool :=
           like p' t ||
           match t with
           | EmptyString => false
           | String _ t' => any t'
           end) s
      else
        match s with
        | EmptyString => false
        | String d s' =>
            (Ascii.eqb c "_" || char_eq_nocase c d) && like p' s'
        end
  end.

(** [ORDER BY created_at DESC] compares the stored texts character by
    character; rows with equal texts stay in the order of insertion. *)
Fixpoint insert_desc (r : row) (sorted : list row) : list row :=
  match sorted with
  | [] => [r]
  | r' :: rest =>
      if String.leb (created_at r') (created_at r)
      then r :: sorted
      else r' :: insert_desc r rest
  end.

Definition order_by_created_at_desc (rows : list row) : list row :=
  fold_right insert_desc [] rows.

Definition int64 (n : Z) : bool :=
  ((- 2 ^ 63 <=? n) && (n <? 2 ^ 63))%Z.

(** [LIMIT n]: a negative [n] means no limit. *)
Definition limit_rows (n : Z) (rows : list row) : list row :=
  if (n <? 0)%Z then rows else firstn (Z.to_nat n) rows.

End Sql.

Definition like_term (term : string) : string := "%" ++ term ++ "%".

(** The [WHERE] clause of [search_pedidos]. *)
Definition row_matches (term : string) (r : row) : bool :=
  Sql.like (like_term term) (id r) || Sql.like (like_term term) (cpf r) ||
  Sql.like (like_term term) (nome r).

(** [search_pedidos]; the callers use the default [limit] of 20. *)
Definition search_pedidos (term : string) (limit : Z) (db : database)
  : list pedido * list log_record :=
  match open_table db with
  | inl e => ([], [Error_searching_orders e])
  | inr rows =>
      if Sql.int64 limit
      then (map dict_of_row
              (Sql.limit_rows limit
                 (Sql.order_by_created_at_desc (List.filter (row_matches term) rows))),
            [])
      else ([], [Error_searching_orders OverflowError])
  end.

(** [list_recent]. *)
Definition list_recent (limit : Z) (db : database)
  : list pedido * list log_record :=
  match open_table db with
  | inl e => ([], [Error_listing_orders e])
  | inr rows =>
      if Sql.int64 limit
      then (map dict_of_row
              (Sql.limit_rows limit (Sql.order_by_created_at_desc rows)), [])
      else ([], [Error_listing_orders OverflowError])
  end.

Definition set_row_status (st now : string) (r : row) : row :=
  mk_row (id r) (cpf r) (nome r) (produto r) (valor r) (desconto r)
    (economia r) st (created_at r) (trans_id r) now.

(** [UPDATE pedidos SET status = ?, updated_at = ? WHERE id = ?]. *)
Definition sql_update_status (pid st now : string) (rows : list row) : list row :=
  map (fun r => if String.eqb (id r) pid then set_row_status st now r else r) rows.

(** [update_pedido_status]. *)
Definition update_pedido_status (now : string) (pid st : string) (db : database)
  : bool * database * list log_record :=
  match open_table db with
  | inl e => (false, db, [Error_updating_status e])
  | inr rows =>
      (true, with_rows (sql_update_status pid st now rows) db,
       [Info_status_updated pid st])
  end.

(** ** [uuid.uuid4] *)

Module PyUuid.

Definition hex_digit (n : N) : ascii :=
  if (n <? 10)%N then ascii_of_N (48 + n) else ascii_of_N (87 + n).

(** The [k] lowest hexadecimal digits of [n], highest first. *)
Fixpoint hex_from (k : nat) (n : N) : string :=
  match k with
  | O => EmptyString
  | S k' => String (hex_digit ((n / 16 ^ N.of_nat k') mod 16)%N) (hex_from k' n)
  end.

(** [uuid4()] from the sixteen random bytes read as a number: the
    variant bits become 10, the version bits become 4. *)
Definition uuid4 (random : N) : N :=
  let n := (random mod 2 ^ 128)%N in
  let n := N.lor (N.ldiff n (N.shiftl 49152 48)) (N.shiftl 32768 48) in
  N.lor (N.ldiff n (N.shiftl 61440 64)) (N.shiftl 4 76).

(** [str(u)]: [%032x] cut into groups of 8, 4, 4, 4 and 12 digits. *)
Definition str (u : N) : string :=
  let hex := hex_from 32 u in
  PyStr.take 8 hex ++ "-" ++ PyStr.take 4 (PyStr.drop 8 hex) ++ "-" ++
  PyStr.take 4 (PyStr.drop 12 hex) ++ "-" ++ PyStr.take 4 (PyStr.drop 16 hex) ++
  "-" ++ PyStr.drop 20 hex.

End PyUuid.

(** ** The intake workflow *)

Inductive conv_state : Type :=
| ASK_ID | ASK_CPF | ASK_NAME | ASK_PRODUCT | ASK_VALUE | ASK_DISCOUNT
| ASK_ECONOMY | ASK_TRANSID | ASK_DATE_CONFIRM
| END.   (* ConversationHandler.END *)

(** The texts sent with [reply_text], one constructor per message. *)
Inductive reply : Type :=
| Reply_access_denied
| Reply_ask_id
| Reply_id_generated (pid : string)
| Reply_id_exists
| Reply_ask_cpf
| Reply_cpf_invalid
| Reply_ask_name
| Reply_name_too_short
| Reply_ask_product
| Reply_product_too_short
| Reply_ask_value
| Reply_value_invalid
| Reply_ask_discount
| Reply_discount_invalid
| Reply_discount_above_value
| Reply_ask_transid
| Reply_ask_date
| Reply_date_invalid
| Reply_saved (pid : string)
| Reply_save_error
| Reply_cancelled.

(** What one handler call leaves behind: the state it returns, the
    [context.user_data] dictionary, the database, the messages sent and
    the log records written. *)
Record result : Type := mk_result {
  next : conv_state;
  user_data : gmap string pedido;
  store : database;
  replies : list reply;
  logged : list log_record
}.

(** What a handler reads from outside: the random bytes of [uuid4], the
    successive values of [datetime.now()], and whether Telegram takes a
    message.  A text sent with [parse_mode='Markdown'] is refused with
    [BadRequest] when its entities do not parse, as with an unpaired [_];
    [delivers] is asked for the one reply of the workflow whose Markdown
    text holds a typed value, the confirmation with the id of the order.
    The fixed texts, and the reply with a generated id (hexadecimal digits
    and hyphens between backquotes), are taken to be delivered. *)
Record oracle : Type := mk_oracle {
  uuid_random : N;
  clock : nat -> PyDate.datetime;
  delivers : reply -> bool
}.

(** Why a handler raised: a missing key of a dictionary, or a message
    that Telegram refused. *)
Inductive failure : Type := Missing_key | Refused_send.

(** How a handler call ends: it returns, or it raises and leaves
    [context.user_data], the database and the log as they are at that
    point. *)
Inductive handled : Type :=
| Returns (r : result)
| Raises (e : failure) (ud : gmap string pedido) (db : database)
    (lg : list log_record).

(** A handler that raises only before it has changed anything. *)
Definition raising_at_once (ud : gmap string pedido) (db : database)
    (h : option result) : handled :=
  match h with
  | Some r => Returns r
  | None => Raises Missing_key ud db []
  end.

Definition now_text (o : oracle) (k : nat) : string := PyDate.strftime (clock o k).

(** [context.user_data['pedido'][key] = value]; [None] is the [KeyError]
    of a dictionary without ['pedido']. *)
Definition update_draft (f : pedido -> pedido) (ud : gmap string pedido)
  : option (gmap string pedido) :=
  match ud !! "pedido" with
  | Some p => Some (<["pedido" := f p]> ud)
  | None => None
  end.

Definition add_pedido_start (ADMIN_ID : option Z) (user_id : Z)
    (ud : gmap string pedido) (db : database) : option result :=
  match ADMIN_ID with
  | Some a =>
      if negb (a =? 0)%Z && negb (user_id =? a)%Z
      then Some (mk_result END ud db [Reply_access_denied] [])
      else Some (mk_result ASK_ID ud db [Reply_ask_id] [])
  | None => Some (mk_result ASK_ID ud db [Reply_ask_id] [])
  end.

Definition add_pedido_id (o : oracle) (message_text : string)
    (ud : gmap string pedido) (db : database) : option result :=
  let text := sanitize_input (PyStr.strip message_text) 255 in
  if String.eqb (PyStr.lower text) "gerar" then
    let pid := PyUuid.str (PyUuid.uuid4 (uuid_random o)) in
    Some (mk_result ASK_CPF (<["pedido" := new_pedido pid]> ud) db
            [Reply_id_generated pid; Reply_ask_cpf] [])
  else
    let '(existing, lg) := get_pedido_by_id text db in
    match existing with
    | Some _ => Some (mk_result ASK_ID ud db [Reply_id_exists] lg)
    | None =>
        Some (mk_result ASK_CPF (<["pedido" := new_pedido text]> ud) db
                [Reply_ask_cpf] lg)
    end.

Definition add_pedido_cpf (message_text : string)
    (ud : gmap string pedido) (db : database) : option result :=
  let text := sanitize_input (PyStr.strip message_text) 255 in
  if String.eqb (PyStr.lower text) "pular" then
    match update_draft (set_cpf "") ud with
    | Some ud' => Some (mk_result ASK_NAME ud' db [Reply_ask_name] [])
    | None => None
    end
  else if negb (validate_cpf text) then
    Some (mk_result ASK_CPF ud db [Reply_cpf_invalid] [])
  else
    match update_draft (set_cpf (PyStr.digits_only text)) ud with
    | Some ud' => Some (mk_result ASK_NAME ud' db [Reply_ask_name] [])
    | None => None
    end.

Definition add_pedido_name (message_text : string)
    (ud : gmap string pedido) (db : database) : option result :=
  let text := sanitize_input (PyStr.strip message_text) 200 in
  if Nat.ltb (PyStr.len text) 3 then
    Some (mk_result ASK_NAME ud db [Reply_name_too_short] [])
  else
    match update_draft (set_nome text) ud with
    | Some ud' => Some (mk_result ASK_PRODUCT ud' db [Reply_ask_product] [])
    | None => None
    end.

Definition add_pedido_product (message_text : string)
    (ud : gmap string pedido) (db : database) : option result :=
  let text := sanitize_input (PyStr.strip message_text) 300 in
  if Nat.ltb (PyStr.len text) 3 then
    Some (mk_result ASK_PRODUCT ud db [Reply_product_too_short] [])
  else
    match update_draft (set_produto text) ud with
    | Some ud' => Some (mk_result ASK_VALUE ud' db [Reply_ask_value] [])
    | None => None
    end.

Definition add_pedido_value (message_text : string)
    (ud : gmap string pedido) (db : database) : option result :=
  match validate_value message_text with
  | None => Some (mk_result ASK_VALUE ud db [Reply_value_invalid] [])
  | Some value =>
      match update_draft (set_valor value) ud with
      | Some ud' => Some (mk_result ASK_DISCOUNT ud' db [Reply_ask_discount] [])
      | None => None
      end
  end.

Definition add_pedido_discount (message_text : string)
    (ud : gmap string pedido) (db : database) : option result :=
  match validate_value message_text with
  | None => Some (mk_result ASK_DISCOUNT ud db [Reply_discount_invalid] [])
  | Some discount =>
      match ud !! "pedido" with
      | None => None
      | Some p =>
          match p_valor p with
          | None => None
          | Some valor =>
              if PyFloat.gt discount valor then
                Some (mk_result ASK_DISCOUNT ud db [Reply_discount_above_value] [])
              else
                Some (mk_result ASK_TRANSID
                        (<["pedido" := set_economia discount (set_desconto discount p)]> ud)
                        db [Reply_ask_transid] [])
          end
      end
  end.

Definition add_pedido_transid (message_text : string)
    (ud : gmap string pedido) (db : database) : option result :=
  let text := sanitize_input (PyStr.strip message_text) 255 in
  match update_draft
          (set_trans_id (if String.eqb (PyStr.lower text) "pular" then "" else text))
          ud with
  | Some ud' => Some (mk_result ASK_DATE_CONFIRM ud' db [Reply_ask_date] [])
  | None => None
  end.

(** [add_pedido_date].  The two assignments change the draft inside
    [user_data]; the confirmation is sent after the row is written and
    before [user_data.clear()], outside any [try]: when Telegram refuses
    it the handler raises with the row written and the draft kept. *)
Definition add_pedido_date (o : oracle) (message_text : string)
    (ud : gmap string pedido) (db : database) : handled :=
  let text := PyStr.strip message_text in
  match validate_date (clock o 0) text with
  | None => Returns (mk_result ASK_DATE_CONFIRM ud db [Reply_date_invalid] [])
  | Some date_validated =>
      match ud !! "pedido" with
      | None => Raises Missing_key ud db []
      | Some p =>
          let p' := set_status "pendente" (set_created_at date_validated p) in
          let ud' := <["pedido" := p']> ud in
          let '(success, db', lg) := add_pedido_db (now_text o 1) (now_text o 2) p' db in
          match success, p_id p' with
          | true, Some pedido_id =>
              if delivers o (Reply_saved pedido_id)
              then Returns (mk_result END ∅ db' [Reply_saved pedido_id] lg)
              else Raises Refused_send ud' db' lg
          | true, None => Raises Missing_key ud' db' lg
          | false, _ => Returns (mk_result END ∅ db' [Reply_save_error] lg)
          end
      end
  end.

Definition cancel (ud : gmap string pedido) (db : database) : option result :=
  Some (mk_result END ∅ db [Reply_cancelled] []).

(** *** The conversation *)

(** The updates that reach the bot while one user talks to it.  A
    [Message] is a text that is not a command. *)
Inductive update : Type :=
| Command_add_pedido (user_id : Z)
| Command_cancel
| Message (text : string)
| Callback_markdel (pid : string).

Record conversation : Type := mk_conversation {
  conv : conv_state;
  data : gmap string pedido;
  base : database
}.

(** The handler that [ConversationHandler] and the application pick for an
    update: the entry point outside a conversation, the handler of the
    current state for a message, [cancel] as the fallback.  An update
    without a handler changes nothing.  The button [markdel] is handled
    outside the conversation, which keeps its state and [user_data]
    whether the handler returns or raises; here it is the update of the
    status, and what the button answers is in [callbacks] below. *)
Definition dispatch (ADMIN_ID : option Z) (o : oracle) (u : update) (c : conversation)
  : handled :=
  let ud := data c in
  let db := base c in
  match u, conv c with
  | Callback_markdel pid, st =>
      let '(_, db', lg) := update_pedido_status (now_text o 0) pid "entregue" db in
      Returns (mk_result st ud db' [] lg)
  | Command_add_pedido uid, END => raising_at_once ud db (add_pedido_start ADMIN_ID uid ud db)
  | Command_add_pedido _, st => Returns (mk_result st ud db [] [])
  | _, END => Returns (mk_result END ud db [] [])
  | Command_cancel, _ => raising_at_once ud db (cancel ud db)
  | Message t, ASK_ID => raising_at_once ud db (add_pedido_id o t ud db)
  | Message t, ASK_CPF => raising_at_once ud db (add_pedido_cpf t ud db)
  | Message t, ASK_NAME => raising_at_once ud db (add_pedido_name t ud db)
  | Message t, ASK_PRODUCT => raising_at_once ud db (add_pedido_product t ud db)
  | Message t, ASK_VALUE => raising_at_once ud db (add_pedido_value t ud db)
  | Message t, ASK_DISCOUNT => raising_at_once ud db (add_pedido_discount t ud db)
  | Message t, ASK_TRANSID => raising_at_once ud db (add_pedido_transid t ud db)
  | Message t, ASK_DATE_CONFIRM => add_pedido_date o t ud db
  | Message _, ASK_ECONOMY => Returns (mk_result ASK_ECONOMY ud db [] [])
  end.

(** One update.  When the handler returns, the conversation goes to the
    state it returned; when it raises, [ConversationHandler] keeps the
    state, and what the handler had done to [user_data] and to the
    database stays done. *)
Definition conv_step (ADMIN_ID : option Z) (c : conversation) (ev : oracle * update)
  : conversation :=
  match dispatch ADMIN_ID (fst ev) (snd ev) c with
  | Returns r => mk_conversation (next r) (user_data r) (store r)
  | Raises _ ud db _ => mk_conversation (conv c) ud db
  end.

Definition conv_run (ADMIN_ID : option Z) (c : conversation)
    (evs : list (oracle * update)) : conversation :=
  fold_left (conv_step ADMIN_ID) evs c.

(** ** The receipt *)

Inductive style : Type := Style_title | Style_subtitle | Style_footer.

(** The flowables handed to [doc.build]; lengths are in millimetres.  The
    table style, which only affects the layout, is left out. *)
Inductive flowable : Type :=
| Paragraph (text : string) (st : style)
| Spacer (width height : N)
| Table (cells : list (list string)) (col_widths : list N).

Definition c_cedilla : string := String (ascii_of_N 231) "".
Definition a_tilde : string := String (ascii_of_N 227) "".
Definition e_acute : string := String (ascii_of_N 233) "".
Definition o_tilde : string := String (ascii_of_N 245) "".

Definition money (x : PyFloat.float) : string := "R$ " ++ PyFloat.format_2f x.

Fixpoint repeat_string (s : string) (n : nat) : string :=
  match n with
  | O => EmptyString
  | S n' => s ++ repeat_string s n'
  end.

(** The rows of the table [data] in [generate_pdf_bytes]. *)
Definition receipt_table (pedido : pedido) : list (list string) :=
  [ ["Campo"; "Valor"];
    ["ID do Pedido"; or_default "N/A" (p_id pedido)];
    ["ID da Transa" ++ c_cedilla ++ a_tilde ++ "o"; or_default "N/A" (p_trans_id pedido)];
    ["Nome do Cliente"; or_default "N/A" (p_nome pedido)];
    ["CPF"; or_default "N/A" (p_cpf pedido)];
    ["Produto"; or_default "N/A" (p_produto pedido)];
    ["Valor Original"; money (or_default PyFloat.zero (p_valor pedido))];
    ["Desconto"; money (or_default PyFloat.zero (p_desconto pedido))];
    ["Economia"; money (or_default PyFloat.zero (p_economia pedido))];
    ["Valor Final";
     money (PyFloat.sub (or_default PyFloat.zero (p_valor pedido))
                        (or_default PyFloat.zero (p_desconto pedido)))];
    ["Status"; PyStr.upper (or_default "N/A" (p_status pedido))] ].

(** [generate_pdf_bytes], up to the list of flowables that reportlab lays
    out into the bytes of the PDF; [now] is the text of [datetime.now()]. *)
Definition generate_pdf_bytes (now : string) (pedido : pedido) : list flowable :=
  let dt := or_default now (p_created_at pedido) in
  [ Paragraph "COMPROVANTE DE PEDIDO" Style_title;
    Spacer 1 6;
    Paragraph ("<b>Data/Hora:</b> " ++ dt) Style_subtitle;
    Spacer 1 10;
    Table (receipt_table pedido) [70; 90]%N;
    Spacer 1 15;
    Spacer 1 10;
    Paragraph
      ("Este comprovante foi gerado automaticamente pelo sistema e cont" ++ e_acute ++
       "m as informa" ++ c_cedilla ++ o_tilde ++ "es registradas no momento do cadastro.")
      Style_footer;
    Spacer 1 8;
    Paragraph (repeat_string "_" 50) Style_footer;
    Paragraph "Assinatura" Style_footer ].

(** The text cells of a document, for statements about what it shows. *)
Definition cells_of (f : flowable) : list string :=
  match f with
  | Paragraph t _ => [t]
  | Spacer _ _ => []
  | Table cells _ => concat cells
  end.

Definition document_texts (doc : list flowable) : list string :=
  concat (map cells_of doc).

(** ** Store states and the vocabulary of the properties *)

(** The store states that the operations of the program can produce,
    starting from a file without the table; the environment may make the
    file unreachable or reachable again at any time. *)
Inductive reachable : database -> Prop :=
| reach_fresh (b : bool) : reachable (mk_db b None)
| reach_io (db : database) (b : bool) :
    reachable db -> reachable (mk_db b (pedidos db))
| reach_init (db : database) :
    reachable db -> reachable (snd (fst (init_db db)))
| reach_add (db : database) (now_default now : string) (p : pedido) :
    reachable db -> reachable (snd (fst (add_pedido_db now_default now p db)))
| reach_update (db : database) (now pid st : string) :
    reachable db -> reachable (snd (fst (update_pedido_status now pid st db))).

(** The match of the specification: [term] occurs, letter for letter, in
    [id], [cpf] or [nome]. *)
Definition occurs_case_sensitive (term : string) (r : row) : bool :=
  PyStr.contains term (id r) || PyStr.contains term (cpf r) ||
  PyStr.contains term (nome r).

(** A term without the two wildcard characters of [LIKE]. *)
Fixpoint no_wildcard (term : string) : bool :=
  match term with
  | EmptyString => true
  | String c t => negb (Ascii.eqb c "%") && negb (Ascii.eqb c "_") && no_wildcard t
  end.

(** [term] occurs in [s] when the ASCII letters are compared without
    regard to case. *)
Definition occurs_nocase (term s : string) : Prop :=
  exists pre mid post : string,
    s = pre ++ mid ++ post /\
    PyStr.map_chars Sql.fold_char mid = PyStr.map_chars Sql.fold_char term.

(** The length bounds of the text columns. *)
Definition row_bounded (r : row) : Prop :=
  PyStr.len (id r) <= 255 /\ PyStr.len (cpf r) <= 255 /\
  PyStr.len (trans_id r) <= 255 /\ PyStr.len (nome r) <= 200 /\
  PyStr.len (produto r) <= 300.

Definition rows_of (db : database) : list row := default [] (pedidos db).

(** ** Sample data *)

Module Sample.

Definition now : PyDate.datetime := PyDate.mk_datetime 2024 1 31 10 0 0.

Definition now_str : string := PyDate.strftime now.

Definition the_oracle : oracle := mk_oracle 0 (fun _ => now) (fun _ => true).

(** The same, with a Telegram that refuses every confirmation. *)
Definition the_refusing_oracle : oracle := mk_oracle 0 (fun _ => now) (fun _ => false).

Definition amount (units : N) : PyFloat.float := PyFloat.of_decimal false units 0.

(** The order of the end-to-end scenario: ORD1, Maria Silva, Wireless
    Mouse, 150.00 with a discount of 10.00. *)
Definition ord1 : row :=
  mk_row "ORD1" "" "Maria Silva" "Wireless Mouse" (amount 150) (amount 10)
    (amount 10) "pendente" "31/01/2024 10:00:00" "" "31/01/2024 10:00:00".

(** A later order whose [created_at] text sorts before that of [ord1]. *)
Definition ord2 : row :=
  mk_row "ORD2" "12345678901" "Joao Souza" "Keyboard" (amount 80) (amount 0)
    (amount 0) "pendente" "01/02/2024 09:30:00" "" "01/02/2024 09:30:00".

Definition draft1 : pedido :=
  mk_pedido (Some "ORD1") (Some "") (Some "Maria Silva") (Some "Wireless Mouse")
    (Some (amount 150)) (Some (amount 10)) (Some (amount 10)) None None (Some "")
    None.

Definition db_fresh : database := mk_db false None.
Definition db_empty : database := mk_db false (Some []).
Definition db_down : database := mk_db true (Some []).
Definition db_one : database := mk_db false (Some [ord1]).
Definition db_two : database := mk_db false (Some [ord1; ord2]).

(** The end-to-end scenario of the specification, with the words the bot
    understands ([pular] to skip, [agora] for the current time). *)
Definition scenario : list (oracle * update) :=
  map (fun u => (the_oracle, u))
    [ Command_add_pedido 1; Message "ORD1"; Message "pular"; Message "Maria Silva";
      Message "Wireless Mouse"; Message "150,00"; Message "10"; Message "pular";
      Message "agora" ].

End Sample.

(** [x] is a zero, a finite number or an infinity of sign [s]. *)
Definition has_sign (s : bool) (x : PyFloat.float) : Prop :=
  match x with
  | S754_nan => False
  | S754_zero s' | S754_infinity s' | S754_finite s' _ _ => s' = s
  end.

(** What [replace(',', '.')] does to one character. *)
Definition comma_to_dot (c : ascii) : ascii :=
  if Ascii.eqb c "," then "."%char else c.

(** A text of four digits, as [%Y] wants it. *)
Definition four_digits (t : string) : bool :=
  match t with
  | String a (String b (String c (String d EmptyString))) =>
      PyStr.is_digit a && PyStr.is_digit b && PyStr.is_digit c && PyStr.is_digit d
  | _ => false
  end.

(** The year [y] is printed with four digits and read back as [y]. *)
Definition year_prints_well (y : N) : bool :=
  (y <? 1000)%N ||
  (four_digits (PyFloat.string_of_N y) &&
   (PyDate.int_of_group (PyFloat.string_of_N y) =? y)%N).

(** ** The invariant of the conversation *)

Definition opt_len_le (n : nat) (o : option string) : Prop :=
  match o with
  | Some s => PyStr.len s <= n
  | None => True
  end.

(** The draft has an id, and the texts it holds respect the bounds. *)
Definition draft_bounded (p : pedido) : Prop :=
  (exists pid, p_id p = Some pid /\ PyStr.len pid <= 255) /\
  opt_len_le 255 (p_cpf p) /\ opt_len_le 255 (p_trans_id p) /\
  opt_len_le 200 (p_nome p) /\ opt_len_le 300 (p_produto p).

(** The states in which the id of the draft has been accepted. *)
Definition has_draft (st : conv_state) : bool :=
  match st with
  | END | ASK_ID => false
  | _ => true
  end.

Definition text_fields (r : row) : string * string * string * string * string :=
  (id r, cpf r, nome r, produto r, trans_id r).

(** A row that the workflow created, with bounded texts, or a row that
    was in the table [rows0] before (its status may have changed). *)
Definition bounded_or_old (rows0 : list row) (r : row) : Prop :=
  row_bounded r \/ exists r0, In r0 rows0 /\ text_fields r = text_fields r0.

Definition conv_inv (rows0 : list row) (c : conversation) : Prop :=
  Forall (bounded_or_old rows0) (rows_of (base c)) /\
  (has_draft (conv c) = true ->
   exists p, data c !! "pedido" = Some p /\ draft_bounded p).

(** What a handler has to keep for the invariant: the rows, and the draft
    when its next state has one. *)
Definition keeps (rows0 : list row) (r : result) : Prop :=
  Forall (bounded_or_old rows0) (rows_of (store r)) /\
  (has_draft (next r) = true ->
   exists p, user_data r !! "pedido" = Some p /\ draft_bounded p).

(** Descending order of the [created_at] texts, as [String.leb] compares
    them. *)
Definition created_at_ge (a b : row) : Prop :=
  String.leb (created_at b) (created_at a) = true.

(** ** The query commands *)

Inductive button_kind : Type := Button_pdf | Button_markdel.

(** An inline button: what it shows and the [callback_data] it sends. *)
Record button : Type := mk_button {
  kind : button_kind;
  callback_data : string
}.

(** The values that the f-string [resumo] of [buscar_cmd] prints. *)
Record summary : Type := mk_summary {
  s_id : string;
  s_nome : string;
  s_cpf : string;
  s_produto : string;
  s_valor : string;
  s_desconto : string;
  s_valor_final : string;
  s_status : string;
  s_data : string
}.

(** The values that one entry of the message of [listar_cmd] prints. *)
Record list_entry : Type := mk_list_entry {
  e_id : string;
  e_nome : string;
  e_valor : string;
  e_status : string;
  e_data : string
}.

(** What the query commands and the buttons send, one constructor per
    message: [reply_text], [send_document] and [edit_message_text]. *)
Inductive answer : Type :=
| Answer_search_usage
| Answer_none_found
| Answer_found (count : nat)
| Answer_summary (s : summary) (keyboard : list button)
| Answer_no_orders_yet
| Answer_list (entries : list list_entry)
| Answer_pdf_usage
| Answer_order_not_found
| Answer_generating
| Answer_document (filename : string) (caption_pid : string) (pdf : list flowable)
| Answer_pdf_error
| Edit_order_not_found
| Edit_pdf_sent (text : string)
| Edit_pdf_error
| Edit_marked_delivered (text : string)
| Edit_status_error.

(** [sep.join(args)]. *)
Fixpoint join (sep : string) (args : list string) : string :=
  match args with
  | [] => EmptyString
  | [a] => a
  | a :: rest => a ++ sep ++ join sep rest
  end.

(** [p['cpf'] or 'N/A']. *)
Definition or_na (s : string) : string :=
  if PyStr.is_empty s then "N/A" else s.

(** How a command handler ends. *)
Inductive ending : Type := Returned | Raised.

(** [context.args] of a command: the words of the message after the
    first, the command itself. *)
Definition command_args (message_text : string) : list string :=
  tl (PyStr.split message_text).

(** The summary of one search result; [None] is an exception: the
    [KeyError] of a dictionary without one of the keys, or the
    [TypeError] of [p['valor'] - p['desconto']] when [desconto] is the
    [None] read from a NULL. *)
Definition summary_of (p : pedido) : option summary :=
  match p_valor p, p_desconto p, p_id p, p_nome p, p_cpf p, p_produto p,
        p_status p, p_created_at p with
  | Some v, Some d, Some i, Some n, Some c, Some pr, Some st, Some dt =>
      if is_nan d then None
      else
        Some (mk_summary i n (or_na c) pr (PyFloat.format_2f v) (PyFloat.format_2f d)
                (PyFloat.format_2f (PyFloat.sub v d)) (PyStr.upper st) dt)
  | _, _, _, _, _, _, _, _ => None
  end.

Definition keyboard_of (pid : string) : list button :=
  [ mk_button Button_pdf ("pdf|" ++ pid);
    mk_button Button_markdel ("markdel|" ++ pid) ].

(** The loop of [buscar_cmd] over [results[:10]]: one Markdown message
    with its keyboard per result.  [sends] tells whether Telegram takes a
    message: it refuses a text whose Markdown does not parse and a button
    whose [callback_data] is too long.  The loop is not in a [try]: the
    first result that raises, or whose message is refused, ends it and
    the handler raises. *)
Fixpoint summaries (sends : answer -> bool) (results : list pedido)
  : list answer * ending :=
  match results with
  | [] => ([], Returned)
  | p :: rest =>
      match summary_of p with
      | None => ([], Raised)
      | Some s =>
          if sends (Answer_summary s (keyboard_of (s_id s)))
          then
            let '(sent, e) := summaries sends rest in
            (Answer_summary s (keyboard_of (s_id s)) :: sent, e)
          else ([], Raised)
      end
  end.

(** [buscar_cmd]; [args] are the words after the command. *)
Definition buscar_cmd (sends : answer -> bool) (args : list string) (db : database)
  : list answer * list log_record * ending :=
  match args with
  | [] => ([Answer_search_usage], [], Returned)
  | _ :: _ =>
      let term := join " " args in
      let '(results, lg) := search_pedidos term 20 db in
      match results with
      | [] => ([Answer_none_found], lg, Returned)
      | _ :: _ =>
          let '(sent, e) := summaries sends (firstn 10 results) in
          (Answer_found (length results) :: sent, lg, e)
      end
  end.

(** The entry of one row in [listar_cmd]; [None] is an exception, as in
    [summary_of]. *)
Definition list_entry_of (r : pedido) : option list_entry :=
  match p_valor r, p_desconto r, p_id r, p_nome r, p_status r, p_created_at r with
  | Some v, Some d, Some i, Some n, Some st, Some dt =>
      if is_nan d then None
      else
        Some (mk_list_entry (PyStr.take 8 i ++ "...") n
                (PyFloat.format_2f (PyFloat.sub v d)) (PyStr.upper st) dt)
  | _, _, _, _, _, _ => None
  end.

Fixpoint list_entries (rows : list pedido) : option (list list_entry) :=
  match rows with
  | [] => Some []
  | r :: rest =>
      match list_entry_of r, list_entries rest with
      | Some e, Some es => Some (e :: es)
      | _, _ => None
      end
  end.

(** [listar_cmd]: one Markdown message with an entry per row, sent
    outside any [try]; a row that raises, or a message that Telegram
    refuses, leaves nothing sent. *)
Definition listar_cmd (sends : answer -> bool) (db : database)
  : list answer * list log_record * ending :=
  let '(rows, lg) := list_recent 10 db in
  match rows with
  | [] => ([Answer_no_orders_yet], lg, Returned)
  | _ :: _ =>
      match list_entries rows with
      | Some es =>
          if sends (Answer_list es) then ([Answer_list es], lg, Returned)
          else ([], lg, Raised)
      | None => ([], lg, Raised)
      end
  end.

(** What the handlers log: the records of the store functions they call
    and their own three. *)
Inductive handler_log : Type :=
| Store_log (l : log_record)
| Info_pdf_generated (pid : string)
| Error_generating_pdf
| Error_callback_pdf.

(** An amount that is the [None] read from a NULL: [generate_pdf_bytes]
    raises [TypeError] when it formats it. *)
Definition null_amount (p : pedido) : bool :=
  match p_desconto p, p_economia p with
  | Some d, Some e => is_nan d || is_nan e
  | Some d, None => is_nan d
  | None, Some e => is_nan e
  | None, None => false
  end.

(** Building and sending the document, the beginning of the [try] block
    of [pdf_cmd] and of the button: [None] is an exception, raised by
    [generate_pdf_bytes] or by [send_document]. *)
Definition send_receipt (sends : answer -> bool) (now pid : string) (p : pedido)
  : option answer :=
  if null_amount p then None
  else if sends (Answer_document ("comprovante_" ++ pid ++ ".pdf") pid
                   (generate_pdf_bytes now p))
  then Some (Answer_document ("comprovante_" ++ pid ++ ".pdf") pid
               (generate_pdf_bytes now p))
  else None.

(** [pdf_cmd]. *)
Definition pdf_cmd (sends : answer -> bool) (now : string) (args : list string)
    (db : database) : list answer * list handler_log :=
  match args with
  | [] => ([Answer_pdf_usage], [])
  | pid :: _ =>
      let '(found, lg) := get_pedido_by_id pid db in
      match found with
      | None => ([Answer_order_not_found], map Store_log lg)
      | Some p =>
          match send_receipt sends now pid p with
          | Some doc =>
              ([Answer_generating; doc],
               (map Store_log lg ++ [Info_pdf_generated pid])%list)
          | None =>
              ([Answer_generating; Answer_pdf_error],
               (map Store_log lg ++ [Error_generating_pdf])%list)
          end
      end
  end.

(** [s.split(sep, 1)[1]]: the text after the first [sep]; [None] is the
    [IndexError] of a text without [sep]. *)
Fixpoint after_first (sep : ascii) (s : string) : option string :=
  match s with
  | EmptyString => None
  | String c s' => if Ascii.eqb c sep then Some s' else after_first sep s'
  end.

(** [callbacks]: the handler of the inline buttons; [message_text] is the
    text of the message that carries the button.  In the branch [pdf] the
    edit that follows the document is inside the [try]; in the branch
    [markdel] the edit is not, and a refused edit raises after the
    update. *)
Definition callbacks (sends : answer -> bool) (now : string)
    (data message_text : string) (db : database)
  : list answer * database * list handler_log * ending :=
  if PyStr.starts_with "pdf|" data then
    match after_first "|" data with
    | None => ([], db, [], Raised)
    | Some pid =>
        let '(found, lg) := get_pedido_by_id pid db in
        match found with
        | None => ([Edit_order_not_found], db, map Store_log lg, Returned)
        | Some p =>
            match send_receipt sends now pid p with
            | Some doc =>
                if sends (Edit_pdf_sent message_text)
                then ([doc; Edit_pdf_sent message_text], db, map Store_log lg, Returned)
                else ([doc; Edit_pdf_error], db,
                      (map Store_log lg ++ [Error_callback_pdf])%list, Returned)
            | None =>
                ([Edit_pdf_error], db,
                 (map Store_log lg ++ [Error_callback_pdf])%list, Returned)
            end
        end
    end
  else if PyStr.starts_with "markdel|" data then
    match after_first "|" data with
    | None => ([], db, [], Raised)
    | Some pid =>
        let '(success, db', lg) := update_pedido_status now pid "entregue" db in
        if success
        then
          if sends (Edit_marked_delivered
                      (PyStr.replace "PENDENTE" "ENTREGUE" message_text))
          then ([Edit_marked_delivered
                   (PyStr.replace "PENDENTE" "ENTREGUE" message_text)], db',
                map Store_log lg, Returned)
          else ([], db', map Store_log lg, Raised)
        else ([Edit_status_error], db', map Store_log lg, Returned)
    end
  else ([], db, [], Returned).

(** ** Well-formed orders *)

(** A CPF as the workflow stores it: empty, or eleven digits. *)
Definition cpf_ok (c : string) : Prop :=
  c = "" \/ (PyStr.len c = 11 /\ PyStr.keep PyStr.is_digit c = c).

(** The text of an existing date and time. *)
Definition is_date_text (s : string) : Prop :=
  exists dt, PyDate.valid dt = true /\ s = PyDate.strftime dt.

(** What holds of an order that went through the eight steps; [D] is
    what is known of its [created_at]. *)
Definition row_well_formed (D : string -> Prop) (r : row) : Prop :=
  PyStr.len (id r) <= 255 /\
  cpf_ok (cpf r) /\
  (3 <= PyStr.len (nome r) /\ PyStr.len (nome r) <= 200) /\
  (3 <= PyStr.len (produto r) /\ PyStr.len (produto r) <= 300) /\
  PyFloat.ge0 (valor r) = true /\
  PyFloat.ge0 (desconto r) = true /\
  SFleb (desconto r) (valor r) = true /\
  economia r = desconto r /\
  PyStr.len (trans_id r) <= 255 /\
  (status r = "pendente" \/ status r = "entregue") /\
  D (created_at r).

Definition well_formed_or_old (D : string -> Prop) (rows0 : list row) (r : row) : Prop :=
  row_well_formed D r \/ exists r0, In r0 rows0 /\ text_fields r = text_fields r0.

(** The fields that the steps have filled in, one more at each state. *)
Definition has_id (p : pedido) : Prop :=
  exists v, p_id p = Some v /\ PyStr.len v <= 255.
Definition has_cpf (p : pedido) : Prop :=
  exists v, p_cpf p = Some v /\ cpf_ok v.
Definition has_nome (p : pedido) : Prop :=
  exists v, p_nome p = Some v /\ 3 <= PyStr.len v /\ PyStr.len v <= 200.
Definition has_produto (p : pedido) : Prop :=
  exists v, p_produto p = Some v /\ 3 <= PyStr.len v /\ PyStr.len v <= 300.
Definition has_valor (p : pedido) : Prop :=
  exists v, p_valor p = Some v /\ PyFloat.ge0 v = true.
Definition has_desconto (p : pedido) : Prop :=
  exists v d, p_valor p = Some v /\ p_desconto p = Some d /\ p_economia p = Some d /\
              PyFloat.ge0 d = true /\ SFleb d v = true.
Definition has_trans_id (p : pedido) : Prop :=
  exists v, p_trans_id p = Some v /\ PyStr.len v <= 255.

Definition draft_ready (st : conv_state) (p : pedido) : Prop :=
  match st with
  | END | ASK_ID => True
  | ASK_CPF => has_id p
  | ASK_NAME => has_id p /\ has_cpf p
  | ASK_PRODUCT => has_id p /\ has_cpf p /\ has_nome p
  | ASK_VALUE => has_id p /\ has_cpf p /\ has_nome p /\ has_produto p
  | ASK_DISCOUNT =>
      has_id p /\ has_cpf p /\ has_nome p /\ has_produto p /\ has_valor p
  | ASK_TRANSID =>
      has_id p /\ has_cpf p /\ has_nome p /\ has_produto p /\ has_valor p /\
      has_desconto p
  | ASK_DATE_CONFIRM =>
      has_id p /\ has_cpf p /\ has_nome p /\ has_produto p /\ has_valor p /\
      has_desconto p /\ has_trans_id p
  | ASK_ECONOMY => False
  end.

(** The invariant of a conversation: the rows are well formed or old, and
    in a state past [ASK_ID] the draft holds the fields of the steps
    done. *)
Definition conv_ready (D : string -> Prop) (rows0 : list row) (c : conversation) : Prop :=
  Forall (well_formed_or_old D rows0) (rows_of (base c)) /\
  (has_draft (conv c) = true ->
   exists p, data c !! "pedido" = Some p /\ draft_ready (conv c) p).

Definition result_ready (D : string -> Prop) (rows0 : list row) (r : result) : Prop :=
  Forall (well_formed_or_old D rows0) (rows_of (store r)) /\
  (has_draft (next r) = true ->
   exists p, user_data r !! "pedido" = Some p /\ draft_ready (next r) p).

(** ** The values that the steps accept *)

(** Whether [add_pedido_start] lets the user in. *)
Definition admitted (ADMIN_ID : option Z) (user_id : Z) : bool :=
  match ADMIN_ID with
  | Some a => (a =? 0)%Z || (user_id =? a)%Z
  | None => true
  end.

(** The CPF that [add_pedido_cpf] stores for a message, if it accepts it. *)
Definition accepted_cpf (message_text : string) : option string :=
  let text := sanitize_input (PyStr.strip message_text) 255 in
  if String.eqb (PyStr.lower text) "pular" then Some ""
  else if validate_cpf text then Some (PyStr.digits_only text)
  else None.

(** The text that [add_pedido_name] and [add_pedido_product] store. *)
Definition accepted_text (max_length : nat) (message_text : string) : option string :=
  let text := sanitize_input (PyStr.strip message_text) max_length in
  if Nat.ltb (PyStr.len text) 3 then None else Some text.

(** The transaction id that [add_pedido_transid] stores. *)
Definition accepted_transid (message_text : string) : string :=
  let text := sanitize_input (PyStr.strip message_text) 255 in
  if String.eqb (PyStr.lower text) "pular" then "" else text.

(** The nine updates of a complete intake. *)
Definition intake (os : nat -> oracle) (uid : Z)
    (t_id t_cpf t_nome t_produto t_valor t_desconto t_trans t_date : string)
  : list (oracle * update) :=
  [ (os 0, Command_add_pedido uid); (os 1, Message t_id); (os 2, Message t_cpf);
    (os 3, Message t_nome); (os 4, Message t_produto); (os 5, Message t_valor);
    (os 6, Message t_desconto); (os 7, Message t_trans); (os 8, Message t_date) ].

(** The summary and the list entry of a stored row. *)
Definition row_summary (r : row) : summary :=
  mk_summary (id r) (nome r) (or_na (cpf r)) (produto r)
    (PyFloat.format_2f (valor r)) (PyFloat.format_2f (desconto r))
    (PyFloat.format_2f (PyFloat.sub (valor r) (desconto r)))
    (PyStr.upper (status r)) (created_at r).

Definition row_entry (r : row) : list_entry :=
  mk_list_entry (PyStr.take 8 (id r) ++ "...") (nome r)
    (PyFloat.format_2f (PyFloat.sub (valor r) (desconto r)))
    (PyStr.upper (status r)) (created_at r).

(** The characters of [%x]: a digit or one of [a]..[f]. *)
Definition is_hex_lower (c : ascii) : bool :=
  PyStr.is_digit c || PyStr.in_range 97 102 c.

Fixpoint hex_text (s : string) : bool :=
  match s with
  | EmptyString => true
  | String c s' => is_hex_lower c && hex_text s'
  end.

(** Everything of a row but [status] and [updated_at], the two columns
    that [update_pedido_status] sets. *)
Definition kept_fields (r : row)
  : string * string * string * string * PyFloat.float * PyFloat.float *
    PyFloat.float * string * string :=
  (id r, cpf r, nome r, produto r, valor r, desconto r, economia r,
   created_at r, trans_id r).

(** What a search result shows, when it can be shown: the amounts are
    there and Telegram takes the message. *)
Definition summary_message (r : row) : answer :=
  Answer_summary (row_summary r) (keyboard_of (id r)).

Definition shows (sends : answer -> bool) (r : row) : bool :=
  negb (is_nan (desconto r)) && sends (summary_message r).

(** The rows before the first that does not satisfy [f]. *)
Fixpoint take_while {A : Type} (f : A -> bool) (l : list A) : list A :=
  match l with
  | [] => []
  | x :: l' => if f x then x :: take_while f l' else []
  end.

(** A text that is one word: [/pdf] followed by it has it as [args[0]]. *)
Definition one_word (s : string) : Prop := PyStr.split s = [s].

(** The messages that carry a document. *)
Definition is_document (a : answer) : bool :=
  match a with
  | Answer_document _ _ _ => true
  | _ => false
  end.

(** The conversation that a handler call leaves, from the state [st]. *)
Definition left_by (st : conv_state) (h : handled) : conversation :=
  match h with
  | Returns r => mk_conversation (next r) (user_data r) (store r)
  | Raises _ ud db _ => mk_conversation st ud db
  end.

(** * Properties *)

(** ** Python primitives *)

Example strip_ex : PyStr.strip "  R$ 89,90 " = "R$ 89,90".
Proof. reflexivity. Qed.

Example replace_ex : PyStr.replace "R$" "" "R$ 89.90" = " 89.90".
Proof. reflexivity. Qed.

(** ** Properties of the store *)

Lemma existsb_id_In (pid : string) (rows : list row) :
  existsb (fun r' => String.eqb (id r') pid) rows = true <-> In pid (map id rows).
Proof.
  rewrite existsb_exists, in_map_iff. split.
  - intros [r [Hin Heq]]. apply String.eqb_eq in Heq. exists r. by split.
  - intros [r [Heq Hin]]. exists r. split; [done|]. by apply String.eqb_eq.
Qed.

Lemma sql_insert_ok (r : row) (rows rows' : list row) :
  sql_insert r rows = inr rows' ->
  rows' = (rows ++ [stored r])%list /\ ~ In (id r) (map id rows) /\
  is_nan (valor r) = false.
Proof.
  unfold sql_insert.
  destruct (existsb _ rows) eqn:He; [discriminate|].
  destruct (is_nan (valor r)) eqn:Hn; [discriminate|].
  intros [= <-]. split; [done|]. split; [|done].
  intros Hin. apply existsb_id_In in Hin. congruence.
Qed.

Lemma sql_insert_duplicate (r : row) (rows : list row) :
  In (id r) (map id rows) -> sql_insert r rows = inl IntegrityError.
Proof.
  intros Hin. unfold sql_insert.
  apply existsb_id_In in Hin. by rewrite Hin.
Qed.

Lemma sql_update_status_ids (pid st now : string) (rows : list row) :
  map id (sql_update_status pid st now rows) = map id rows.
Proof.
  unfold sql_update_status. rewrite map_map. apply map_ext.
  intros r. by destruct (String.eqb (id r) pid).
Qed.

Lemma NoDup_ids_snoc (r : row) (rows : list row) :
  List.NoDup (map id rows) -> ~ In (id r) (map id rows) ->
  List.NoDup (map id (rows ++ [r])%list).
Proof.
  intros Hnd Hnin. rewrite map_app. simpl.
  apply NoDup_rev in Hnd.
  rewrite <- (rev_involutive (map id rows ++ [id r])%list).
  apply NoDup_rev. rewrite rev_app_distr. simpl.
  constructor; [|done].
  by rewrite <- in_rev.
Qed.

Lemma add_pedido_db_rows (n1 n2 : string) (p : pedido) (db : database) (rows' : list row) :
  pedidos (snd (fst (add_pedido_db n1 n2 p db))) = Some rows' ->
  pedidos db = Some rows' \/
  exists rows r, pedidos db = Some rows /\ rows' = (rows ++ [r])%list /\
                 ~ In (id r) (map id rows) /\ p_id p = Some (id r) /\
                 fst (fst (add_pedido_db n1 n2 p db)) = true.
Proof.
  unfold add_pedido_db, connect, execute_on_table.
  destruct (io_fails db) eqn:Hio; [by left|].
  destruct (p_id p) as [pid|] eqn:Hid; [|by left].
  destruct (pedidos db) as [rows|] eqn:Hp; [|simpl; rewrite Hp; by left].
  destruct (sql_insert _ rows) as [e|rows1] eqn:Hins.
  - simpl. rewrite Hp. by left.
  - apply sql_insert_ok in Hins as (-> & Hnin & _).
    simpl. intros [= <-]. right. eexists _, _. repeat split; eauto.
Qed.

Lemma reachable_ids_NoDup (db : database) :
  reachable db -> forall rows, pedidos db = Some rows -> List.NoDup (map id rows).
Proof.
  induction 1 as [b | db b _ IH | db _ IH | db n1 n2 p _ IH | db now pid st _ IH];
    intros rows Hrows.
  - discriminate.
  - by apply IH.
  - unfold init_db in Hrows. destruct (io_fails db); simpl in Hrows; [by apply IH|].
    injection Hrows as <-. destruct (pedidos db) as [rows0|]; simpl.
    + by apply IH.
    + constructor.
  - apply add_pedido_db_rows in Hrows as [Hsame | (rows0 & r & H0 & -> & Hnin & _)].
    + by apply IH.
    + apply NoDup_ids_snoc; [by apply IH | done].
  - unfold update_pedido_status, open_table, connect, execute_on_table in Hrows.
    destruct (io_fails db); simpl in Hrows; [by apply IH|].
    destruct (pedidos db) as [rows0|] eqn:Hp; simpl in Hrows; [|congruence].
    injection Hrows as <-. rewrite sql_update_status_ids. by apply IH.
Qed.

(** C7.  In every store state that already holds a row with the id of the
    new order, [add_pedido_db] answers [False] and leaves the store as it
    was; hence in every reachable store state no two rows share an id. *)
Theorem id_globally_unique (db : database) (rows : list row) :
  pedidos db = Some rows ->
  (forall (now_default now : string) (p : pedido) (pid : string),
     p_id p = Some pid -> In pid (map id rows) ->
     fst (fst (add_pedido_db now_default now p db)) = false /\
     snd (fst (add_pedido_db now_default now p db)) = db) /\
  (reachable db -> List.NoDup (map id rows)).
Proof.
  intros Hrows. split.
  - intros n1 n2 p pid Hid Hin. unfold add_pedido_db, connect, execute_on_table.
    destruct (io_fails db); [done|].
    rewrite Hrows, Hid.
    by rewrite sql_insert_duplicate.
  - intros Hreach. by apply (reachable_ids_NoDup db).
Qed.

Lemma id_globally_unique_witness :
  fst (fst (add_pedido_db Sample.now_str Sample.now_str Sample.draft1 Sample.db_one)) = false /\
  snd (fst (add_pedido_db Sample.now_str Sample.now_str Sample.draft1 Sample.db_one)) = Sample.db_one /\
  List.NoDup (map id [Sample.ord1]).
Proof.
  destruct (id_globally_unique Sample.db_one [Sample.ord1] eq_refl) as [Hdup Hnodup].
  destruct (Hdup Sample.now_str Sample.now_str Sample.draft1 "ORD1" eq_refl
              (or_introl eq_refl)) as [Hfalse Hsame].
  split; [exact Hfalse|]. split; [exact Hsame|].
  apply Hnodup.
  exact (reach_add (mk_db false (Some [])) Sample.now_str Sample.now_str
           (set_status "pendente" (set_created_at "31/01/2024 10:00:00" Sample.draft1))
           (reach_init Sample.db_fresh (reach_fresh false))).
Defined.

(** ** Status updates *)

Lemma sql_update_status_absent (pid st now : string) (rows : list row) :
  ~ In pid (map id rows) -> sql_update_status pid st now rows = rows.
Proof.
  unfold sql_update_status. induction rows as [|r rows IH]; intros Hnin; [done|].
  simpl in *. destruct (String.eqb_spec (id r) pid) as [Heq|Hne].
  - exfalso. apply Hnin. by left.
  - f_equal. apply IH. intros Hin. apply Hnin. by right.
Qed.

(** C2, as the code has it.  On a store that can be reached,
    [update_pedido_status] always answers [True]: every row with the given
    id gets the new status and the new [updated_at], every other row stays
    as it is, and when no row has the id the store is unchanged and the
    answer is [True] all the same.  The answer is [False] only when the
    store cannot be opened, and the store is then unchanged. *)
Theorem update_pedido_status_spec (now pid st : string) (db : database) :
  match open_table db with
  | inr rows =>
      fst (fst (update_pedido_status now pid st db)) = true /\
      pedidos (snd (fst (update_pedido_status now pid st db))) =
        Some (map (fun r => if String.eqb (id r) pid
                            then set_row_status st now r else r) rows) /\
      (forall r, In r rows -> id r = pid ->
         In (set_row_status st now r) (rows_of (snd (fst (update_pedido_status now pid st db))))) /\
      (~ In pid (map id rows) ->
         snd (fst (update_pedido_status now pid st db)) = db)
  | inl _ =>
      fst (fst (update_pedido_status now pid st db)) = false /\
      snd (fst (update_pedido_status now pid st db)) = db
  end.
Proof.
  unfold update_pedido_status.
  destruct (open_table db) as [e|rows] eqn:Hopen; [done|].
  simpl. repeat split.
  - intros r Hin Hid. unfold rows_of. simpl. unfold sql_update_status.
    apply in_map_iff. exists r. split; [|done].
    apply String.eqb_eq in Hid. by rewrite Hid.
  - intros Hnin. rewrite sql_update_status_absent by done.
    unfold open_table, connect, execute_on_table in Hopen.
    destruct db as [io tbl]. simpl in *.
    destruct io; [discriminate|]. destruct tbl; [|discriminate].
    by injection Hopen as ->.
Qed.

(** C2, counterexample: on an empty table the update of the id [ORD1],
    which no row has, answers [True]. *)
Lemma update_status_missing_id_succeeds :
  ~ In "ORD1" (map id (rows_of Sample.db_empty)) /\
  fst (fst (update_pedido_status Sample.now_str "ORD1" "entregue" Sample.db_empty)) = true.
Proof. split; [intros []|reflexivity]. Qed.

(** ** Store failures *)

(** C4, as the code has it.  When the store cannot be opened, the two
    writing operations answer [False] and leave the store as it was, while
    the reading operations answer what they answer when nothing is found:
    [None] for [get_pedido_by_id], the empty list for [search_pedidos] and
    [list_recent]; the failure itself only reaches the log. *)
Theorem store_failure_reporting (db : database) (e : exn) :
  open_table db = inl e ->
  (forall pid, get_pedido_by_id pid db = (None, [Error_fetching_order pid e])) /\
  (forall term limit, search_pedidos term limit db = ([], [Error_searching_orders e])) /\
  (forall limit, list_recent limit db = ([], [Error_listing_orders e])) /\
  (forall n1 n2 p, fst (add_pedido_db n1 n2 p db) = (false, db)) /\
  (forall now pid st,
     update_pedido_status now pid st db = (false, db, [Error_updating_status e])).
Proof.
  intros Hopen.
  unfold get_pedido_by_id, search_pedidos, list_recent, update_pedido_status.
  rewrite Hopen. repeat split.
  intros n1 n2 p. unfold add_pedido_db.
  unfold open_table in Hopen.
  destruct (connect db); [done|].
  destruct (p_id p); [|done].
  by rewrite Hopen.
Qed.

Lemma store_failure_reporting_witness :
  get_pedido_by_id "ORD1" Sample.db_down = (None, [Error_fetching_order "ORD1" OperationalError]) /\
  search_pedidos "Maria" 20 Sample.db_down = ([], [Error_searching_orders OperationalError]).
Proof.
  destruct (store_failure_reporting Sample.db_down OperationalError eq_refl)
    as (Hget & Hsearch & _).
  split; [apply Hget | apply Hsearch].
Defined.

(** C4, counterexample: a read from a store that cannot be opened and a
    read from a working store without a matching row give the caller the
    same value. *)
Lemma read_failure_looks_like_not_found :
  open_table Sample.db_down = inl OperationalError /\
  open_table Sample.db_empty = inr [] /\
  fst (get_pedido_by_id "ORD1" Sample.db_down) = fst (get_pedido_by_id "ORD1" Sample.db_empty) /\
  fst (search_pedidos "Maria" 20 Sample.db_down) = fst (search_pedidos "Maria" 20 Sample.db_empty).
Proof. repeat split. Qed.

(** ** Floats: signs and comparisons *)

Lemma shr_1_nonneg (mrs : shr_record) :
  (0 <= shr_m mrs)%Z -> (0 <= shr_m (shr_1 mrs))%Z.
Proof. destruct mrs as [[|[p|p|]|p] r s]; simpl; lia. Qed.

Lemma iter_shr_1_nonneg (p : positive) (mrs : shr_record) :
  (0 <= shr_m mrs)%Z -> (0 <= shr_m (SpecFloat.iter_pos shr_1 p mrs))%Z.
Proof.
  revert mrs. induction p as [p IH|p IH|]; intros mrs H; simpl.
  - apply IH, IH. by apply shr_1_nonneg.
  - by apply IH, IH.
  - by apply shr_1_nonneg.
Qed.

Lemma shr_fexp_nonneg (m e : Z) (l : location) :
  (0 <= m)%Z ->
  (0 <= shr_m (fst (shr_fexp PyFloat.prec PyFloat.emax m e l)))%Z.
Proof.
  intros H. unfold shr_fexp, shr.
  assert (0 <= shr_m (shr_record_of_loc m l))%Z as H0
    by (destruct l as [|[]]; simpl; lia).
  destruct (fexp PyFloat.prec PyFloat.emax (Zdigits2 m + e) - e)%Z; simpl; try done.
  by apply iter_shr_1_nonneg.
Qed.

Lemma round_nearest_even_nonneg (m : Z) (l : location) :
  (0 <= m)%Z -> (0 <= round_nearest_even m l)%Z.
Proof.
  intros H. destruct l as [|[]]; simpl; try lia.
  destruct (Z.even m); lia.
Qed.

Lemma binary_round_aux_sign (s : bool) (m e : Z) (l : location) :
  (0 <= m)%Z -> has_sign s (binary_round_aux PyFloat.prec PyFloat.emax s m e l).
Proof.
  intros H. unfold binary_round_aux.
  pose proof (shr_fexp_nonneg m e l H) as H1.
  destruct (shr_fexp PyFloat.prec PyFloat.emax m e l) as [mrs1 e1]. simpl in H1.
  pose proof (shr_fexp_nonneg _ e1 loc_Exact
                (round_nearest_even_nonneg _ (loc_of_shr_record mrs1) H1)) as H2.
  destruct (shr_fexp PyFloat.prec PyFloat.emax
              (round_nearest_even (shr_m mrs1) (loc_of_shr_record mrs1)) e1 loc_Exact)
    as [mrs2 e2].
  simpl in H2. destruct (shr_m mrs2) as [|p|p]; simpl; try done; try lia.
  by destruct (e2 <=? PyFloat.emax - PyFloat.prec)%Z.
Qed.

Lemma of_decimal_sign (s : bool) (m : N) (e : Z) :
  has_sign s (PyFloat.of_decimal s m e).
Proof.
  unfold PyFloat.of_decimal. destruct m as [|p]; [done|].
  assert (forall mx ex, has_sign s (binary_round PyFloat.prec PyFloat.emax s mx ex)) as Hbr.
  { intros mx ex. unfold binary_round.
    destruct (shl_align mx ex _) as [mz ez]. by apply binary_round_aux_sign. }
  destruct e as [|k|k]; try apply Hbr.
  unfold SFdiv_core_binary.
  set (m' := match _ with Z0 => Z.pos p | Zpos _ => _ | Zneg _ => 0%Z end).
  assert (0 <= m')%Z as Hm'.
  { subst m'. destruct (_ - _ - _)%Z; try lia. apply Z.shiftl_nonneg. lia. }
  pose proof (Z.div_pos m' (Z.pos (10 ^ k)) Hm' ltac:(lia)) as Hq.
  unfold Z.div in Hq.
  destruct (Z.div_eucl m' (Z.pos (10 ^ k))) as [q r]. simpl in Hq.
  by apply binary_round_aux_sign.
Qed.

Lemma round2_sign (s : bool) (x : PyFloat.float) :
  has_sign s x -> has_sign s (PyFloat.round2 x).
Proof.
  destruct x as [s'|s'| |s' m e]; simpl; try done.
  intros ->. apply of_decimal_sign.
Qed.

Lemma ge0_cases (x : PyFloat.float) :
  PyFloat.ge0 x = true <-> (exists s, x = S754_zero s) \/ (has_sign false x).
Proof.
  unfold PyFloat.ge0, PyFloat.zero, SFleb, SFcompare.
  destruct x as [s|[]| |[] m e]; simpl; split; try done; try (intros [[? ?]|?]; done);
    eauto.
Qed.

Lemma round2_ge0 (x : PyFloat.float) :
  PyFloat.ge0 x = true -> PyFloat.ge0 (PyFloat.round2 x) = true.
Proof.
  intros H. apply ge0_cases in H as [[s ->]|H].
  - apply ge0_cases. left. by exists s.
  - apply ge0_cases. right. by apply round2_sign.
Qed.

(** Every amount that [validate_value] accepts is at least zero. *)
Lemma validate_value_ge0 (s : string) (d : PyFloat.float) :
  validate_value s = Some d -> PyFloat.ge0 d = true.
Proof.
  unfold validate_value.
  destruct (PyFloat.of_string _) as [v|]; [|done].
  destruct (PyFloat.ge0 v) eqn:Hv; [|done].
  intros [= <-]. by apply round2_ge0.
Qed.

Lemma ge0_not_nan (x : PyFloat.float) : PyFloat.ge0 x = true -> x <> S754_nan.
Proof. by intros H ->. Qed.

Lemma SFcompare_antisym (x y : PyFloat.float) :
  SFcompare y x = option_map CompOpp (SFcompare x y).
Proof.
  destruct x as [s1|s1| |s1 m1 e1], y as [s2|s2| |s2 m2 e2]; simpl; try done;
    try (by destruct s1, s2); try (by destruct s1); try (by destruct s2).
  destruct s1, s2; simpl; try done; f_equal;
    rewrite (Z.compare_antisym e1 e2); destruct (e1 ?= e2)%Z eqn:He; simpl; try done;
    rewrite (Pos.compare_cont_antisym m1 m2 Eq); simpl;
    by rewrite ?CompOpp_involutive.
Qed.

(** Between two numbers, [not (a > b)] is [a <= b]. *)
Lemma not_gt_le (a b : PyFloat.float) :
  a <> S754_nan -> b <> S754_nan ->
  PyFloat.gt a b = false -> SFleb a b = true.
Proof.
  intros Ha Hb. unfold PyFloat.gt, SFltb, SFleb.
  rewrite (SFcompare_antisym a b).
  destruct (SFcompare a b) as [[]|] eqn:Hc; simpl; try done.
  destruct a, b; simpl in Hc; try done; try (by destruct s); try (by destruct s0);
    by destruct s, s0.
Qed.

(** ** The discount step *)

(** C5.  In the state [ASK_DISCOUNT], with a draft whose [valor] has been
    accepted, a text that parses to a discount [d]: when [d] is above
    [valor] the handler stays in [ASK_DISCOUNT] and leaves [user_data],
    and with it the draft and its [valor], as they were; otherwise [d] is
    between zero and [valor], the handler moves on to [ASK_TRANSID] and
    the draft holds [d] both as [desconto] and as [economia], its [valor]
    unchanged. *)
Theorem add_pedido_discount_spec (text : string) (ud : gmap string pedido)
    (db : database) (p : pedido) (valor d : PyFloat.float) :
  ud !! "pedido" = Some p ->
  p_valor p = Some valor ->
  PyFloat.ge0 valor = true ->
  validate_value text = Some d ->
  if PyFloat.gt d valor
  then add_pedido_discount text ud db =
         Some (mk_result ASK_DISCOUNT ud db [Reply_discount_above_value] [])
  else exists p',
         add_pedido_discount text ud db =
           Some (mk_result ASK_TRANSID (<["pedido" := p']> ud) db [Reply_ask_transid] []) /\
         p_desconto p' = Some d /\ p_economia p' = Some d /\
         p_valor p' = Some valor /\
         PyFloat.ge0 d = true /\ SFleb d valor = true.
Proof.
  intros Hud Hvalor Hge Hval. unfold add_pedido_discount.
  rewrite Hval, Hud, Hvalor.
  destruct (PyFloat.gt d valor) eqn:Hgt; [done|].
  eexists. split; [reflexivity|].
  pose proof (validate_value_ge0 _ _ Hval) as Hd.
  repeat split; try done.
  apply not_gt_le; auto using ge0_not_nan.
Qed.

Lemma add_pedido_discount_spec_witness :
  add_pedido_discount "200" {[ "pedido" := Sample.draft1 ]} Sample.db_empty =
    Some (mk_result ASK_DISCOUNT {[ "pedido" := Sample.draft1 ]} Sample.db_empty
            [Reply_discount_above_value] []) /\
  exists p',
    add_pedido_discount "10" {[ "pedido" := Sample.draft1 ]} Sample.db_empty =
      Some (mk_result ASK_TRANSID (<["pedido" := p']> {[ "pedido" := Sample.draft1 ]})
              Sample.db_empty [Reply_ask_transid] []) /\
    p_desconto p' = Some (Sample.amount 10) /\ p_economia p' = Some (Sample.amount 10) /\
    p_valor p' = Some (Sample.amount 150) /\
    PyFloat.ge0 (Sample.amount 10) = true /\
    SFleb (Sample.amount 10) (Sample.amount 150) = true.
Proof.
  split.
  - exact (add_pedido_discount_spec "200" {[ "pedido" := Sample.draft1 ]} Sample.db_empty
             Sample.draft1 (Sample.amount 150) (Sample.amount 200)
             eq_refl eq_refl eq_refl eq_refl).
  - exact (add_pedido_discount_spec "10" {[ "pedido" := Sample.draft1 ]} Sample.db_empty
             Sample.draft1 (Sample.amount 150) (Sample.amount 10)
             eq_refl eq_refl eq_refl eq_refl).
Defined.

(** ** Finalization *)

(** [add_pedido_db] either appends the row built from the dictionary and
    answers [True], or answers [False] and leaves the store as it was. *)
Lemma add_pedido_db_cases (n1 n2 : string) (p : pedido) (db : database) :
  (exists pid rows,
     p_id p = Some pid /\ open_table db = inr rows /\ ~ In pid (map id rows) /\
     add_pedido_db n1 n2 p db =
       (true, with_rows (rows ++ [stored (insert_parameters n1 n2 pid p)])%list db,
        [Info_order_added pid])) \/
  (exists e, add_pedido_db n1 n2 p db = (false, db, [Error_adding_order e])).
Proof.
  unfold add_pedido_db, open_table.
  destruct (connect db) as [e|[]]; [right; by eexists|].
  destruct (p_id p) as [pid|]; [|right; by eexists].
  destruct (execute_on_table db) as [e|rows]; [right; by eexists|].
  destruct (sql_insert _ rows) as [e|rows'] eqn:Hins; [right; by eexists|].
  apply sql_insert_ok in Hins as (-> & Hnin & _).
  left. exists pid, rows. by repeat split.
Qed.




(** ** The receipt *)

(** C9.  The document of an order shows, in the row [Valor Final] of its
    table, the difference [valor - desconto] computed from these two
    fields when the document is made and printed with two decimals, and in
    the row [Status] the status in capital letters. *)
Theorem receipt_final_value (now : string) (p : pedido)
    (v d : PyFloat.float) (st : string) :
  p_valor p = Some v -> p_desconto p = Some d -> p_status p = Some st ->
  In (Table (receipt_table p) [70; 90]%N) (generate_pdf_bytes now p) /\
  In ["Valor Final"; "R$ " ++ PyFloat.format_2f (PyFloat.sub v d)] (receipt_table p) /\
  In ["Status"; PyStr.upper st] (receipt_table p) /\
  In ("R$ " ++ PyFloat.format_2f (PyFloat.sub v d)) (document_texts (generate_pdf_bytes now p)) /\
  In (PyStr.upper st) (document_texts (generate_pdf_bytes now p)).
Proof.
  intros Hv Hd Hst.
  unfold generate_pdf_bytes, document_texts, receipt_table, money. simpl.
  rewrite Hv, Hd, Hst. simpl.
  repeat split; auto 25 using in_eq, in_cons.
Qed.

Lemma receipt_final_value_witness :
  In ["Valor Final"; "R$ 140.00"] (receipt_table (dict_of_row Sample.ord1)) /\
  In ["Status"; "PENDENTE"] (receipt_table (dict_of_row Sample.ord1)) /\
  In "R$ 140.00" (document_texts (generate_pdf_bytes Sample.now_str (dict_of_row Sample.ord1))) /\
  In "PENDENTE" (document_texts (generate_pdf_bytes Sample.now_str (dict_of_row Sample.ord1))).
Proof.
  destruct (receipt_final_value Sample.now_str (dict_of_row Sample.ord1)
              (Sample.amount 150) (Sample.amount 10) "pendente" eq_refl eq_refl eq_refl)
    as (_ & Hfinal & Hstatus & Hdoc & Hdoc').
  repeat split; assumption.
Defined.

(** ** Amounts *)

Lemma replace_comma_map (s : string) :
  PyStr.replace "," "." s = PyStr.map_chars comma_to_dot s.
Proof.
  unfold PyStr.replace. induction s as [|c s IH]; [done|].
  cbn [PyStr.replace_from PyStr.starts_with PyStr.map_chars PyStr.len
       String.length Nat.sub].
  unfold comma_to_dot at 1.
  rewrite (Ascii.eqb_sym "," c), andb_true_r.
  destruct (Ascii.eqb c ","); cbn [String.append]; by rewrite IH.
Qed.

Lemma replace_comma_idempotent (s : string) :
  PyStr.replace "," "." (PyStr.replace "," "." s) = PyStr.replace "," "." s.
Proof.
  rewrite !replace_comma_map.
  induction s as [|c s IH]; [done|]. simpl. rewrite IH. f_equal.
  unfold comma_to_dot. destruct (Ascii.eqb c ",") eqn:Hc; [done|]. by rewrite Hc.
Qed.

Lemma clean_value_comma (s : string) :
  clean_value (PyStr.replace "," "." s) = clean_value s.
Proof. unfold clean_value. by rewrite replace_comma_idempotent. Qed.

Lemma clean_value_currency (s : string) :
  clean_value ("R$" ++ s) = clean_value s.
Proof. unfold clean_value. by rewrite !replace_comma_map. Qed.

Lemma round2_two_decimals (x : PyFloat.float) :
  PyFloat.round2 x = x \/
  exists (neg : bool) (c : N), PyFloat.round2 x = PyFloat.of_decimal neg c (-2).
Proof. destruct x as [s|s| |s m e]; simpl; eauto. Qed.




(** ** Dates *)

(** A property of all numbers up to [hi] follows from its instances. *)
Lemma N_le_cases (P : N -> Prop) (hi : nat) :
  Forall P (map N.of_nat (seq 0 (S hi))) -> forall d, (d <= N.of_nat hi)%N -> P d.
Proof.
  intros HF d Hd. rewrite List.Forall_forall in HF. apply HF.
  apply in_map_iff. exists (N.to_nat d). split; [apply N2Nat.id|].
  apply in_seq. lia.
Qed.

Ltac each_case tac :=
  cbn [map seq N.of_nat];
  repeat (apply List.Forall_cons; [tac|]); apply List.Forall_nil.

Ltac field_case :=
  let rest := fresh "rest" in
  let A := fresh "A" in
  let k := fresh "k" in
  let x := fresh "x" in
  let Hlo := fresh "Hlo" in
  let H := fresh "H" in
  intros Hlo A rest k x H;
  first [ exfalso; vm_compute in Hlo; by apply Hlo
        | vm_compute in H; vm_compute; by rewrite H ].

Lemma match_day (d : N) :
  (d <= 31)%N -> (1 <= d)%N ->
  forall (A : Type) (rest : string) (k : string -> string -> option A) (x : A),
    k (PyFloat.two_digits d) rest = Some x ->
    PyDate.match_alts PyDate.re_d (PyFloat.two_digits d ++ rest) k = Some x.
Proof.
  revert d. refine (N_le_cases _ 31 _). each_case field_case.
Qed.

Lemma match_month (m : N) :
  (m <= 12)%N -> (1 <= m)%N ->
  forall (A : Type) (rest : string) (k : string -> string -> option A) (x : A),
    k (PyFloat.two_digits m) rest = Some x ->
    PyDate.match_alts PyDate.re_m (PyFloat.two_digits m ++ rest) k = Some x.
Proof.
  revert m. refine (N_le_cases _ 12 _). each_case field_case.
Qed.

Lemma match_hour (h : N) :
  (h <= 23)%N -> (0 <= h)%N ->
  forall (A : Type) (rest : string) (k : string -> string -> option A) (x : A),
    k (PyFloat.two_digits h) rest = Some x ->
    PyDate.match_alts PyDate.re_H (PyFloat.two_digits h ++ rest) k = Some x.
Proof.
  revert h. refine (N_le_cases _ 23 _). each_case field_case.
Qed.

Lemma match_minute (m : N) :
  (m <= 59)%N -> (0 <= m)%N ->
  forall (A : Type) (rest : string) (k : string -> string -> option A) (x : A),
    k (PyFloat.two_digits m) rest = Some x ->
    PyDate.match_alts PyDate.re_M (PyFloat.two_digits m ++ rest) k = Some x.
Proof.
  revert m. refine (N_le_cases _ 59 _). each_case field_case.
Qed.

Lemma match_second (s : N) :
  (s <= 59)%N -> (0 <= s)%N ->
  forall (A : Type) (rest : string) (k : string -> string -> option A) (x : A),
    k (PyFloat.two_digits s) rest = Some x ->
    PyDate.match_alts PyDate.re_S (PyFloat.two_digits s ++ rest) k = Some x.
Proof.
  revert s. refine (N_le_cases _ 59 _). each_case field_case.
Qed.

Lemma int_of_two_digits (n : N) :
  (n <= 59)%N -> PyDate.int_of_group (PyFloat.two_digits n) = n.
Proof.
  revert n. refine (N_le_cases _ 59 _). each_case ltac:(by vm_compute).
Qed.

Lemma lstrip_two_digits (n : N) :
  (n <= 59)%N ->
  forall rest, PyStr.lstrip (PyFloat.two_digits n ++ rest) = PyFloat.two_digits n ++ rest.
Proof.
  revert n. refine (N_le_cases _ 59 _). each_case ltac:(by intros rest; vm_compute).
Qed.

Lemma string_app_cons (c : ascii) (s t : string) :
  String c s ++ t = String c (s ++ t).
Proof. reflexivity. Qed.

Lemma string_app_nil (t : string) : "" ++ t = t.
Proof. reflexivity. Qed.

Lemma match_year_text (t : string) :
  four_digits t = true ->
  forall (A : Type) (rest : string) (k : string -> string -> option A) (x : A),
    k t rest = Some x ->
    PyDate.match_alts PyDate.re_Y (t ++ rest) k = Some x.
Proof.
  destruct t as [|a [|b [|c [|d [|]]]]]; try done.
  cbn [four_digits]. rewrite !andb_true_iff. intros [[[Ha Hb] Hc] Hd] A rest k x Hk.
  unfold PyDate.re_Y. rewrite !string_app_cons, string_app_nil.
  cbn [PyDate.match_alts PyDate.match_seq PyDate.cmatch].
  by rewrite Ha, Hb, Hc, Hd, Hk.
Qed.

Lemma years_print_well :
  forallb year_prints_well (map N.of_nat (seq 0 (N.to_nat 10000))) = true.
Proof. by vm_compute. Qed.

Lemma year_text (y : N) :
  (1000 <= y)%N -> (y <= 9999)%N ->
  four_digits (PyFloat.string_of_N y) = true /\
  PyDate.int_of_group (PyFloat.string_of_N y) = y.
Proof.
  intros Hlo Hhi.
  pose proof years_print_well as H. rewrite forallb_forall in H.
  specialize (H y). unfold year_prints_well in H.
  assert (In y (map N.of_nat (seq 0 (N.to_nat 10000)))) as Hin.
  { apply in_map_iff. exists (N.to_nat y). split; [apply N2Nat.id|]. apply in_seq. lia. }
  apply H in Hin. apply orb_true_iff in Hin as [Hlt|Hok].
  - apply N.ltb_lt in Hlt. lia.
  - apply andb_true_iff in Hok as [H4 Hint]. by apply N.eqb_eq in Hint.
Qed.

Lemma lit_same {A : Type} (c : ascii) (s : string) (k : string -> option A) :
  PyDate.lit c (String c s) k = k s.
Proof. unfold PyDate.lit. by rewrite Ascii.eqb_refl. Qed.

Lemma append_empty_r (s : string) : s ++ "" = s.
Proof. induction s as [|c s IH]; [done|]. by rewrite string_app_cons, IH. Qed.

Lemma days_in_month_le_31 (y m : N) : (PyDate.days_in_month y m <= 31)%N.
Proof.
  unfold PyDate.days_in_month.
  destruct m as [|[[[[p|p|]|[p|p|]|]|[[p|p|]|[p|p|]|]|]|[[[p|p|]|[p|p|]|]|[[p|p|]|[p|p|]|]|]|]];
    try lia; destruct (PyDate.is_leap y); lia.
Qed.

(** A date that the [datetime] constructor accepts, with a year of four
    digits, is read back from its own text. *)
Lemma strptime_strftime (dt : PyDate.datetime) :
  PyDate.valid dt = true -> (1000 <= PyDate.year dt)%N ->
  PyDate.strptime (PyDate.strftime dt) = Some dt.
Proof.
  destruct dt as [y mo d h mi s]. unfold PyDate.valid.
  cbn [PyDate.year PyDate.month PyDate.day PyDate.hour PyDate.minute PyDate.second].
  rewrite !andb_true_iff, !N.leb_le.
  intros [[[[[[[[Hy1 Hy2] Hmo1] Hmo2] Hd1] Hd2] Hh] Hmi] Hs] Hy.
  assert (d <= 31)%N as Hd31.
  { etrans; [exact Hd2|]. apply days_in_month_le_31. }
  destruct (year_text y Hy Hy2) as [Hy4 Hyint].
  assert (PyDate.re_match (PyDate.strftime (PyDate.mk_datetime y mo d h mi s)) =
          Some (PyDate.mk_datetime y mo d h mi s, "")) as Hmatch.
  { unfold PyDate.re_match, PyDate.strftime.
    cbn [PyDate.year PyDate.month PyDate.day PyDate.hour PyDate.minute PyDate.second].
    rewrite <- (append_empty_r (PyFloat.two_digits s)).
    rewrite !string_app_cons, !string_app_nil.
    apply match_day; [done..|]. rewrite lit_same.
    apply match_month; [done..|]. rewrite lit_same.
    apply match_year_text; [done|].
    unfold PyDate.spaces.
    change (PyStr.is_space " ") with true. cbn iota.
    rewrite lstrip_two_digits by lia.
    apply match_hour; [lia..|]. rewrite lit_same.
    apply match_minute; [lia..|]. rewrite lit_same.
    apply match_second; [lia..|].
    rewrite Hyint, !int_of_two_digits by lia. done. }
  unfold PyDate.strptime. rewrite Hmatch.
  cbn [PyStr.is_empty andb]. unfold PyDate.valid.
  cbn [PyDate.year PyDate.month PyDate.day PyDate.hour PyDate.minute PyDate.second].
  repeat (rewrite (proj2 (N.leb_le _ _)) by done). done.
Qed.

Lemma date_text_is_not_agora (d : N) :
  (d <= 31)%N ->
  forall rest, String.eqb (PyStr.lower (PyFloat.two_digits d ++ rest)) "agora" = false.
Proof.
  revert d. refine (N_le_cases _ 31 _). each_case ltac:(by intros rest; vm_compute).
Qed.

(** C3, as the code has it.  [validate_date] answers the current time for
    [agora] in any mix of capital and small letters, and refuses [now].
    Any other text is accepted exactly when [strptime] reads it with the
    format [%d/%m/%Y %H:%M:%S] as a date that exists, and the answer is
    that date printed with the same format; in particular a text that is
    the print of an existing date with a year of four digits is accepted
    and answered unchanged. *)
Theorem validate_date_spec (now : PyDate.datetime) (s : string) :
  (PyStr.lower s = "agora" -> validate_date now s = Some (PyDate.strftime now)) /\
  validate_date now "now" = None /\
  (PyStr.lower s <> "agora" ->
   forall r, validate_date now s = Some r <->
             exists dt, PyDate.strptime s = Some dt /\ PyDate.valid dt = true /\
                        r = PyDate.strftime dt) /\
  (forall dt, s = PyDate.strftime dt -> PyDate.valid dt = true ->
              (1000 <= PyDate.year dt)%N -> validate_date now s = Some s).
Proof.
  split; [|split; [|split]].
  - intros H. unfold validate_date. by rewrite H.
  - reflexivity.
  - intros Hne r. unfold validate_date.
    destruct (String.eqb_spec (PyStr.lower s) "agora") as [Heq|_]; [done|].
    unfold PyDate.strptime.
    destruct (PyDate.re_match s) as [[dt rest]|]; [|split; [done|by intros (? & ? & _)]].
    destruct (PyStr.is_empty rest); simpl; [|split; [done|by intros (? & ? & _)]].
    destruct (PyDate.valid dt) eqn:Hv; [|split; [done|by intros (? & ? & _)]].
    split.
    + intros [= <-]. by exists dt.
    + intros (dt' & [= <-] & _ & ->). done.
  - intros dt -> Hv Hy. unfold validate_date.
    rewrite strptime_strftime by done.
    unfold PyDate.strftime at 1.
    rewrite date_text_is_not_agora; [done|].
    unfold PyDate.valid in Hv. rewrite !andb_true_iff, !N.leb_le in Hv.
    destruct Hv as [[[[_ Hd] _] _] _].
    etrans; [exact Hd|]. apply days_in_month_le_31.
Qed.

Lemma validate_date_spec_witness :
  validate_date Sample.now "AGORA" = Some "31/01/2024 10:00:00" /\
  validate_date Sample.now "29/02/2024 23:59:59" = Some "29/02/2024 23:59:59" /\
  (exists dt, PyDate.strptime "1/2/2024 3:4:5" = Some dt /\ PyDate.valid dt = true /\
              "01/02/2024 03:04:05" = PyDate.strftime dt).
Proof.
  split; [|split].
  - exact (proj1 (validate_date_spec Sample.now "AGORA") eq_refl).
  - exact (proj2 (proj2 (proj2 (validate_date_spec Sample.now "29/02/2024 23:59:59")))
             (PyDate.mk_datetime 2024 2 29 23 59 59) eq_refl eq_refl
             ltac:(vm_compute; discriminate)).
  - refine (proj1 (proj1 (proj2 (proj2 (validate_date_spec Sample.now "1/2/2024 3:4:5")))
                     _ "01/02/2024 03:04:05") eq_refl).
    vm_compute. discriminate.
Defined.

(** C3, counterexample: [now] is refused although the claim accepts it,
    and a text with fields of one digit is accepted although it is not of
    the form DD/MM/YYYY HH:MM:SS; a date that does not exist is refused. *)
Lemma validate_date_now_refused :
  validate_date Sample.now "now" = None /\
  validate_date Sample.now "NOW" = None /\
  validate_date Sample.now "1/2/2024 3:4:5" = Some "01/02/2024 03:04:05" /\
  validate_date Sample.now "31/02/2024 10:00:00" = None.
Proof. by vm_compute. Qed.

(** What [strptime] lets through besides the texts DD/MM/YYYY HH:MM:SS:
    a day written with a blank for its first digit, and a year with
    leading zeros, which [strftime] prints without them. *)
Lemma validate_date_lax_examples :
  validate_date Sample.now " 1/02/2024 10:00:00" = Some "01/02/2024 10:00:00" /\
  validate_date Sample.now "01/02/0999 10:00:00" = Some "01/02/999 10:00:00".
Proof. by vm_compute. Qed.

(** ** Search *)

Lemma like_percent_unfold (p s : string) :
  Sql.like (String "%" p) s =
  Sql.like p s ||
  match s with
  | EmptyString => false
  | String _ s' => Sql.like (String "%" p) s'
  end.
Proof. by destruct s. Qed.

Lemma like_percent_iff (p s : string) :
  Sql.like (String "%" p) s = true <->
  exists pre t, s = pre ++ t /\ Sql.like p t = true.
Proof.
  induction s as [|c s IH]; rewrite like_percent_unfold, orb_true_iff.
  - split.
    + intros [H|H]; [|done]. by exists "", "".
    + intros (pre & t & Heq & H). left.
      destruct pre; [|done]. rewrite string_app_nil in Heq. by subst.
  - rewrite IH. split.
    + intros [H|(pre & t & -> & H)].
      * by exists "", (String c s).
      * exists (String c pre), t. by rewrite string_app_cons.
    + intros (pre & t & Heq & H). destruct pre as [|c' pre].
      * rewrite string_app_nil in Heq. subst. by left.
      * rewrite string_app_cons in Heq. injection Heq as -> ->. right. by exists pre, t.
Qed.

Lemma like_percent_all (s : string) : Sql.like "%" s = true.
Proof.
  induction s as [|c s IH]; rewrite like_percent_unfold; [done|].
  rewrite IH. apply orb_true_r.
Qed.

Lemma like_literal_iff (term p t : string) :
  no_wildcard term = true ->
  Sql.like (term ++ p) t = true <->
  exists mid post, t = mid ++ post /\
    PyStr.map_chars Sql.fold_char mid = PyStr.map_chars Sql.fold_char term /\
    Sql.like p post = true.
Proof.
  revert t. induction term as [|c term IH]; intros t Hnw.
  - rewrite string_app_nil. split.
    + intros H. by exists "", t.
    + intros (mid & post & -> & Hmid & H). by destruct mid.
  - cbn [no_wildcard] in Hnw. rewrite !andb_true_iff, !negb_true_iff in Hnw.
    destruct Hnw as [[Hpc Hus] Hnw].
    rewrite string_app_cons. cbn [Sql.like]. rewrite Hpc.
    destruct t as [|d t].
    + split; [done|]. intros (mid & post & Heq & Hmid & _). by destruct mid.
    + rewrite Hus, orb_false_l, andb_true_iff, (IH t Hnw).
      unfold Sql.char_eq_nocase. rewrite Ascii.eqb_eq. split.
      * intros [Hcd (mid & post & -> & Hmid & H)].
        exists (String d mid), post. rewrite string_app_cons. cbn [PyStr.map_chars].
        by rewrite Hcd, Hmid.
      * intros (mid & post & Heq & Hmid & H). destruct mid as [|d' mid]; [done|].
        rewrite string_app_cons in Heq. injection Heq as -> ->.
        cbn [PyStr.map_chars] in Hmid. injection Hmid as Hd Hmid.
        split; [done|]. by exists mid, post.
Qed.

(** For a term without [%] and [_], the pattern [%term%] matches the texts
    in which the term occurs, ASCII letters compared without case. *)
Lemma like_term_iff (term s : string) :
  no_wildcard term = true ->
  Sql.like (like_term term) s = true <-> occurs_nocase term s.
Proof.
  intros Hnw. unfold like_term, occurs_nocase.
  rewrite string_app_cons, string_app_nil, like_percent_iff. split.
  - intros (pre & t & -> & H).
    apply like_literal_iff in H as (mid & post & -> & Hmid & _); [|done].
    by exists pre, mid, post.
  - intros (pre & mid & post & -> & Hmid).
    exists pre, (mid ++ post). split; [done|].
    apply like_literal_iff; [done|]. exists mid, post.
    split; [done|]. split; [done|]. apply like_percent_all.
Qed.

Lemma insert_desc_perm (r : row) (l : list row) :
  Permutation (r :: l) (Sql.insert_desc r l).
Proof.
  induction l as [|r' l IH]; [done|]. cbn [Sql.insert_desc].
  destruct (String.leb _ _); [done|].
  etrans; [apply perm_swap|]. by apply perm_skip.
Qed.

Lemma order_by_perm (rows : list row) :
  Permutation rows (Sql.order_by_created_at_desc rows).
Proof.
  unfold Sql.order_by_created_at_desc.
  induction rows as [|r rows IH]; [done|]. cbn [fold_right].
  etrans; [|apply insert_desc_perm]. by apply perm_skip.
Qed.

Lemma limit_rows_length (n : Z) (l : list row) :
  (0 <= n)%Z -> length (Sql.limit_rows n l) <= Z.to_nat n.
Proof.
  intros Hn. unfold Sql.limit_rows.
  destruct (n <? 0)%Z eqn:Hlt; [apply Z.ltb_lt in Hlt; lia|].
  rewrite length_firstn. lia.
Qed.

Lemma limit_rows_incl (n : Z) (l : list row) (r : row) :
  In r (Sql.limit_rows n l) -> In r l.
Proof.
  unfold Sql.limit_rows. destruct (n <? 0)%Z; [done|]. intros H.
  rewrite <- (firstn_skipn (Z.to_nat n) l). apply in_or_app. by left.
Qed.

Lemma limit_rows_all (n : Z) (l : list row) :
  (n < 0)%Z \/ length l <= Z.to_nat n -> Sql.limit_rows n l = l.
Proof.
  unfold Sql.limit_rows. intros [Hn|Hlen].
  - by rewrite (proj2 (Z.ltb_lt n 0) Hn).
  - destruct (n <? 0)%Z; [done|]. by apply firstn_all2.
Qed.

(** C1, as the code has it.  On a store that can be opened, and for a
    limit that fits 64 bits, [search_pedidos] answers the first [limit]
    rows (all of them for a negative limit) of an arrangement of exactly
    the rows whose [id], [cpf] or [nome] matches the pattern [%term%] of
    [LIKE].  So every answer is a stored row that matches, the answers are
    never more than a limit that is not negative, every matching row is
    answered when the limit does not cut the list, and for a term without
    [%] and [_] a row matches when the term occurs in one of the three
    columns, ASCII letters compared without regard to case. *)
Theorem search_pedidos_spec (term : string) (limit : Z) (db : database)
    (rows : list row) :
  open_table db = inr rows ->
  Sql.int64 limit = true ->
  (exists sorted,
     Permutation sorted (List.filter (row_matches term) rows) /\
     fst (search_pedidos term limit db) = map dict_of_row (Sql.limit_rows limit sorted)) /\
  (forall p, In p (fst (search_pedidos term limit db)) ->
     exists r, In r rows /\ p = dict_of_row r /\ row_matches term r = true) /\
  ((0 <= limit)%Z -> length (fst (search_pedidos term limit db)) <= Z.to_nat limit) /\
  ((limit < 0)%Z \/ length (List.filter (row_matches term) rows) <= Z.to_nat limit ->
   forall r, In r rows -> row_matches term r = true ->
     In (dict_of_row r) (fst (search_pedidos term limit db))) /\
  (no_wildcard term = true ->
   forall r, row_matches term r = true <->
     occurs_nocase term (id r) \/ occurs_nocase term (cpf r) \/
     occurs_nocase term (nome r)).
Proof.
  intros Hopen Hlim. unfold search_pedidos. rewrite Hopen, Hlim. cbn [fst].
  set (matching := List.filter (row_matches term) rows).
  pose proof (order_by_perm matching) as Hperm.
  split; [|split; [|split; [|split]]].
  - exists (Sql.order_by_created_at_desc matching). split; [by symmetry|done].
  - intros p Hin. apply in_map_iff in Hin as (r & <- & Hin).
    apply limit_rows_incl in Hin.
    apply (Permutation_in _ (Permutation_sym Hperm)) in Hin.
    apply filter_In in Hin as [Hin Hm]. by exists r.
  - intros Hn. rewrite length_map. by apply limit_rows_length.
  - intros Hall r Hin Hm. apply in_map.
    rewrite limit_rows_all.
    + apply (Permutation_in _ Hperm). apply filter_In. by split.
    + destruct Hall as [Hn|Hlen]; [by left|right].
      by rewrite <- (Permutation_length Hperm).
  - intros Hnw r. unfold row_matches.
    rewrite !orb_true_iff, !(like_term_iff term _ Hnw). tauto.
Qed.

Lemma search_pedidos_spec_witness :
  length (fst (search_pedidos "maria" 20 Sample.db_two)) <= 20 /\
  In (dict_of_row Sample.ord1) (fst (search_pedidos "maria" 20 Sample.db_two)) /\
  (row_matches "maria" Sample.ord1 = true <->
   occurs_nocase "maria" "ORD1" \/ occurs_nocase "maria" "" \/
   occurs_nocase "maria" "Maria Silva").
Proof.
  destruct (search_pedidos_spec "maria" 20 Sample.db_two [Sample.ord1; Sample.ord2]
              eq_refl eq_refl) as (_ & _ & Hlen & Hall & Hnocase).
  split; [|split].
  - apply Hlen. discriminate.
  - apply Hall.
    + right. vm_compute. repeat constructor.
    + left. reflexivity.
    + reflexivity.
  - exact (Hnocase eq_refl Sample.ord1).
Defined.

(** C1, counterexample.  The term [maria] finds the order of Maria Silva,
    in which it does not occur letter for letter; the term [_] finds
    every order; the order of 31 January 2024 is answered before the
    order of 1 February 2024, which is the more recent one; and with the
    limit -1 two rows are answered. *)
Lemma search_differs_from_claim :
  (fst (search_pedidos "maria" 20 Sample.db_two) = [dict_of_row Sample.ord1] /\
   occurs_case_sensitive "maria" Sample.ord1 = false) /\
  (fst (search_pedidos "_" 20 Sample.db_two) =
     [dict_of_row Sample.ord1; dict_of_row Sample.ord2] /\
   occurs_case_sensitive "_" Sample.ord1 = false) /\
  (fst (search_pedidos "ORD" 20 Sample.db_two) =
     [dict_of_row Sample.ord1; dict_of_row Sample.ord2] /\
   PyDate.strptime (created_at Sample.ord1) = Some (PyDate.mk_datetime 2024 1 31 10 0 0) /\
   PyDate.strptime (created_at Sample.ord2) = Some (PyDate.mk_datetime 2024 2 1 9 30 0)) /\
  length (fst (search_pedidos "ORD" (-1) Sample.db_two)) = 2.
Proof. by vm_compute. Qed.

(** ** Lengths of the texts of the workflow *)

Lemma len_take (n : nat) (s : string) : PyStr.len (PyStr.take n s) = Nat.min n (PyStr.len s).
Proof.
  revert s. induction n as [|n IH]; intros [|c s]; try done.
  unfold PyStr.len in *. cbn [PyStr.take String.length]. by rewrite IH.
Qed.

Lemma len_drop (n : nat) (s : string) : PyStr.len (PyStr.drop n s) = PyStr.len s - n.
Proof.
  revert s. induction n as [|n IH]; intros [|c s]; try done.
  unfold PyStr.len in *. cbn [PyStr.drop String.length]. by rewrite IH.
Qed.

Lemma len_app (s t : string) : PyStr.len (s ++ t) = PyStr.len s + PyStr.len t.
Proof.
  unfold PyStr.len. induction s as [|c s IH]; [done|].
  rewrite string_app_cons. cbn [String.length]. by rewrite IH.
Qed.

Lemma len_keep (f : ascii -> bool) (s : string) :
  PyStr.len (PyStr.keep f s) <= PyStr.len s.
Proof.
  unfold PyStr.len. induction s as [|c s IH]; [done|].
  cbn [PyStr.keep]. destruct (f c); cbn [String.length]; lia.
Qed.

Lemma len_hex_from (k : nat) (n : N) : PyStr.len (PyUuid.hex_from k n) = k.
Proof.
  unfold PyStr.len. induction k as [|k IH]; [done|].
  cbn [PyUuid.hex_from String.length]. by rewrite IH.
Qed.

(** The text of a UUID has 36 characters. *)
Lemma len_uuid (u : N) : PyStr.len (PyUuid.str u) = 36.
Proof.
  unfold PyUuid.str.
  rewrite !len_app, !len_take, !len_drop, !len_hex_from. reflexivity.
Qed.

(** [sanitize_input] never answers more than [max_length] characters. *)
Lemma len_sanitize_input (text : string) (max_length : nat) :
  PyStr.len (sanitize_input text max_length) <= max_length.
Proof.
  unfold sanitize_input. destruct (PyStr.is_empty text).
  - unfold PyStr.len. simpl. lia.
  - rewrite len_take. lia.
Qed.

(** ** The workflow keeps the texts bounded *)

Lemma open_table_rows (db : database) (rows : list row) :
  open_table db = inr rows -> rows_of db = rows.
Proof.
  unfold open_table, connect, execute_on_table, rows_of.
  destruct (io_fails db); [done|]. destruct (pedidos db); [|done]. by intros [= ->].
Qed.

Lemma insert_parameters_bounded (n1 n2 pid : string) (p : pedido) :
  draft_bounded p -> p_id p = Some pid ->
  row_bounded (insert_parameters n1 n2 pid p).
Proof.
  intros ((pid' & Hid & Hlen) & Hcpf & Htr & Hno & Hpr) Hpid.
  rewrite Hid in Hpid. injection Hpid as ->.
  unfold row_bounded, insert_parameters, or_default, opt_len_le in *. simpl.
  destruct (p_cpf p), (p_trans_id p), (p_nome p), (p_produto p); simpl;
    repeat split; try done; unfold PyStr.len; simpl; lia.
Qed.

Lemma add_pedido_db_keeps (rows0 : list row) (n1 n2 : string) (p : pedido)
    (db : database) :
  draft_bounded p ->
  Forall (bounded_or_old rows0) (rows_of db) ->
  Forall (bounded_or_old rows0) (rows_of (snd (fst (add_pedido_db n1 n2 p db)))).
Proof.
  intros Hp Hrows.
  destruct (add_pedido_db_cases n1 n2 p db)
    as [(pid & rows & Hid & Hopen & _ & ->) | (e & ->)]; [|done].
  apply open_table_rows in Hopen. rewrite Hopen in Hrows.
  unfold rows_of. simpl. apply Forall_app. split; [done|].
  constructor; [|constructor]. left.
  by apply insert_parameters_bounded.
Qed.

Lemma update_status_keeps (rows0 : list row) (now pid st : string) (db : database) :
  Forall (bounded_or_old rows0) (rows_of db) ->
  Forall (bounded_or_old rows0) (rows_of (snd (fst (update_pedido_status now pid st db)))).
Proof.
  intros Hrows. unfold update_pedido_status.
  destruct (open_table db) as [e|rows] eqn:Hopen; [done|].
  apply open_table_rows in Hopen. rewrite Hopen in Hrows.
  unfold rows_of, sql_update_status. simpl.
  apply Forall_forall. intros r' Hin.
  apply list_elem_of_In, in_map_iff in Hin as (r & <- & Hin).
  rewrite Forall_forall in Hrows. specialize (Hrows r (proj2 (list_elem_of_In _ _) Hin)).
  by destruct (String.eqb (id r) pid).
Qed.

Lemma update_draft_some (f : pedido -> pedido) (ud ud' : gmap string pedido) :
  update_draft f ud = Some ud' ->
  exists p, ud !! "pedido" = Some p /\ ud' !! "pedido" = Some (f p).
Proof.
  unfold update_draft. destruct (ud !! "pedido") as [p|] eqn:Hp; [|done].
  intros [= <-]. exists p. split; [done|]. apply lookup_insert_eq.
Qed.

Lemma keeps_set (rows0 : list row) (f : pedido -> pedido) (st : conv_state)
    (ud ud' : gmap string pedido) (db : database) (rp : list reply) :
  (forall p, draft_bounded p -> draft_bounded (f p)) ->
  Forall (bounded_or_old rows0) (rows_of db) ->
  (exists p, ud !! "pedido" = Some p /\ draft_bounded p) ->
  update_draft f ud = Some ud' ->
  keeps rows0 (mk_result st ud' db rp []).
Proof.
  intros Hf Hrows (p & Hp & Hb) Hupd. split; [done|]. intros _.
  apply update_draft_some in Hupd as (p' & Hp' & Hud').
  rewrite Hp in Hp'. injection Hp' as <-. exists (f p). split; [done|]. by apply Hf.
Qed.

Lemma keeps_same (rows0 : list row) (st : conv_state)
    (ud : gmap string pedido) (db : database) (rp : list reply) (lg : list log_record) :
  Forall (bounded_or_old rows0) (rows_of db) ->
  (has_draft st = true -> exists p, ud !! "pedido" = Some p /\ draft_bounded p) ->
  keeps rows0 (mk_result st ud db rp lg).
Proof. by split. Qed.

Lemma new_pedido_bounded (pid : string) :
  PyStr.len pid <= 255 -> draft_bounded (new_pedido pid).
Proof. intros H. split; [by exists pid|]. by repeat split. Qed.

Lemma set_cpf_bounded (v : string) (p : pedido) :
  PyStr.len v <= 255 -> draft_bounded p -> draft_bounded (set_cpf v p).
Proof. intros Hv (Hid & _ & Htr & Hno & Hpr). by repeat split. Qed.

Lemma set_nome_bounded (v : string) (p : pedido) :
  PyStr.len v <= 200 -> draft_bounded p -> draft_bounded (set_nome v p).
Proof. intros Hv (Hid & Hcpf & Htr & _ & Hpr). by repeat split. Qed.

Lemma set_produto_bounded (v : string) (p : pedido) :
  PyStr.len v <= 300 -> draft_bounded p -> draft_bounded (set_produto v p).
Proof. intros Hv (Hid & Hcpf & Htr & Hno & _). by repeat split. Qed.

Lemma set_trans_id_bounded (v : string) (p : pedido) :
  PyStr.len v <= 255 -> draft_bounded p -> draft_bounded (set_trans_id v p).
Proof. intros Hv (Hid & Hcpf & _ & Hno & Hpr). by repeat split. Qed.

Lemma set_valor_bounded (v : PyFloat.float) (p : pedido) :
  draft_bounded p -> draft_bounded (set_valor v p).
Proof. intros (Hid & Hcpf & Htr & Hno & Hpr). by repeat split. Qed.

Lemma set_desconto_bounded (v : PyFloat.float) (p : pedido) :
  draft_bounded p -> draft_bounded (set_desconto v p).
Proof. intros (Hid & Hcpf & Htr & Hno & Hpr). by repeat split. Qed.

Lemma set_economia_bounded (v : PyFloat.float) (p : pedido) :
  draft_bounded p -> draft_bounded (set_economia v p).
Proof. intros (Hid & Hcpf & Htr & Hno & Hpr). by repeat split. Qed.

Lemma set_status_bounded (v : string) (p : pedido) :
  draft_bounded p -> draft_bounded (set_status v p).
Proof. intros (Hid & Hcpf & Htr & Hno & Hpr). by repeat split. Qed.

Lemma set_created_at_bounded (v : string) (p : pedido) :
  draft_bounded p -> draft_bounded (set_created_at v p).
Proof. intros (Hid & Hcpf & Htr & Hno & Hpr). by repeat split. Qed.

Section Handlers.

Variable rows0 : list row.
Variables (ud : gmap string pedido) (db : database).
Hypothesis Hrows : Forall (bounded_or_old rows0) (rows_of db).

Lemma add_pedido_id_keeps (o : oracle) (t : string) (r : result) :
  add_pedido_id o t ud db = Some r -> keeps rows0 r.
Proof.
  unfold add_pedido_id. destruct (String.eqb _ "gerar").
  - intros [= <-]. split; [done|]. intros _. eexists.
    split; [apply lookup_insert_eq|]. apply new_pedido_bounded.
    rewrite len_uuid. lia.
  - destruct (get_pedido_by_id _ db) as [[existing|] lg]; intros [= <-].
    + by apply keeps_same.
    + split; [done|]. intros _. eexists.
      split; [apply lookup_insert_eq|]. apply new_pedido_bounded.
      apply len_sanitize_input.
Qed.

Hypothesis Hdraft : exists p, ud !! "pedido" = Some p /\ draft_bounded p.

Lemma add_pedido_cpf_keeps (t : string) (r : result) :
  add_pedido_cpf t ud db = Some r -> keeps rows0 r.
Proof.
  unfold add_pedido_cpf. destruct (String.eqb _ "pular").
  - destruct (update_draft _ ud) as [ud'|] eqn:Hupd; intros [= <-].
    eapply keeps_set; [|done..]. intros p. apply set_cpf_bounded.
    unfold PyStr.len. simpl. lia.
  - destruct (validate_cpf _); simpl.
    + destruct (update_draft _ ud) as [ud'|] eqn:Hupd; intros [= <-].
      eapply keeps_set; [|done..]. intros p. apply set_cpf_bounded.
      etrans; [apply len_keep|]. apply len_sanitize_input.
    + intros [= <-]. by apply keeps_same.
Qed.

Lemma add_pedido_name_keeps (t : string) (r : result) :
  add_pedido_name t ud db = Some r -> keeps rows0 r.
Proof.
  unfold add_pedido_name. destruct (Nat.ltb _ 3).
  - intros [= <-]. by apply keeps_same.
  - destruct (update_draft _ ud) as [ud'|] eqn:Hupd; intros [= <-].
    eapply keeps_set; [|done..]. intros p. apply set_nome_bounded.
    apply len_sanitize_input.
Qed.

Lemma add_pedido_product_keeps (t : string) (r : result) :
  add_pedido_product t ud db = Some r -> keeps rows0 r.
Proof.
  unfold add_pedido_product. destruct (Nat.ltb _ 3).
  - intros [= <-]. by apply keeps_same.
  - destruct (update_draft _ ud) as [ud'|] eqn:Hupd; intros [= <-].
    eapply keeps_set; [|done..]. intros p. apply set_produto_bounded.
    apply len_sanitize_input.
Qed.

Lemma add_pedido_value_keeps (t : string) (r : result) :
  add_pedido_value t ud db = Some r -> keeps rows0 r.
Proof.
  unfold add_pedido_value. destruct (validate_value t) as [v|].
  - destruct (update_draft _ ud) as [ud'|] eqn:Hupd; intros [= <-].
    eapply keeps_set; [|done..]. intros p Hp. by apply set_valor_bounded.
  - intros [= <-]. by apply keeps_same.
Qed.

Lemma add_pedido_discount_keeps (t : string) (r : result) :
  add_pedido_discount t ud db = Some r -> keeps rows0 r.
Proof.
  unfold add_pedido_discount. destruct (validate_value t) as [d|].
  - destruct Hdraft as (p & Hp & Hb). rewrite Hp.
    destruct (p_valor p) as [v|]; [|done].
    destruct (PyFloat.gt d v); intros [= <-].
    + apply keeps_same; [done|]. intros _. by exists p.
    + split; [done|]. intros _. eexists. split; [apply lookup_insert_eq|].
      by apply set_economia_bounded, set_desconto_bounded.
  - intros [= <-]. by apply keeps_same.
Qed.

Lemma add_pedido_transid_keeps (t : string) (r : result) :
  add_pedido_transid t ud db = Some r -> keeps rows0 r.
Proof.
  unfold add_pedido_transid.
  destruct (update_draft _ ud) as [ud'|] eqn:Hupd; intros [= <-].
  eapply keeps_set; [|done..]. intros p. apply set_trans_id_bounded.
  destruct (String.eqb _ "pular").
  - unfold PyStr.len. simpl. lia.
  - apply len_sanitize_input.
Qed.

Lemma add_pedido_date_keeps (o : oracle) (t : string) (r : result) :
  add_pedido_date o t ud db = Returns r -> keeps rows0 r.
Proof.
  unfold add_pedido_date. destruct (validate_date _ _) as [date|].
  - destruct Hdraft as (p & Hp & Hb). rewrite Hp.
    assert (draft_bounded (set_status "pendente" (set_created_at date p))) as Hb'
      by (by apply set_status_bounded, set_created_at_bounded).
    pose proof (add_pedido_db_keeps rows0 (now_text o 1) (now_text o 2) _ db Hb' Hrows)
      as Hkeep.
    destruct (add_pedido_db _ _ _ db) as [[ok db'] lg]. simpl in Hkeep.
    destruct ok; [destruct (p_id _); [destruct (delivers o _)|]|];
      try done; intros [= <-]; by split.
  - intros [= <-]. apply keeps_same; [done|]. intros _. exact Hdraft.
Qed.

Lemma add_pedido_date_raises_keeps (o : oracle) (t : string) (e : failure)
    (ud' : gmap string pedido) (db' : database) (lg : list log_record) :
  add_pedido_date o t ud db = Raises e ud' db' lg ->
  Forall (bounded_or_old rows0) (rows_of db') /\
  exists p, ud' !! "pedido" = Some p /\ draft_bounded p.
Proof.
  unfold add_pedido_date. destruct (validate_date _ _) as [date|]; [|done].
  destruct Hdraft as (p & Hp & Hb). rewrite Hp.
  assert (draft_bounded (set_status "pendente" (set_created_at date p))) as Hb'
    by (by apply set_status_bounded, set_created_at_bounded).
  pose proof (add_pedido_db_keeps rows0 (now_text o 1) (now_text o 2) _ db Hb' Hrows)
    as Hkeep.
  destruct (add_pedido_db _ _ _ db) as [[ok db1] lg1]. simpl in Hkeep.
  destruct ok; [destruct (p_id _); [destruct (delivers o _)|]|];
    try done; intros [= _ <- <- _]; (split; [done|]);
    eexists; (split; [apply lookup_insert_eq|done]).
Qed.

End Handlers.

Lemma raising_at_once_returns (ud : gmap string pedido) (db : database)
    (h : option result) (r : result) :
  raising_at_once ud db h = Returns r -> h = Some r.
Proof. destruct h; [by intros [= ->]|done]. Qed.

Lemma raising_at_once_raises (ud : gmap string pedido) (db : database)
    (h : option result) (e : failure) (ud' : gmap string pedido) (db' : database)
    (lg : list log_record) :
  raising_at_once ud db h = Raises e ud' db' lg ->
  h = None /\ e = Missing_key /\ ud' = ud /\ db' = db /\ lg = [].
Proof. destruct h; [done|]. by intros [= <- <- <- <-]. Qed.

Lemma dispatch_keeps (rows0 : list row) (ADMIN_ID : option Z) (o : oracle)
    (u : update) (c : conversation) (r : result) :
  conv_inv rows0 c -> dispatch ADMIN_ID o u c = Returns r -> keeps rows0 r.
Proof.
  destruct c as [st ud db]. intros [Hrows Hdraft]. simpl in Hrows, Hdraft.
  unfold dispatch. cbn [data base conv].
  destruct u as [uid| |t|pid].
  - destruct st; try (intros [= <-]; by apply keeps_same).
    intros Hr. apply raising_at_once_returns in Hr. revert Hr.
    unfold add_pedido_start.
    destruct ADMIN_ID as [a|]; [destruct (_ && _)|]; intros [= <-]; by apply keeps_same.
  - destruct st; intros [= <-]; by apply keeps_same.
  - destruct st; try (intros [= <-]; by apply keeps_same);
      try (intros Hr; apply raising_at_once_returns in Hr; revert Hr).
    + by apply add_pedido_id_keeps.
    + apply add_pedido_cpf_keeps; auto.
    + apply add_pedido_name_keeps; auto.
    + apply add_pedido_product_keeps; auto.
    + apply add_pedido_value_keeps; auto.
    + apply add_pedido_discount_keeps; auto.
    + apply add_pedido_transid_keeps; auto.
    + apply add_pedido_date_keeps; auto.
  - pose proof (update_status_keeps rows0 (now_text o 0) pid "entregue" db Hrows) as Hk.
    destruct (update_pedido_status _ pid _ db) as [[ok db'] lg]. simpl in Hk.
    intros [= <-]. by apply keeps_same.
Qed.

Lemma dispatch_raises_keeps (rows0 : list row) (ADMIN_ID : option Z) (o : oracle)
    (u : update) (c : conversation) (e : failure) (ud' : gmap string pedido)
    (db' : database) (lg : list log_record) :
  conv_inv rows0 c -> dispatch ADMIN_ID o u c = Raises e ud' db' lg ->
  conv_inv rows0 (mk_conversation (conv c) ud' db').
Proof.
  destruct c as [st ud db]. intros [Hrows Hdraft]. simpl in Hrows, Hdraft.
  unfold dispatch. cbn [data base conv].
  destruct u as [uid| |t|pid].
  - destruct st; try done;
      intros Hr; apply raising_at_once_raises in Hr as (_ & _ & -> & -> & _); by split.
  - destruct st; try done;
      intros Hr; apply raising_at_once_raises in Hr as (_ & _ & -> & -> & _); by split.
  - destruct st; try done;
      try (intros Hr; apply raising_at_once_raises in Hr as (_ & _ & -> & -> & _);
           by split).
    intros Hr.
    destruct (add_pedido_date_raises_keeps rows0 ud db Hrows (Hdraft eq_refl)
                o t e ud' db' lg Hr) as [Hrows' Hdraft'].
    by split.
  - by destruct (update_pedido_status _ pid _ db) as [[ok db1] lg1].
Qed.

Lemma conv_step_inv (rows0 : list row) (ADMIN_ID : option Z) (c : conversation)
    (ev : oracle * update) :
  conv_inv rows0 c -> conv_inv rows0 (conv_step ADMIN_ID c ev).
Proof.
  intros Hinv. unfold conv_step.
  destruct (dispatch ADMIN_ID (fst ev) (snd ev) c) as [r|e ud' db' lg] eqn:Hd.
  - by apply (dispatch_keeps rows0 ADMIN_ID (fst ev) (snd ev) c r).
  - by apply (dispatch_raises_keeps rows0 ADMIN_ID (fst ev) (snd ev) c e ud' db' lg).
Qed.

Lemma conv_run_inv (rows0 : list row) (ADMIN_ID : option Z)
    (evs : list (oracle * update)) (c : conversation) :
  conv_inv rows0 c -> conv_inv rows0 (conv_run ADMIN_ID c evs).
Proof.
  revert c. unfold conv_run. induction evs as [|ev evs IH]; intros c Hinv; [done|].
  cbn [fold_left]. apply IH. by apply conv_step_inv.
Qed.

(** C10.  After any sequence of updates, starting outside a conversation,
    every row of the table that is not one of the rows it held at the
    start (whatever their status now) has an [id], a [cpf] and a
    [trans_id] of at most 255 characters, a [nome] of at most 200 and a
    [produto] of at most 300. *)
Theorem workflow_rows_bounded (ADMIN_ID : option Z) (evs : list (oracle * update))
    (ud : gmap string pedido) (db : database) (r : row) :
  In r (rows_of (base (conv_run ADMIN_ID (mk_conversation END ud db) evs))) ->
  (forall r0, In r0 (rows_of db) -> text_fields r <> text_fields r0) ->
  row_bounded r.
Proof.
  intros Hin Hnew.
  assert (conv_inv (rows_of db) (mk_conversation END ud db)) as Hinit.
  { split; [|done]. simpl. apply Forall_forall. intros r0 Hr0. right.
    exists r0. split; [by apply list_elem_of_In|done]. }
  apply (conv_run_inv _ ADMIN_ID evs) in Hinit as [Hrows _].
  rewrite Forall_forall in Hrows.
  destruct (Hrows r (proj2 (list_elem_of_In _ _) Hin)) as [Hb|(r0 & Hr0 & Heq)]; [done|].
  by destruct (Hnew r0 Hr0).
Qed.

Lemma workflow_rows_bounded_witness :
  rows_of (base (conv_run None (mk_conversation END ∅ Sample.db_empty) Sample.scenario)) =
    [Sample.ord1] /\
  row_bounded Sample.ord1.
Proof.
  split; [by vm_compute|].
  apply (workflow_rows_bounded None Sample.scenario ∅ Sample.db_empty Sample.ord1).
  - vm_compute. by left.
  - intros r0 [].
Defined.

(** ** Further properties of the code *)

(** [validate_cpf] accepts the empty text and every text with exactly
    eleven digits among its characters, whatever the other characters
    are, and nothing else. *)
Theorem validate_cpf_spec (cpf : string) :
  (validate_cpf cpf = true <->
   cpf = "" \/ PyStr.len (PyStr.digits_only cpf) = 11) /\
  validate_cpf "12345678901" = true /\
  validate_cpf "123.456.789-01" = true /\
  validate_cpf "1234567890" = false /\
  validate_cpf "abc12345678" = false.
Proof.
  split; [|by vm_compute].
  unfold validate_cpf. destruct cpf as [|c s]; cbn [PyStr.is_empty].
  - split; [by left|done].
  - rewrite Nat.eqb_eq. split; [by right|]. by intros [?|?].
Qed.

(** While a conversation is going on, [/cancel] ends it, empties
    [user_data] and leaves the store as it is. *)
Theorem cancel_discards_session (ADMIN_ID : option Z) (o : oracle) (c : conversation) :
  conv c <> END ->
  dispatch ADMIN_ID o Command_cancel c =
    Returns (mk_result END ∅ (base c) [Reply_cancelled] []).
Proof. intros Hst. unfold dispatch, cancel. by destruct (conv c). Qed.

Lemma cancel_discards_session_witness :
  conv_step None (mk_conversation ASK_DISCOUNT {[ "pedido" := Sample.draft1 ]} Sample.db_one)
    (Sample.the_oracle, Command_cancel) =
  mk_conversation END ∅ Sample.db_one.
Proof.
  unfold conv_step. cbn [fst snd].
  rewrite (cancel_discards_session None Sample.the_oracle
             (mk_conversation ASK_DISCOUNT {[ "pedido" := Sample.draft1 ]} Sample.db_one)
             ltac:(discriminate)).
  reflexivity.
Defined.

(** A message that leaves the conversation in the state it was in leaves
    [user_data] and the store as they were: asking again loses nothing
    and writes nothing. *)
Theorem reprompt_changes_nothing (ADMIN_ID : option Z) (o : oracle) (t : string)
    (c : conversation) (r : result) :
  dispatch ADMIN_ID o (Message t) c = Returns r ->
  next r = conv c ->
  user_data r = data c /\ store r = base c.
Proof.
  destruct c as [st ud db]. unfold dispatch. cbn [conv data base].
  destruct st; try (by intros [= <-]);
    try (intros Hr; apply raising_at_once_returns in Hr; revert Hr).
  - unfold add_pedido_id. destruct (String.eqb _ "gerar"); [by intros [= <-]|].
    destruct (get_pedido_by_id _ db) as [[existing|] lg]; by intros [= <-].
  - unfold add_pedido_cpf. destruct (String.eqb _ "pular").
    + destruct (update_draft _ ud); by intros [= <-].
    + destruct (validate_cpf _); simpl; [|by intros [= <-]].
      destruct (update_draft _ ud); by intros [= <-].
  - unfold add_pedido_name. destruct (Nat.ltb _ 3); [by intros [= <-]|].
    destruct (update_draft _ ud); by intros [= <-].
  - unfold add_pedido_product. destruct (Nat.ltb _ 3); [by intros [= <-]|].
    destruct (update_draft _ ud); by intros [= <-].
  - unfold add_pedido_value. destruct (validate_value t); [|by intros [= <-]].
    destruct (update_draft _ ud); by intros [= <-].
  - unfold add_pedido_discount. destruct (validate_value t); [|by intros [= <-]].
    destruct (ud !! "pedido") as [p|]; [|done].
    destruct (p_valor p); [|done]. destruct (PyFloat.gt _ _); by intros [= <-].
  - unfold add_pedido_transid. destruct (update_draft _ ud); by intros [= <-].
  - unfold add_pedido_date. destruct (validate_date _ _); [|by intros [= <-]].
    destruct (ud !! "pedido") as [p|]; [|done].
    destruct (add_pedido_db _ _ _ db) as [[[] db'] lg];
      [destruct (p_id _); [destruct (delivers o _)|]|]; try done; by intros [= <-].
Qed.

Lemma reprompt_changes_nothing_witness :
  exists r,
    dispatch None Sample.the_oracle (Message "ab")
      (mk_conversation ASK_NAME {[ "pedido" := Sample.draft1 ]} Sample.db_one) =
      Returns r /\
    next r = ASK_NAME /\
    user_data r = {[ "pedido" := Sample.draft1 ]} /\ store r = Sample.db_one.
Proof.
  eexists. split; [reflexivity|]. split; [reflexivity|].
  exact (reprompt_changes_nothing None Sample.the_oracle "ab"
           (mk_conversation ASK_NAME {[ "pedido" := Sample.draft1 ]} Sample.db_one)
           _ eq_refl eq_refl).
Defined.

(** The end-to-end scenario: ORD1, no CPF, Maria Silva, Wireless Mouse,
    150,00 with a discount of 10, no transaction, the current time.  The
    conversation ends with an empty [user_data]; the table holds one row
    with the amounts 150.00, 10.00 and 10.00 and the status [pendente];
    the receipt of the order shows the final value 140.00. *)
Theorem end_to_end_scenario :
  conv_run None (mk_conversation END ∅ Sample.db_empty) Sample.scenario =
    mk_conversation END ∅ Sample.db_one /\
  (valor Sample.ord1 = PyFloat.of_decimal false 15000 (-2) /\
   desconto Sample.ord1 = PyFloat.of_decimal false 1000 (-2) /\
   economia Sample.ord1 = PyFloat.of_decimal false 1000 (-2) /\
   status Sample.ord1 = "pendente") /\
  fst (get_pedido_by_id "ORD1" Sample.db_one) = Some (dict_of_row Sample.ord1) /\
  In "R$ 140.00"
    (document_texts (generate_pdf_bytes Sample.now_str (dict_of_row Sample.ord1))).
Proof.
  split; [by vm_compute|]. split; [by vm_compute|]. split; [by vm_compute|].
  vm_compute. auto 25.
Qed.

Lemma string_leb_trans (a b c : string) :
  String.leb a b = true -> String.leb b c = true -> String.leb a c = true.
Proof.
  unfold String.leb. revert b c.
  induction a as [|x a IH]; intros [|y b] [|z c]; cbn [String.compare]; try done.
  unfold Ascii.compare.
  destruct (N.compare_spec (N_of_ascii x) (N_of_ascii y)) as [Hxy|Hxy|Hxy];
    destruct (N.compare_spec (N_of_ascii y) (N_of_ascii z)) as [Hyz|Hyz|Hyz];
    try done.
  - rewrite Hxy, Hyz, N.compare_refl. apply IH.
  - intros _ _. by rewrite Hxy, (proj2 (N.compare_lt_iff _ _) Hyz).
  - intros _ _. by rewrite <- Hyz, (proj2 (N.compare_lt_iff _ _) Hxy).
  - intros _ _. by rewrite (proj2 (N.compare_lt_iff _ _) (N.lt_trans _ _ _ Hxy Hyz)).
Qed.

Lemma insert_desc_sorted (r : row) (l : list row) :
  Sorted.StronglySorted created_at_ge l ->
  Sorted.StronglySorted created_at_ge (Sql.insert_desc r l).
Proof.
  induction 1 as [|r' l Hl IH Hall]; cbn [Sql.insert_desc].
  - by repeat constructor.
  - destruct (String.leb (created_at r') (created_at r)) eqn:Hle.
    + constructor; [by constructor|]. constructor; [done|].
      eapply Forall_impl; [exact Hall|]. intros x Hx. unfold created_at_ge in *.
      by apply (string_leb_trans _ (created_at r')).
    + constructor; [done|].
      assert (created_at_ge r' r) as Hge.
      { unfold created_at_ge. destruct (String.leb_total (created_at r) (created_at r'));
          [done|congruence]. }
      apply Forall_forall. intros x Hx.
      apply list_elem_of_In in Hx.
      apply (Permutation_in _ (Permutation_sym (insert_desc_perm r l))) in Hx.
      destruct Hx as [<-|Hx]; [done|].
      rewrite Forall_forall in Hall. apply Hall. by apply list_elem_of_In.
Qed.

Lemma order_by_sorted (rows : list row) :
  Sorted.StronglySorted created_at_ge (Sql.order_by_created_at_desc rows).
Proof.
  unfold Sql.order_by_created_at_desc.
  induction rows as [|r rows IH]; [constructor|].
  cbn [fold_right]. by apply insert_desc_sorted.
Qed.

Lemma limit_rows_sorted (n : Z) (l : list row) :
  Sorted.StronglySorted created_at_ge l ->
  Sorted.StronglySorted created_at_ge (Sql.limit_rows n l).
Proof.
  unfold Sql.limit_rows. destruct (n <? 0)%Z; [done|].
  generalize (Z.to_nat n). intros k Hs. revert k.
  induction Hs as [|r l Hl IH Hall]; intros [|k]; cbn [firstn]; try constructor.
  - apply IH.
  - apply Forall_forall. intros x Hx. rewrite Forall_forall in Hall. apply Hall.
    apply list_elem_of_In. apply list_elem_of_In in Hx.
    rewrite <- (firstn_skipn k l). apply in_or_app. by left.
Qed.

(** The rows that [search_pedidos] and [list_recent] answer come in the
    descending order of their [created_at] texts, compared character by
    character as the texts are stored. *)
Theorem results_ordered_by_created_at_text (term : string) (limit : Z) (db : database) :
  (exists rs, fst (search_pedidos term limit db) = map dict_of_row rs /\
              Sorted.StronglySorted created_at_ge rs) /\
  (exists rs, fst (list_recent limit db) = map dict_of_row rs /\
              Sorted.StronglySorted created_at_ge rs).
Proof.
  unfold search_pedidos, list_recent.
  destruct (open_table db) as [e|rows]; [split; exists []; split; by try constructor|].
  destruct (Sql.int64 limit); [|split; exists []; split; by try constructor].
  split; eexists; (split; [reflexivity|]); apply limit_rows_sorted, order_by_sorted.
Qed.

(** ** Insert, lookup and update *)

Lemma find_id_absent (pid : string) (rows : list row) :
  find (fun r => String.eqb (id r) pid) rows = None <-> ~ In pid (map id rows).
Proof.
  induction rows as [|r rows IH]; cbn [find map In]; [tauto|].
  destruct (String.eqb_spec (id r) pid) as [Heq|Hne].
  - split; [done|]. intros H. destruct H. by left.
  - rewrite IH. tauto.
Qed.

Lemma find_id_some (pid : string) (rows : list row) (r : row) :
  find (fun r => String.eqb (id r) pid) rows = Some r -> In r rows /\ id r = pid.
Proof.
  intros H. apply find_some in H as [Hin Heq]. split; [done|].
  by apply String.eqb_eq.
Qed.

Lemma find_id_snoc (pid : string) (rows : list row) (r : row) :
  find (fun r => String.eqb (id r) pid) (rows ++ [r])%list =
  match find (fun r => String.eqb (id r) pid) rows with
  | Some r' => Some r'
  | None => if String.eqb (id r) pid then Some r else None
  end.
Proof.
  induction rows as [|r' rows IH]; cbn [app find]; [done|].
  by destruct (String.eqb (id r') pid).
Qed.

Lemma find_id_update (pid pid' st now : string) (rows : list row) :
  find (fun r => String.eqb (id r) pid') (sql_update_status pid st now rows) =
  option_map (fun r => if String.eqb (id r) pid then set_row_status st now r else r)
    (find (fun r => String.eqb (id r) pid') rows).
Proof.
  unfold sql_update_status. induction rows as [|r rows IH]; cbn [map find]; [done|].
  assert (id (if String.eqb (id r) pid then set_row_status st now r else r) = id r)
    as -> by (by destruct (String.eqb (id r) pid)).
  by destruct (String.eqb (id r) pid').
Qed.

Lemma open_table_with_rows (db : database) (rows rows' : list row) :
  open_table db = inr rows -> open_table (with_rows rows' db) = inr rows'.
Proof.
  unfold open_table, connect, execute_on_table, with_rows. simpl.
  by destruct (io_fails db).
Qed.

(** [get_pedido_by_id] answers a dictionary exactly when the store opens
    and holds a row with the id; the dictionary is that of such a row,
    and its ['id'] is the id asked for. *)
Theorem get_pedido_by_id_spec (pid : string) (db : database) :
  (forall p, fst (get_pedido_by_id pid db) = Some p ->
     p_id p = Some pid /\
     exists rows r, open_table db = inr rows /\ In r rows /\ id r = pid /\
                    p = dict_of_row r) /\
  (fst (get_pedido_by_id pid db) = None <->
   (exists e, open_table db = inl e) \/
   (exists rows, open_table db = inr rows /\ ~ In pid (map id rows))).
Proof.
  unfold get_pedido_by_id.
  destruct (open_table db) as [e|rows] eqn:Hopen; cbn [fst].
  - split; [done|]. split; [|done]. intros _. left. by exists e.
  - destruct (find _ rows) as [r|] eqn:Hfind; cbn [fst].
    + apply find_id_some in Hfind as Hr. destruct Hr as [Hin Hid]. split.
      * intros p [= <-]. split; [simpl; by rewrite Hid|]. by exists rows, r.
      * split; [done|]. intros [[e [=]]|(rows' & [= <-] & Hnin)].
        destruct Hnin. rewrite <- Hid. by apply in_map.
    + split; [done|]. split; [|done]. intros _. right. exists rows.
      split; [done|]. by apply find_id_absent.
Qed.

(** After [add_pedido_db] has answered [True] for a dictionary whose
    [desconto] and [economia] are numbers, the new id is found with the
    values that the table holds for the parameters: the texts as given, the
    amounts as given but for a negative zero, which is read back as zero;
    the id was not found before, every other id is found as before, and
    the table has one more row. *)
Theorem add_then_get (n1 n2 pid : string) (p : pedido) (db : database) :
  fst (fst (add_pedido_db n1 n2 p db)) = true ->
  p_id p = Some pid ->
  null_amount p = false ->
  fst (get_pedido_by_id pid (snd (fst (add_pedido_db n1 n2 p db)))) =
    Some (dict_of_row (stored (insert_parameters n1 n2 pid p))) /\
  (forall v, p_valor p = Some v ->
     p_valor (dict_of_row (stored (insert_parameters n1 n2 pid p))) =
       Some (sql_real v) /\
     is_nan v = false) /\
  fst (get_pedido_by_id pid db) = None /\
  (forall pid', pid' <> pid ->
     fst (get_pedido_by_id pid' (snd (fst (add_pedido_db n1 n2 p db)))) =
     fst (get_pedido_by_id pid' db)) /\
  length (rows_of (snd (fst (add_pedido_db n1 n2 p db)))) = S (length (rows_of db)).
Proof.
  intros Hok Hid _.
  assert (forall v, p_valor p = Some v -> is_nan v = false) as Hnan.
  { intros v Hv. revert Hok. unfold add_pedido_db.
    destruct (connect db); [done|]. rewrite Hid.
    destruct (execute_on_table db) as [e|rows]; [done|].
    destruct (sql_insert _ rows) as [e|rows'] eqn:Hins; [done|]. intros _.
    apply sql_insert_ok in Hins as (_ & _ & Hn).
    unfold insert_parameters in Hn. simpl in Hn. by rewrite Hv in Hn. }
  destruct (add_pedido_db_cases n1 n2 p db)
    as [(pid0 & rows & Hid0 & Hopen & Hnin & Hadd) | (e & Hadd)];
    rewrite Hadd in *; [|done]. cbn [fst snd].
  rewrite Hid in Hid0. injection Hid0 as <-.
  unfold get_pedido_by_id.
  rewrite (open_table_with_rows db rows _ Hopen), Hopen.
  apply find_id_absent in Hnin as Hnone.
  rewrite !find_id_snoc, Hnone. cbn [id stored insert_parameters].
  rewrite String.eqb_refl. split; [done|]. split; [|split; [done|split]].
  - intros v Hv. split; [|by apply Hnan].
    unfold insert_parameters. simpl. by rewrite Hv.
  - intros pid' Hne. rewrite !find_id_snoc.
    destruct (find (fun r => String.eqb (id r) pid') rows); [done|].
    cbn [id stored insert_parameters].
    destruct (String.eqb_spec pid pid'); [congruence|done].
  - rewrite (open_table_rows db rows Hopen). unfold rows_of. simpl.
    rewrite length_app. simpl. lia.
Qed.

Lemma add_then_get_witness :
  fst (get_pedido_by_id "ORD1"
         (snd (fst (add_pedido_db Sample.now_str Sample.now_str Sample.draft1
                      Sample.db_empty)))) =
    Some (dict_of_row Sample.ord1) /\
  p_valor (dict_of_row
             (stored (insert_parameters Sample.now_str Sample.now_str "ORD1"
                        (set_valor (S754_zero true) Sample.draft1)))) =
    Some (S754_zero false) /\
  fst (get_pedido_by_id "ORD1" Sample.db_empty) = None.
Proof.
  destruct (add_then_get Sample.now_str Sample.now_str "ORD1" Sample.draft1
              Sample.db_empty eq_refl eq_refl eq_refl) as (Hnew & _ & Hold & _).
  destruct (add_then_get Sample.now_str Sample.now_str "ORD1"
              (set_valor (S754_zero true) Sample.draft1)
              Sample.db_empty eq_refl eq_refl eq_refl) as (_ & Hzero & _).
  split; [exact Hnew|]. split; [exact (proj1 (Hzero _ eq_refl)) | exact Hold].
Defined.

Lemma update_status_kept_fields (now pid st : string) (db : database) :
  map kept_fields (rows_of (snd (fst (update_pedido_status now pid st db)))) =
  map kept_fields (rows_of db).
Proof.
  unfold update_pedido_status.
  destruct (open_table db) as [e|rows] eqn:Hopen; [done|].
  rewrite (open_table_rows db rows Hopen).
  unfold rows_of, sql_update_status. simpl. rewrite map_map. apply map_ext.
  intros r. by destruct (String.eqb (id r) pid).
Qed.

(** [update_pedido_status] on a store that opens: the order with the id
    is then found with the new status and the new [updated_at], every
    other id is found as before, no row is added or removed and no other
    column of any row changes.  An update that follows another one of
    the same order with the same status leaves the table as if it were
    the only one: what stays of the first is nothing, the second sets
    [updated_at] anew. *)
Theorem update_then_get (now pid st : string) (db : database) (rows : list row) :
  open_table db = inr rows ->
  (forall r, fst (get_pedido_by_id pid db) = Some (dict_of_row r) ->
     fst (get_pedido_by_id pid (snd (fst (update_pedido_status now pid st db)))) =
       Some (dict_of_row (set_row_status st now r))) /\
  (forall pid', pid' <> pid ->
     fst (get_pedido_by_id pid' (snd (fst (update_pedido_status now pid st db)))) =
     fst (get_pedido_by_id pid' db)) /\
  map kept_fields (rows_of (snd (fst (update_pedido_status now pid st db)))) =
    map kept_fields rows /\
  (forall later,
     snd (fst (update_pedido_status later pid st
                 (snd (fst (update_pedido_status now pid st db))))) =
     snd (fst (update_pedido_status later pid st db))).
Proof.
  intros Hopen.
  assert (forall n db0 rows0, open_table db0 = inr rows0 ->
            update_pedido_status n pid st db0 =
              (true, with_rows (sql_update_status pid st n rows0) db0,
               [Info_status_updated pid st])) as Hupd.
  { intros n db0 rows0 H0. unfold update_pedido_status. by rewrite H0. }
  pose proof (open_table_with_rows db rows (sql_update_status pid st now rows) Hopen)
    as Hopen'.
  rewrite (Hupd now db rows Hopen). cbn [fst snd].
  unfold get_pedido_by_id. rewrite Hopen, Hopen'. repeat split.
  - intros r. rewrite find_id_update.
    destruct (find _ rows) as [r'|] eqn:Hfind; [|done]. cbn [fst option_map].
    apply find_id_some in Hfind as [_ Hid]. apply String.eqb_eq in Hid. rewrite Hid.
    intros [= Heq]. do 2 f_equal.
    destruct r, r'. simpl in *. by simplify_eq.
  - intros pid' Hne. rewrite find_id_update.
    destruct (find _ rows) as [r'|] eqn:Hfind; [|done]. cbn [fst option_map].
    apply find_id_some in Hfind as [_ Hid].
    destruct (String.eqb_spec (id r') pid); [congruence|done].
  - unfold rows_of, sql_update_status. simpl. rewrite map_map. apply map_ext.
    intros r. by destruct (String.eqb (id r) pid).
  - intros later. rewrite (Hupd later _ _ Hopen'), (Hupd later db rows Hopen).
    cbn [fst snd]. unfold with_rows. simpl. do 2 f_equal.
    unfold sql_update_status. rewrite map_map. apply map_ext. intros r.
    destruct (String.eqb (id r) pid) eqn:Hid; [|by rewrite Hid].
    cbn [id set_row_status]. by rewrite Hid.
Qed.

Lemma update_then_get_witness :
  fst (get_pedido_by_id "ORD1"
         (snd (fst (update_pedido_status "02/02/2024 08:00:00" "ORD1" "entregue"
                      Sample.db_two)))) =
    Some (dict_of_row (set_row_status "entregue" "02/02/2024 08:00:00" Sample.ord1)) /\
  fst (get_pedido_by_id "ORD2"
         (snd (fst (update_pedido_status "02/02/2024 08:00:00" "ORD1" "entregue"
                      Sample.db_two)))) =
    Some (dict_of_row Sample.ord2).
Proof.
  destruct (update_then_get "02/02/2024 08:00:00" "ORD1" "entregue" Sample.db_two
              [Sample.ord1; Sample.ord2] eq_refl) as (Hsame & Hother & _).
  split.
  - exact (Hsame Sample.ord1 eq_refl).
  - exact (eq_trans (Hother "ORD2" ltac:(discriminate)) eq_refl).
Defined.

(** ** Listing and initialising *)

Lemma like_empty_term (s : string) : Sql.like (like_term "") s = true.
Proof.
  unfold like_term. rewrite string_app_nil, string_app_cons, string_app_nil.
  rewrite like_percent_unfold, like_percent_all. done.
Qed.

Lemma filter_all_rows (rows : list row) :
  List.filter (row_matches "") rows = rows.
Proof.
  induction rows as [|r rows IH]; [done|]. cbn [List.filter].
  unfold row_matches at 1. rewrite like_empty_term. cbn [orb]. by rewrite IH.
Qed.

Lemma limit_rows_exact_length (n : Z) (l : list row) :
  (0 <= n)%Z -> length (Sql.limit_rows n l) = Nat.min (Z.to_nat n) (length l).
Proof.
  intros Hn. unfold Sql.limit_rows.
  destruct (n <? 0)%Z eqn:Hlt; [apply Z.ltb_lt in Hlt; lia|].
  apply length_firstn.
Qed.

(** [list_recent] answers what [search_pedidos] answers for the empty
    term: the rows of the whole table, never more than a limit that is
    not negative and never fewer than the limit allows, each one a row
    of the table. *)
Theorem list_recent_spec (limit : Z) (db : database) :
  fst (list_recent limit db) = fst (search_pedidos "" limit db) /\
  (forall rows, open_table db = inr rows -> Sql.int64 limit = true ->
     (0 <= limit)%Z ->
     length (fst (list_recent limit db)) = Nat.min (Z.to_nat limit) (length rows) /\
     (forall p, In p (fst (list_recent limit db)) ->
        exists r, In r rows /\ p = dict_of_row r)).
Proof.
  split.
  - unfold list_recent, search_pedidos.
    destruct (open_table db) as [e|rows]; [done|].
    destruct (Sql.int64 limit); [|done]. by rewrite filter_all_rows.
  - intros rows Hopen Hint Hlim. unfold list_recent. rewrite Hopen, Hint. cbn [fst].
    split.
    + rewrite length_map, limit_rows_exact_length by done.
      by rewrite <- (Permutation_length (order_by_perm rows)).
    + intros p Hin. apply in_map_iff in Hin as (r & <- & Hin).
      apply limit_rows_incl in Hin.
      apply (Permutation_in _ (Permutation_sym (order_by_perm rows))) in Hin.
      by exists r.
Qed.

Lemma list_recent_spec_witness :
  length (fst (list_recent 1 Sample.db_two)) = 1 /\
  length (fst (list_recent 10 Sample.db_two)) = 2.
Proof.
  split.
  - exact (proj1 (proj2 (list_recent_spec 1 Sample.db_two) [Sample.ord1; Sample.ord2]
                   eq_refl eq_refl ltac:(discriminate))).
  - exact (proj1 (proj2 (list_recent_spec 10 Sample.db_two) [Sample.ord1; Sample.ord2]
                   eq_refl eq_refl ltac:(discriminate))).
Defined.

(** [init_db] on a file that can be reached creates the table when there
    is none and keeps every row of a table that is there; afterwards the
    table opens, and a second [init_db] changes nothing.  On a file out
    of reach it raises and leaves the store as it was. *)
Theorem init_db_spec (db : database) :
  (io_fails db = false ->
   fst (fst (init_db db)) = inr tt /\
   open_table (snd (fst (init_db db))) = inr (rows_of db) /\
   snd (fst (init_db (snd (fst (init_db db))))) = snd (fst (init_db db))) /\
  (io_fails db = true ->
   fst (fst (init_db db)) = inl OperationalError /\ snd (fst (init_db db)) = db).
Proof.
  unfold init_db, open_table, connect, execute_on_table, with_rows, rows_of.
  destruct db as [[] tbl]; simpl; split; try done; intros _; by destruct tbl.
Qed.

Lemma init_db_spec_witness :
  open_table (snd (fst (init_db Sample.db_fresh))) = inr [] /\
  open_table (snd (fst (init_db Sample.db_two))) = inr [Sample.ord1; Sample.ord2].
Proof.
  split.
  - exact (proj1 (proj2 (proj1 (init_db_spec Sample.db_fresh) eq_refl))).
  - exact (proj1 (proj2 (proj1 (init_db_spec Sample.db_two) eq_refl))).
Defined.

(** ** Trimming *)

Lemma rstrip_first (c : ascii) (s : string) :
  PyStr.is_space c = false ->
  exists t, PyStr.rstrip (String c s) = String c t.
Proof.
  intros Hc. cbn [PyStr.rstrip]. rewrite Hc, andb_false_r. by eexists.
Qed.

Lemma lstrip_first (s : string) :
  PyStr.lstrip s = "" \/
  exists c t, PyStr.lstrip s = String c t /\ PyStr.is_space c = false.
Proof.
  induction s as [|c s IH]; [by left|]. cbn [PyStr.lstrip].
  destruct (PyStr.is_space c) eqn:Hc; [done|]. right. by exists c, s.
Qed.

Lemma strip_first (s : string) :
  PyStr.strip s = "" \/
  exists c t, PyStr.strip s = String c t /\ PyStr.is_space c = false.
Proof.
  unfold PyStr.strip. destruct (lstrip_first s) as [->|(c & t & -> & Hc)]; [by left|].
  right. destruct (rstrip_first c t Hc) as [t' ->]. by exists c, t'.
Qed.

Lemma take_prefix (n : nat) (s : string) :
  exists rest, s = PyStr.take n s ++ rest.
Proof.
  revert s. induction n as [|n IH]; intros s; [by exists s|].
  destruct s as [|c s]; [by exists ""|].
  destruct (IH s) as [rest Hrest]. exists rest.
  cbn [PyStr.take]. by rewrite string_app_cons, <- Hrest.
Qed.

Lemma take_all (n : nat) (s : string) : PyStr.len s <= n -> PyStr.take n s = s.
Proof.
  revert s. induction n as [|n IH]; intros [|c s]; unfold PyStr.len; cbn [String.length];
    try done; try lia.
  intros H. cbn [PyStr.take]. rewrite IH; [done|]. unfold PyStr.len. lia.
Qed.

(** [sanitize_input] answers a beginning of the trimmed text, of at most
    [max_length] characters, and the whole trimmed text when that is
    short enough; the answer never starts with a white-space character. *)
Theorem sanitize_input_spec (text : string) (max_length : nat) :
  PyStr.len (sanitize_input text max_length) <= max_length /\
  (exists rest, PyStr.strip text = sanitize_input text max_length ++ rest) /\
  (PyStr.len (PyStr.strip text) <= max_length ->
   sanitize_input text max_length = PyStr.strip text) /\
  (sanitize_input text max_length = "" \/
   exists c t, sanitize_input text max_length = String c t /\ PyStr.is_space c = false).
Proof.
  split; [apply len_sanitize_input|].
  unfold sanitize_input. destruct text as [|c0 text]; cbn [PyStr.is_empty].
  - split; [by exists ""|]. split; [done|]. by left.
  - split; [apply take_prefix|]. split; [apply take_all|].
    destruct (strip_first (String c0 text)) as [->|(c & t & -> & Hc)].
    + left. by destruct max_length.
    + destruct max_length as [|n]; [by left|]. right. cbn [PyStr.take]. by eexists _, _.
Qed.

Lemma sanitize_input_spec_witness :
  sanitize_input "  Maria Silva  " 200 = PyStr.strip "  Maria Silva  ".
Proof.
  exact (proj1 (proj2 (proj2 (sanitize_input_spec "  Maria Silva  " 200)))
           ltac:(vm_compute; lia)).
Defined.

(** ** What a step may do to the store *)

Lemma conv_step_left_by (ADMIN_ID : option Z) (c : conversation)
    (ev : oracle * update) :
  conv_step ADMIN_ID c ev = left_by (conv c) (dispatch ADMIN_ID (fst ev) (snd ev) c).
Proof. unfold conv_step, left_by. by destruct (dispatch _ _ _ c). Qed.

Lemma raising_at_once_same_store (st : conv_state) (ud : gmap string pedido)
    (db : database) (h : option result) :
  (forall r, h = Some r -> store r = db) ->
  base (left_by st (raising_at_once ud db h)) = db.
Proof. intros H. destruct h as [r|]; [by apply H|done]. Qed.

(** One update leaves the store as it is, with two exceptions: the
    button [markdel], which only updates a status, and an accepted date
    in the state [ASK_DATE_CONFIRM], which appends one row with a new
    id.  After that row is written the conversation ends with an empty
    [user_data] if the confirmation is delivered; if Telegram refuses
    the confirmation, the conversation stays in [ASK_DATE_CONFIRM] and
    [user_data] keeps the draft of the order just written.  So no row is
    written before the last step, and none is ever removed. *)
Theorem only_finalization_inserts (ADMIN_ID : option Z) (o : oracle) (u : update)
    (c : conversation) :
  base (conv_step ADMIN_ID c (o, u)) = base c \/
  (exists pid, u = Callback_markdel pid /\
     conv_step ADMIN_ID c (o, u) =
       mk_conversation (conv c) (data c)
         (snd (fst (update_pedido_status (now_text o 0) pid "entregue" (base c))))) \/
  (conv c = ASK_DATE_CONFIRM /\ (exists t, u = Message t) /\
   exists rows new_row,
     open_table (base c) = inr rows /\ ~ In (id new_row) (map id rows) /\
     base (conv_step ADMIN_ID c (o, u)) =
       with_rows (rows ++ [new_row])%list (base c) /\
     if delivers o (Reply_saved (id new_row))
     then conv (conv_step ADMIN_ID c (o, u)) = END /\
          data (conv_step ADMIN_ID c (o, u)) = ∅
     else conv (conv_step ADMIN_ID c (o, u)) = ASK_DATE_CONFIRM /\
          exists p, data (conv_step ADMIN_ID c (o, u)) !! "pedido" = Some p /\
                    p_id p = Some (id new_row) /\ p_status p = Some "pendente").
Proof.
  rewrite conv_step_left_by. cbn [fst snd].
  destruct c as [st ud db]. unfold dispatch. cbn [conv data base].
  destruct u as [uid| |t|pid].
  - destruct st; try (by left). left. apply raising_at_once_same_store.
    unfold add_pedido_start.
    destruct ADMIN_ID as [a|]; [destruct (_ && _)|]; by intros r [= <-].
  - destruct st; try (by left); left; apply raising_at_once_same_store;
      by intros r [= <-].
  - destruct st; try (by left);
      try (left; apply raising_at_once_same_store; intros r).
    + unfold add_pedido_id. destruct (String.eqb _ "gerar"); [by intros [= <-]|].
      destruct (get_pedido_by_id _ db) as [[existing|] lg]; by intros [= <-].
    + unfold add_pedido_cpf. destruct (String.eqb _ "pular").
      * destruct (update_draft _ ud); by intros [= <-].
      * destruct (validate_cpf _); simpl; [|by intros [= <-]].
        destruct (update_draft _ ud); by intros [= <-].
    + unfold add_pedido_name. destruct (Nat.ltb _ 3); [by intros [= <-]|].
      destruct (update_draft _ ud); by intros [= <-].
    + unfold add_pedido_product. destruct (Nat.ltb _ 3); [by intros [= <-]|].
      destruct (update_draft _ ud); by intros [= <-].
    + unfold add_pedido_value. destruct (validate_value t); [|by intros [= <-]].
      destruct (update_draft _ ud); by intros [= <-].
    + unfold add_pedido_discount. destruct (validate_value t); [|by intros [= <-]].
      destruct (ud !! "pedido") as [p|]; [|done].
      destruct (p_valor p); [|done]. destruct (PyFloat.gt _ _); by intros [= <-].
    + unfold add_pedido_transid. destruct (update_draft _ ud); by intros [= <-].
    + unfold add_pedido_date. destruct (validate_date _ _) as [date|]; [|by left].
      destruct (ud !! "pedido") as [p|]; [|by left].
      destruct (add_pedido_db_cases (now_text o 1) (now_text o 2)
                  (set_status "pendente" (set_created_at date p)) db)
        as [(pid & rows & Hid & Hopen & Hnin & ->) | (e & ->)]; [|by left].
      rewrite Hid. right. right.
      split; [done|]. split; [by exists t|].
      exists rows, (stored (insert_parameters (now_text o 1) (now_text o 2) pid
                      (set_status "pendente" (set_created_at date p)))).
      split; [done|]. split; [done|]. cbn [id stored insert_parameters].
      destruct (delivers o (Reply_saved pid)); cbn [left_by base conv data next
        user_data store]; (split; [done|]); (split; [done|]).
      * done.
      * eexists. split; [apply lookup_insert_eq|]. by split.
  - destruct (update_pedido_status _ pid _ db) as [[ok db'] lg] eqn:Hupd.
    right. left. exists pid. by rewrite Hupd.
Qed.

Lemma only_finalization_inserts_witness :
  base (conv_step None
          (mk_conversation ASK_NAME {[ "pedido" := Sample.draft1 ]} Sample.db_one)
          (Sample.the_oracle, Message "Maria Silva")) = Sample.db_one.
Proof.
  destruct (only_finalization_inserts None Sample.the_oracle (Message "Maria Silva")
              (mk_conversation ASK_NAME {[ "pedido" := Sample.draft1 ]} Sample.db_one))
    as [Hsame | [(pid & Hu & _) | (Hst & _)]].
  - exact Hsame.
  - discriminate Hu.
  - discriminate Hst.
Defined.

(** While an administrator is configured, the updates of a user who is
    not the administrator never start a conversation: whatever that user
    sends, the state stays [END], [user_data] is untouched and the table
    keeps its rows in their order, every column of every row but [status]
    and [updated_at], which the button [markdel] sets for whoever
    presses it. *)
Theorem non_admin_cannot_insert (admin : Z) (evs : list (oracle * update))
    (ud : gmap string pedido) (db : database) :
  admin <> 0%Z ->
  (forall o uid, In (o, Command_add_pedido uid) evs -> uid <> admin) ->
  conv (conv_run (Some admin) (mk_conversation END ud db) evs) = END /\
  data (conv_run (Some admin) (mk_conversation END ud db) evs) = ud /\
  map kept_fields (rows_of (base (conv_run (Some admin) (mk_conversation END ud db) evs))) =
    map kept_fields (rows_of db).
Proof.
  intros Hadmin. revert db. unfold conv_run.
  induction evs as [|[o u] evs IH]; intros db Hevs; [done|].
  cbn [fold_left].
  assert (exists db', conv_step (Some admin) (mk_conversation END ud db) (o, u) =
                        mk_conversation END ud db' /\
                      map kept_fields (rows_of db') = map kept_fields (rows_of db))
    as (db' & -> & Hrows).
  { unfold conv_step, dispatch. cbn [fst snd conv data base].
    destruct u as [uid| |t|pid].
    - unfold add_pedido_start.
      assert (uid <> admin) as Hne by (apply (Hevs o); by left).
      apply Z.eqb_neq in Hadmin, Hne. rewrite Hadmin, Hne. by exists db.
    - by exists db.
    - by exists db.
    - destruct (update_pedido_status _ pid _ db) as [[ok db'] lg] eqn:Hupd.
      exists db'. split; [done|].
      assert (db' = snd (fst (update_pedido_status (now_text o 0) pid "entregue" db)))
        as -> by (by rewrite Hupd).
      apply update_status_kept_fields. }
  rewrite <- Hrows. apply IH. intros o' uid Hin. apply (Hevs o'). by right.
Qed.

Lemma non_admin_cannot_insert_witness :
  conv (conv_run (Some 7%Z) (mk_conversation END ∅ Sample.db_empty)
          (map (fun u => (Sample.the_oracle, u))
             [Command_add_pedido 1; Message "ORD1"; Message "pular"])) = END /\
  rows_of (base (conv_run (Some 7%Z) (mk_conversation END ∅ Sample.db_empty)
                   (map (fun u => (Sample.the_oracle, u))
                      [Command_add_pedido 1; Message "ORD1"; Message "pular"]))) = [].
Proof.
  destruct (non_admin_cannot_insert 7%Z
              (map (fun u => (Sample.the_oracle, u))
                 [Command_add_pedido 1; Message "ORD1"; Message "pular"])
              ∅ Sample.db_empty ltac:(discriminate))
    as (Hst & _ & Hrows).
  - intros o uid [H|[H|[H|[]]]]; try discriminate H.
    injection H as _ <-. discriminate.
  - split; [exact Hst|]. by apply map_eq_nil in Hrows.
Defined.

(** ** Orders of the workflow are well formed *)

Lemma keep_keep (f : ascii -> bool) (s : string) :
  PyStr.keep f (PyStr.keep f s) = PyStr.keep f s.
Proof.
  induction s as [|c s IH]; [done|]. cbn [PyStr.keep].
  destruct (f c) eqn:Hc; [|done]. cbn [PyStr.keep]. by rewrite Hc, IH.
Qed.

Lemma validate_cpf_digits (text : string) :
  validate_cpf text = true -> cpf_ok (PyStr.digits_only text).
Proof.
  unfold validate_cpf, cpf_ok, PyStr.digits_only.
  destruct text as [|c s]; cbn [PyStr.is_empty]; [by left|].
  rewrite Nat.eqb_eq. intros H. right. split; [done|]. apply keep_keep.
Qed.

Lemma validate_date_text (now : PyDate.datetime) (text date : string) :
  PyDate.valid now = true ->
  validate_date now text = Some date -> is_date_text date.
Proof.
  intros Hnow. unfold validate_date, PyDate.strptime.
  destruct (String.eqb _ "agora"); [intros [= <-]; by exists now|].
  destruct (PyDate.re_match text) as [[dt rest]|]; [|done].
  destruct (PyStr.is_empty rest); [|done]. cbn [andb].
  destruct (PyDate.valid dt) eqn:Hv; [|done]. intros [= <-]. by exists dt.
Qed.

Lemma sql_real_compare (a b : PyFloat.float) :
  SFcompare (sql_real a) (sql_real b) = SFcompare a b.
Proof. by destruct a as [s1|s1| |s1 m1 e1], b as [s2|s2| |s2 m2 e2]. Qed.

Lemma sql_real_leb (a b : PyFloat.float) :
  SFleb (sql_real a) (sql_real b) = SFleb a b.
Proof. unfold SFleb. by rewrite sql_real_compare. Qed.

Lemma sql_real_ge0 (a : PyFloat.float) :
  PyFloat.ge0 (sql_real a) = PyFloat.ge0 a.
Proof. unfold PyFloat.ge0. apply (sql_real_leb PyFloat.zero a). Qed.

Lemma insert_parameters_well_formed (D : string -> Prop) (n1 n2 pid date : string)
    (p : pedido) :
  draft_ready ASK_DATE_CONFIRM p -> p_id p = Some pid -> D date ->
  row_well_formed D
    (stored
       (insert_parameters n1 n2 pid (set_status "pendente" (set_created_at date p)))).
Proof.
  intros ((i & Hi & Hilen) & (c & Hc & Hcok) & (n & Hn & Hn3 & Hn200) &
          (pr & Hpr & Hpr3 & Hpr300) & (v & Hv & Hvge) &
          (v' & d & Hv' & Hd & He & Hdge & Hdle) & (t & Ht & Htlen)) Hpid Hdate.
  rewrite Hv in Hv'. injection Hv' as <-.
  rewrite Hi in Hpid. injection Hpid as ->.
  unfold row_well_formed, stored, insert_parameters, or_default. simpl.
  rewrite Hc, Hn, Hpr, Hv, Hd, He, Ht. simpl.
  rewrite !sql_real_ge0, sql_real_leb.
  repeat split; try done. by left.
Qed.

Lemma update_status_keeps_well_formed (D : string -> Prop) (rows0 : list row)
    (now pid : string) (db : database) :
  Forall (well_formed_or_old D rows0) (rows_of db) ->
  Forall (well_formed_or_old D rows0)
    (rows_of (snd (fst (update_pedido_status now pid "entregue" db)))).
Proof.
  intros Hrows. unfold update_pedido_status.
  destruct (open_table db) as [e|rows] eqn:Hopen; [done|].
  apply open_table_rows in Hopen. rewrite Hopen in Hrows.
  unfold rows_of, sql_update_status. simpl.
  apply Forall_forall. intros r' Hin.
  apply list_elem_of_In, in_map_iff in Hin as (r & <- & Hin).
  rewrite Forall_forall in Hrows. specialize (Hrows r (proj2 (list_elem_of_In _ _) Hin)).
  destruct (String.eqb (id r) pid); [|done].
  destruct Hrows as [Hwf|Hold]; [left|by right].
  destruct Hwf as (H1 & H2 & H3 & H4 & H5 & H6 & H7 & H8 & H9 & _ & H11).
  unfold row_well_formed. simpl. repeat split; try done; try apply H3; try apply H4.
  by right.
Qed.

Ltac ready_fields :=
  unfold draft_ready, has_id, has_cpf, has_nome, has_produto, has_valor,
    has_desconto, has_trans_id in *;
  simpl in *.

Section Steps.

Variable D : string -> Prop.
Variable rows0 : list row.
Variables (ud : gmap string pedido) (db : database).
Hypothesis Hrows : Forall (well_formed_or_old D rows0) (rows_of db).

Lemma ready_same (st : conv_state) (rp : list reply) (lg : list log_record) :
  (has_draft st = true -> exists p, ud !! "pedido" = Some p /\ draft_ready st p) ->
  result_ready D rows0 (mk_result st ud db rp lg).
Proof. by split. Qed.

Lemma ready_set (f : pedido -> pedido) (st st' : conv_state)
    (ud' : gmap string pedido) (rp : list reply) :
  (forall p, draft_ready st p -> draft_ready st' (f p)) ->
  (exists p, ud !! "pedido" = Some p /\ draft_ready st p) ->
  update_draft f ud = Some ud' ->
  result_ready D rows0 (mk_result st' ud' db rp []).
Proof.
  intros Hf (p & Hp & Hb) Hupd. split; [done|]. intros _.
  apply update_draft_some in Hupd as (p' & Hp' & Hud').
  rewrite Hp in Hp'. injection Hp' as <-. exists (f p). split; [done|]. by apply Hf.
Qed.

Lemma add_pedido_id_ready (o : oracle) (t : string) (r : result) :
  add_pedido_id o t ud db = Some r -> result_ready D rows0 r.
Proof.
  unfold add_pedido_id. destruct (String.eqb _ "gerar").
  - intros [= <-]. split; [done|]. intros _. eexists.
    split; [apply lookup_insert_eq|]. ready_fields. eexists. split; [done|].
    rewrite len_uuid. lia.
  - destruct (get_pedido_by_id _ db) as [[existing|] lg]; intros [= <-].
    + by apply ready_same.
    + split; [done|]. intros _. eexists.
      split; [apply lookup_insert_eq|]. ready_fields. eexists. split; [done|].
      apply len_sanitize_input.
Qed.

Lemma add_pedido_cpf_ready (t : string) (r : result) :
  (exists p, ud !! "pedido" = Some p /\ draft_ready ASK_CPF p) ->
  add_pedido_cpf t ud db = Some r -> result_ready D rows0 r.
Proof.
  intros Hdraft. unfold add_pedido_cpf. destruct (String.eqb _ "pular").
  - destruct (update_draft _ ud) as [ud'|] eqn:Hupd; intros [= <-].
    eapply ready_set; [|done..]. intros p Hp. ready_fields.
    split; [done|]. eexists. split; [done|]. by left.
  - destruct (validate_cpf _) eqn:Hcpf; simpl.
    + destruct (update_draft _ ud) as [ud'|] eqn:Hupd; intros [= <-].
      eapply ready_set; [|done..]. intros p Hp. ready_fields.
      split; [done|]. eexists. split; [done|]. by apply validate_cpf_digits.
    + intros [= <-]. by apply ready_same.
Qed.

Lemma add_pedido_name_ready (t : string) (r : result) :
  (exists p, ud !! "pedido" = Some p /\ draft_ready ASK_NAME p) ->
  add_pedido_name t ud db = Some r -> result_ready D rows0 r.
Proof.
  intros Hdraft. unfold add_pedido_name. destruct (Nat.ltb _ 3) eqn:Hlen.
  - intros [= <-]. by apply ready_same.
  - destruct (update_draft _ ud) as [ud'|] eqn:Hupd; intros [= <-].
    eapply ready_set; [|done..]. intros p Hp. ready_fields.
    destruct Hp as [Hid Hc]. repeat split; try done.
    eexists. split; [done|]. apply Nat.ltb_ge in Hlen. split; [done|].
    apply len_sanitize_input.
Qed.

Lemma add_pedido_product_ready (t : string) (r : result) :
  (exists p, ud !! "pedido" = Some p /\ draft_ready ASK_PRODUCT p) ->
  add_pedido_product t ud db = Some r -> result_ready D rows0 r.
Proof.
  intros Hdraft. unfold add_pedido_product. destruct (Nat.ltb _ 3) eqn:Hlen.
  - intros [= <-]. by apply ready_same.
  - destruct (update_draft _ ud) as [ud'|] eqn:Hupd; intros [= <-].
    eapply ready_set; [|done..]. intros p Hp. ready_fields.
    destruct Hp as (Hid & Hc & Hn). repeat split; try done.
    eexists. split; [done|]. apply Nat.ltb_ge in Hlen. split; [done|].
    apply len_sanitize_input.
Qed.

Lemma add_pedido_value_ready (t : string) (r : result) :
  (exists p, ud !! "pedido" = Some p /\ draft_ready ASK_VALUE p) ->
  add_pedido_value t ud db = Some r -> result_ready D rows0 r.
Proof.
  intros Hdraft. unfold add_pedido_value. destruct (validate_value t) as [v|] eqn:Hv.
  - destruct (update_draft _ ud) as [ud'|] eqn:Hupd; intros [= <-].
    eapply ready_set; [|done..]. intros p Hp. ready_fields.
    destruct Hp as (Hid & Hc & Hn & Hpr). repeat split; try done.
    eexists. split; [done|]. by apply (validate_value_ge0 t).
  - intros [= <-]. by apply ready_same.
Qed.

Lemma add_pedido_discount_ready (t : string) (r : result) :
  (exists p, ud !! "pedido" = Some p /\ draft_ready ASK_DISCOUNT p) ->
  add_pedido_discount t ud db = Some r -> result_ready D rows0 r.
Proof.
  intros Hdraft. unfold add_pedido_discount.
  destruct (validate_value t) as [d|] eqn:Hd.
  - destruct Hdraft as (p & Hp & Hready). rewrite Hp.
    destruct (p_valor p) as [v|] eqn:Hv; [|done].
    destruct (PyFloat.gt d v) eqn:Hgt; intros [= <-].
    + apply ready_same. intros _. by exists p.
    + split; [done|]. intros _. eexists. split; [apply lookup_insert_eq|].
      pose proof (validate_value_ge0 t d Hd) as Hdge.
      ready_fields. destruct Hready as (Hid & Hc & Hn & Hpr & (v' & Hv' & Hvge)).
      rewrite Hv in Hv'. injection Hv' as <-.
      repeat split; try done; [by exists v|].
      exists v, d. repeat split; try done.
      apply not_gt_le; auto using ge0_not_nan.
  - intros [= <-]. by apply ready_same.
Qed.

Lemma add_pedido_transid_ready (t : string) (r : result) :
  (exists p, ud !! "pedido" = Some p /\ draft_ready ASK_TRANSID p) ->
  add_pedido_transid t ud db = Some r -> result_ready D rows0 r.
Proof.
  intros Hdraft. unfold add_pedido_transid.
  destruct (update_draft _ ud) as [ud'|] eqn:Hupd; intros [= <-].
  eapply ready_set; [|done..]. intros p Hp. ready_fields.
  destruct Hp as (Hid & Hc & Hn & Hpr & Hv & Hd). repeat split; try done.
  eexists. split; [done|]. destruct (String.eqb _ "pular").
  - unfold PyStr.len. simpl. lia.
  - apply len_sanitize_input.
Qed.

Lemma add_pedido_date_ready (o : oracle) (t : string) :
  (forall text date, validate_date (clock o 0) text = Some date -> D date) ->
  (exists p, ud !! "pedido" = Some p /\ draft_ready ASK_DATE_CONFIRM p) ->
  (forall ud' db' lg, add_pedido_date o t ud db <> Raises Missing_key ud' db' lg) /\
  conv_ready D rows0 (left_by ASK_DATE_CONFIRM (add_pedido_date o t ud db)).
Proof.
  intros HD Hdraft. unfold add_pedido_date.
  destruct (validate_date _ _) as [date|] eqn:Hdate.
  - destruct Hdraft as (p & Hp & Hready). rewrite Hp.
    destruct (add_pedido_db_cases (now_text o 1) (now_text o 2)
                (set_status "pendente" (set_created_at date p)) db)
      as [(pid & rows & Hid & Hopen & Hnin & ->) | (e & ->)].
    + rewrite Hid.
      assert (Forall (well_formed_or_old D rows0)
                (rows_of (with_rows
                   (rows ++ [stored (insert_parameters (now_text o 1) (now_text o 2) pid
                                (set_status "pendente" (set_created_at date p)))])%list
                   db))) as Hrows'.
      { apply open_table_rows in Hopen. rewrite Hopen in Hrows.
        unfold rows_of. simpl. apply Forall_app. split; [done|].
        constructor; [|constructor]. left.
        apply insert_parameters_well_formed; [done|done|]. by apply (HD _ _ Hdate). }
      destruct (delivers o (Reply_saved pid)); (split; [done|]).
      * by split.
      * split; [exact Hrows'|]. intros _. cbn [left_by data conv].
        eexists. split; [apply lookup_insert_eq|].
        destruct Hready as (H1 & H2 & H3 & H4 & H5 & H6 & H7).
        repeat split; done.
    + split; [done|]. by split.
  - split; [done|]. split; [done|]. intros _. exact Hdraft.
Qed.

End Steps.

Lemma raising_at_once_ready (D : string -> Prop) (rows0 : list row) (st : conv_state)
    (ud : gmap string pedido) (db : database) (h : option result) :
  (exists r, h = Some r /\ result_ready D rows0 r) ->
  (forall ud' db' lg, raising_at_once ud db h <> Raises Missing_key ud' db' lg) /\
  conv_ready D rows0 (left_by st (raising_at_once ud db h)).
Proof. by intros (r & -> & Hr). Qed.

Lemma dispatch_ready (D : string -> Prop) (rows0 : list row) (ADMIN_ID : option Z)
    (o : oracle) (u : update) (c : conversation) :
  (forall text date, validate_date (clock o 0) text = Some date -> D date) ->
  conv_ready D rows0 c ->
  (forall ud' db' lg, dispatch ADMIN_ID o u c <> Raises Missing_key ud' db' lg) /\
  conv_ready D rows0 (left_by (conv c) (dispatch ADMIN_ID o u c)).
Proof.
  destruct c as [st ud db]. intros HD [Hrows Hdraft]. simpl in Hrows, Hdraft.
  unfold dispatch. cbn [data base conv].
  destruct u as [uid| |t|pid].
  - destruct st; try (split; [done|]; by apply ready_same).
    apply raising_at_once_ready. unfold add_pedido_start.
    destruct ADMIN_ID as [a|]; [destruct (_ && _)|];
      (eexists; split; [reflexivity|]; by apply ready_same).
  - destruct st; try (split; [done|]; by apply ready_same);
      apply raising_at_once_ready;
      (eexists; split; [reflexivity|]; by apply ready_same).
  - destruct st; try (split; [done|]; by apply ready_same);
      try apply raising_at_once_ready.
    + destruct (add_pedido_id o t ud db) as [r|] eqn:Hh.
      * exists r. split; [done|]. by apply (add_pedido_id_ready D rows0 ud db Hrows o t).
      * unfold add_pedido_id in Hh. destruct (String.eqb _ "gerar"); [done|].
        by destruct (get_pedido_by_id _ db) as [[?|] ?].
    + specialize (Hdraft eq_refl). destruct Hdraft as (p & Hp & Hready).
      destruct (add_pedido_cpf t ud db) as [r|] eqn:Hh.
      * exists r. split; [done|].
        apply (add_pedido_cpf_ready D rows0 ud db Hrows t); [by exists p|done].
      * unfold add_pedido_cpf, update_draft in Hh. rewrite Hp in Hh.
        destruct (String.eqb _ "pular"); [done|]. by destruct (validate_cpf _).
    + specialize (Hdraft eq_refl). destruct Hdraft as (p & Hp & Hready).
      destruct (add_pedido_name t ud db) as [r|] eqn:Hh.
      * exists r. split; [done|].
        apply (add_pedido_name_ready D rows0 ud db Hrows t); [by exists p|done].
      * unfold add_pedido_name, update_draft in Hh. rewrite Hp in Hh.
        by destruct (Nat.ltb _ 3).
    + specialize (Hdraft eq_refl). destruct Hdraft as (p & Hp & Hready).
      destruct (add_pedido_product t ud db) as [r|] eqn:Hh.
      * exists r. split; [done|].
        apply (add_pedido_product_ready D rows0 ud db Hrows t); [by exists p|done].
      * unfold add_pedido_product, update_draft in Hh. rewrite Hp in Hh.
        by destruct (Nat.ltb _ 3).
    + specialize (Hdraft eq_refl). destruct Hdraft as (p & Hp & Hready).
      destruct (add_pedido_value t ud db) as [r|] eqn:Hh.
      * exists r. split; [done|].
        apply (add_pedido_value_ready D rows0 ud db Hrows t); [by exists p|done].
      * unfold add_pedido_value, update_draft in Hh. rewrite Hp in Hh.
        by destruct (validate_value t).
    + specialize (Hdraft eq_refl). destruct Hdraft as (p & Hp & Hready).
      destruct (add_pedido_discount t ud db) as [r|] eqn:Hh.
      * exists r. split; [done|].
        apply (add_pedido_discount_ready D rows0 ud db Hrows t); [by exists p|done].
      * unfold add_pedido_discount in Hh. rewrite Hp in Hh.
        destruct Hready as (_ & _ & _ & _ & (v & Hv & _)). rewrite Hv in Hh.
        destruct (validate_value t); [|done]. by destruct (PyFloat.gt _ _).
    + specialize (Hdraft eq_refl). destruct Hdraft as (p & Hp & Hready).
      destruct (add_pedido_transid t ud db) as [r|] eqn:Hh.
      * exists r. split; [done|].
        apply (add_pedido_transid_ready D rows0 ud db Hrows t); [by exists p|done].
      * unfold add_pedido_transid, update_draft in Hh. by rewrite Hp in Hh.
    + apply (add_pedido_date_ready D rows0 ud db Hrows o t HD (Hdraft eq_refl)).
  - pose proof (update_status_keeps_well_formed D rows0 (now_text o 0) pid db Hrows) as Hk.
    destruct (update_pedido_status _ pid _ db) as [[ok db'] lg]. simpl in Hk.
    split; [done|]. by apply ready_same.
Qed.

Lemma conv_step_ready (D : string -> Prop) (rows0 : list row) (ADMIN_ID : option Z)
    (c : conversation) (ev : oracle * update) :
  (forall text date, validate_date (clock (fst ev) 0) text = Some date -> D date) ->
  conv_ready D rows0 c -> conv_ready D rows0 (conv_step ADMIN_ID c ev).
Proof.
  intros HD Hinv. rewrite conv_step_left_by.
  apply (dispatch_ready D rows0 ADMIN_ID (fst ev) (snd ev) c HD Hinv).
Qed.

Lemma conv_run_ready (D : string -> Prop) (rows0 : list row) (ADMIN_ID : option Z)
    (evs : list (oracle * update)) (c : conversation) :
  (forall ev text date, In ev evs ->
     validate_date (clock (fst ev) 0) text = Some date -> D date) ->
  conv_ready D rows0 c -> conv_ready D rows0 (conv_run ADMIN_ID c evs).
Proof.
  revert c. unfold conv_run.
  induction evs as [|ev evs IH]; intros c HD Hinv; [done|].
  cbn [fold_left]. apply IH.
  - intros ev' text date Hin. apply HD. by right.
  - apply conv_step_ready; [|done]. intros text date. apply HD. by left.
Qed.

Lemma conv_ready_start (D : string -> Prop) (ud : gmap string pedido) (db : database) :
  conv_ready D (rows_of db) (mk_conversation END ud db).
Proof.
  split; [|done]. simpl. apply Forall_forall. intros r0 Hr0. right.
  exists r0. split; [by apply list_elem_of_In|done].
Qed.



Lemma dispatch_refused_send (ADMIN_ID : option Z) (o : oracle) (u : update)
    (c : conversation) (ud' : gmap string pedido) (db' : database)
    (lg : list log_record) :
  dispatch ADMIN_ID o u c = Raises Refused_send ud' db' lg ->
  conv c = ASK_DATE_CONFIRM /\ exists pid, delivers o (Reply_saved pid) = false.
Proof.
  destruct c as [st ud db]. unfold dispatch. cbn [data base conv].
  destruct u as [uid| |t|pid].
  - destruct st; try done;
      intros Hr; by apply raising_at_once_raises in Hr as (_ & [=] & _).
  - destruct st; try done;
      intros Hr; by apply raising_at_once_raises in Hr as (_ & [=] & _).
  - destruct st; try done;
      try (intros Hr; by apply raising_at_once_raises in Hr as (_ & [=] & _)).
    unfold add_pedido_date. destruct (validate_date _ _) as [date|]; [|done].
    destruct (ud !! "pedido") as [p|]; [|done].
    destruct (add_pedido_db _ _ _ db) as [[[] db1] lg1]; [|done].
    destruct (p_id _) as [pid|]; [|done].
    destruct (delivers o (Reply_saved pid)) eqn:Hsend; [done|].
    intros _. split; [done|]. by exists pid.
  - by destruct (update_pedido_status _ pid _ db) as [[ok db1] lg1].
Qed.


(** ** A complete intake *)

Lemma update_draft_insert (f : pedido -> pedido) (p : pedido) (ud : gmap string pedido) :
  update_draft f (<["pedido" := p]> ud) = Some (<["pedido" := f p]> ud).
Proof.
  unfold update_draft. by rewrite lookup_insert_eq, insert_insert_eq.
Qed.

Lemma ge0_is_not_nan (x : PyFloat.float) : PyFloat.ge0 x = true -> is_nan x = false.
Proof. by destruct x. Qed.

(** A complete intake, each message accepted at its step: a new id, a
    CPF, a name, a product, a value, a discount not above it, a
    transaction id and a date.  The table has one more row, the last
    one, whose fields are the accepted values, not the raw texts (an
    amount of negative zero is held as zero), with [economia] equal to
    the discount and the status [pendente].  When the confirmation is
    delivered the conversation ends with an empty [user_data]; when
    Telegram refuses it, the conversation stays in [ASK_DATE_CONFIRM]
    with the completed draft in [user_data]. *)
Theorem intake_stores_accepted_values (ADMIN_ID : option Z) (os : nat -> oracle)
    (uid : Z) (t_id t_cpf t_nome t_produto t_valor t_desconto t_trans t_date : string)
    (ud : gmap string pedido) (db : database) (rows : list row)
    (c n pr date : string) (v d : PyFloat.float) :
  admitted ADMIN_ID uid = true ->
  open_table db = inr rows ->
  String.eqb (PyStr.lower (sanitize_input (PyStr.strip t_id) 255)) "gerar" = false ->
  ~ In (sanitize_input (PyStr.strip t_id) 255) (map id rows) ->
  accepted_cpf t_cpf = Some c ->
  accepted_text 200 t_nome = Some n ->
  accepted_text 300 t_produto = Some pr ->
  validate_value t_valor = Some v ->
  validate_value t_desconto = Some d ->
  PyFloat.gt d v = false ->
  validate_date (clock (os 8) 0) (PyStr.strip t_date) = Some date ->
  conv_run ADMIN_ID (mk_conversation END ud db)
    (intake os uid t_id t_cpf t_nome t_produto t_valor t_desconto t_trans t_date) =
  mk_conversation
    (if delivers (os 8) (Reply_saved (sanitize_input (PyStr.strip t_id) 255))
     then END else ASK_DATE_CONFIRM)
    (if delivers (os 8) (Reply_saved (sanitize_input (PyStr.strip t_id) 255))
     then ∅
     else <["pedido" :=
              mk_pedido (Some (sanitize_input (PyStr.strip t_id) 255)) (Some c)
                (Some n) (Some pr) (Some v) (Some d) (Some d) (Some "pendente")
                (Some date) (Some (accepted_transid t_trans)) None]> ud)
    (with_rows
       (rows ++ [mk_row (sanitize_input (PyStr.strip t_id) 255) c n pr
                   (sql_real v) (sql_real d) (sql_real d)
                   "pendente" date (accepted_transid t_trans) (now_text (os 8) 2)])%list
       db).
Proof.
  intros Hadm Hopen Hgerar Hnew Hcpf Hn Hpr Hv Hd Hgt Hdate.
  unfold conv_run, intake. cbn [fold_left].
  (* /add_pedido *)
  assert (conv_step ADMIN_ID (mk_conversation END ud db) (os 0, Command_add_pedido uid) =
          mk_conversation ASK_ID ud db) as ->.
  { unfold conv_step, dispatch, add_pedido_start. cbn [fst snd conv data base].
    destruct ADMIN_ID as [a|]; [|done]. cbn [admitted] in Hadm.
    apply orb_true_iff in Hadm as [->| ->]; by rewrite ?andb_false_r. }
  (* the id *)
  assert (conv_step ADMIN_ID (mk_conversation ASK_ID ud db) (os 1, Message t_id) =
          mk_conversation ASK_CPF
            (<["pedido" := new_pedido (sanitize_input (PyStr.strip t_id) 255)]> ud) db) as ->.
  { unfold conv_step, dispatch, add_pedido_id. cbn [fst snd conv data base].
    rewrite Hgerar. unfold get_pedido_by_id. rewrite Hopen.
    by rewrite (proj2 (find_id_absent _ rows) Hnew). }
  set (pid := sanitize_input (PyStr.strip t_id) 255) in *.
  (* the CPF *)
  assert (conv_step ADMIN_ID (mk_conversation ASK_CPF (<["pedido" := new_pedido pid]> ud) db)
            (os 2, Message t_cpf) =
          mk_conversation ASK_NAME (<["pedido" := set_cpf c (new_pedido pid)]> ud) db) as ->.
  { unfold conv_step, dispatch, add_pedido_cpf. cbn [fst snd conv data base].
    unfold accepted_cpf in Hcpf.
    destruct (String.eqb _ "pular").
    - injection Hcpf as <-. by rewrite update_draft_insert.
    - destruct (validate_cpf _); [|done]. injection Hcpf as <-. cbn [negb].
      by rewrite update_draft_insert. }
  (* the name *)
  assert (conv_step ADMIN_ID
            (mk_conversation ASK_NAME (<["pedido" := set_cpf c (new_pedido pid)]> ud) db)
            (os 3, Message t_nome) =
          mk_conversation ASK_PRODUCT
            (<["pedido" := set_nome n (set_cpf c (new_pedido pid))]> ud) db) as ->.
  { unfold conv_step, dispatch, add_pedido_name. cbn [fst snd conv data base].
    unfold accepted_text in Hn. destruct (Nat.ltb _ 3); [done|]. injection Hn as <-.
    by rewrite update_draft_insert. }
  (* the product *)
  assert (conv_step ADMIN_ID
            (mk_conversation ASK_PRODUCT
               (<["pedido" := set_nome n (set_cpf c (new_pedido pid))]> ud) db)
            (os 4, Message t_produto) =
          mk_conversation ASK_VALUE
            (<["pedido" := set_produto pr (set_nome n (set_cpf c (new_pedido pid)))]> ud)
            db) as ->.
  { unfold conv_step, dispatch, add_pedido_product. cbn [fst snd conv data base].
    unfold accepted_text in Hpr. destruct (Nat.ltb _ 3); [done|]. injection Hpr as <-.
    by rewrite update_draft_insert. }
  (* the value *)
  assert (conv_step ADMIN_ID
            (mk_conversation ASK_VALUE
               (<["pedido" := set_produto pr (set_nome n (set_cpf c (new_pedido pid)))]> ud)
               db)
            (os 5, Message t_valor) =
          mk_conversation ASK_DISCOUNT
            (<["pedido" := set_valor v
                 (set_produto pr (set_nome n (set_cpf c (new_pedido pid))))]> ud) db) as ->.
  { unfold conv_step, dispatch, add_pedido_value. cbn [fst snd conv data base].
    by rewrite Hv, update_draft_insert. }
  (* the discount *)
  assert (conv_step ADMIN_ID
            (mk_conversation ASK_DISCOUNT
               (<["pedido" := set_valor v
                    (set_produto pr (set_nome n (set_cpf c (new_pedido pid))))]> ud) db)
            (os 6, Message t_desconto) =
          mk_conversation ASK_TRANSID
            (<["pedido" := set_economia d (set_desconto d (set_valor v
                 (set_produto pr (set_nome n (set_cpf c (new_pedido pid))))))]> ud) db)
    as ->.
  { unfold conv_step, dispatch, add_pedido_discount. cbn [fst snd conv data base].
    rewrite Hd, lookup_insert_eq. cbn [p_valor set_valor]. rewrite Hgt.
    cbn [next user_data store]. by rewrite insert_insert_eq. }
  (* the transaction id *)
  assert (conv_step ADMIN_ID
            (mk_conversation ASK_TRANSID
               (<["pedido" := set_economia d (set_desconto d (set_valor v
                    (set_produto pr (set_nome n (set_cpf c (new_pedido pid))))))]> ud) db)
            (os 7, Message t_trans) =
          mk_conversation ASK_DATE_CONFIRM
            (<["pedido" := set_trans_id (accepted_transid t_trans)
                 (set_economia d (set_desconto d (set_valor v
                    (set_produto pr (set_nome n (set_cpf c (new_pedido pid)))))))]> ud) db)
    as ->.
  { unfold conv_step, dispatch, add_pedido_transid. cbn [fst snd conv data base].
    by rewrite update_draft_insert. }
  (* the date *)
  unfold conv_step, dispatch, add_pedido_date. cbn [fst snd conv data base].
  rewrite Hdate, lookup_insert_eq.
  unfold add_pedido_db, open_table in *.
  destruct (connect db) as [e|[]]; [done|].
  cbn [p_id set_status set_created_at set_trans_id set_economia set_desconto set_valor
       set_produto set_nome set_cpf new_pedido].
  rewrite Hopen. unfold sql_insert.
  cbn [id valor insert_parameters p_valor or_default default].
  assert (existsb (fun r' => String.eqb (id r') pid) rows = false) as ->.
  { apply not_true_iff_false. intros H. by apply existsb_id_In in H. }
  replace (is_nan _) with false
    by (symmetry; exact (ge0_is_not_nan v (validate_value_ge0 _ _ Hv))).
  rewrite insert_insert_eq.
  by destruct (delivers (os 8) (Reply_saved pid)).
Qed.

Lemma intake_stores_accepted_values_witness :
  conv_run None (mk_conversation END ∅ Sample.db_empty)
    (intake (fun _ => Sample.the_oracle) 1 "ORD1" "pular" "Maria Silva" "Wireless Mouse"
       "150,00" "10" "pular" "agora") =
  mk_conversation END ∅ Sample.db_one.
Proof.
  exact (intake_stores_accepted_values None (fun _ => Sample.the_oracle) 1
           "ORD1" "pular" "Maria Silva" "Wireless Mouse" "150,00" "10" "pular" "agora"
           ∅ Sample.db_empty [] "" "Maria Silva" "Wireless Mouse" "31/01/2024 10:00:00"
           (Sample.amount 150) (Sample.amount 10)
           eq_refl eq_refl eq_refl (fun H => H) eq_refl eq_refl eq_refl eq_refl eq_refl
           eq_refl eq_refl).
Defined.

(** ** The query commands *)

Lemma summaries_of_rows (sends : answer -> bool) (rs : list row) :
  summaries sends (map dict_of_row rs) =
  (map summary_message (take_while (shows sends) rs),
   if forallb (shows sends) rs then Returned else Raised).
Proof.
  induction rs as [|r rs IH]; [done|].
  cbn [map summaries take_while forallb]. unfold summary_of, shows at 1 3.
  cbn [dict_of_row p_valor p_desconto p_id p_nome p_cpf p_produto p_status
       p_created_at].
  destruct (is_nan (desconto r)); [done|]. cbn [negb andb].
  change (Answer_summary _ (keyboard_of _)) with (summary_message r).
  destruct (sends (summary_message r)); [|done].
  rewrite IH. done.
Qed.

Lemma list_entries_of_rows (rs : list row) :
  list_entries (map dict_of_row rs) =
  if forallb (fun r => negb (is_nan (desconto r))) rs
  then Some (map row_entry rs) else None.
Proof.
  induction rs as [|r rs IH]; [done|].
  cbn [map list_entries forallb]. unfold list_entry_of.
  cbn [dict_of_row p_valor p_desconto p_id p_nome p_status p_created_at].
  destruct (is_nan (desconto r)); [done|]. cbn [negb andb].
  rewrite IH. by destruct (forallb _ rs).
Qed.

Lemma firstn_map_rows {A B : Type} (f : A -> B) (n : nat) (l : list A) :
  firstn n (map f l) = map f (firstn n l).
Proof.
  revert l. induction n as [|n IH]; intros [|x l]; try done.
  cbn [firstn map]. by rewrite IH.
Qed.





Lemma after_first_pdf (pid : string) : after_first "|" ("pdf|" ++ pid) = Some pid.
Proof. reflexivity. Qed.

Lemma after_first_markdel (pid : string) : after_first "|" ("markdel|" ++ pid) = Some pid.
Proof. reflexivity. Qed.

(** The buttons of an order act on that order, whatever characters its
    id has.  The button [markdel] does the status update of exactly this
    id: when the update succeeds the message is edited, and if Telegram
    refuses the edit the handler raises with the update done; when it
    fails the message tells so.  The button [pdf] looks up exactly this
    id and leaves the store as it is: an id that is not found is
    answered so; for an id that is found the document sent is the
    receipt of the row found, under the name [comprovante_<id>.pdf]; and
    when the receipt cannot be made or sent the message tells so. *)
Theorem buttons_act_on_their_order (sends : answer -> bool) (now : string)
    (pid text : string) (db : database) :
  map kind (keyboard_of pid) = [Button_pdf; Button_markdel] /\
  (forall b, In b (keyboard_of pid) -> kind b = Button_markdel ->
     callbacks sends now (callback_data b) text db =
       (if fst (fst (update_pedido_status now pid "entregue" db))
        then
          if sends (Edit_marked_delivered (PyStr.replace "PENDENTE" "ENTREGUE" text))
          then [Edit_marked_delivered (PyStr.replace "PENDENTE" "ENTREGUE" text)]
          else []
        else [Edit_status_error],
        snd (fst (update_pedido_status now pid "entregue" db)),
        map Store_log (snd (update_pedido_status now pid "entregue" db)),
        if fst (fst (update_pedido_status now pid "entregue" db)) &&
           negb (sends (Edit_marked_delivered
                          (PyStr.replace "PENDENTE" "ENTREGUE" text)))
        then Raised else Returned)) /\
  (forall b, In b (keyboard_of pid) -> kind b = Button_pdf ->
     snd (fst (fst (callbacks sends now (callback_data b) text db))) = db /\
     snd (callbacks sends now (callback_data b) text db) = Returned /\
     (fst (get_pedido_by_id pid db) = None ->
      fst (fst (fst (callbacks sends now (callback_data b) text db))) =
        [Edit_order_not_found]) /\
     (forall p, fst (get_pedido_by_id pid db) = Some p ->
        (null_amount p = false ->
         sends (Answer_document ("comprovante_" ++ pid ++ ".pdf") pid
                  (generate_pdf_bytes now p)) = true ->
         fst (fst (fst (callbacks sends now (callback_data b) text db))) =
           [Answer_document ("comprovante_" ++ pid ++ ".pdf") pid
              (generate_pdf_bytes now p);
            if sends (Edit_pdf_sent text) then Edit_pdf_sent text else Edit_pdf_error]) /\
        (null_amount p = true \/
         sends (Answer_document ("comprovante_" ++ pid ++ ".pdf") pid
                  (generate_pdf_bytes now p)) = false ->
         fst (fst (fst (callbacks sends now (callback_data b) text db))) =
           [Edit_pdf_error]))).
Proof.
  split; [done|]. split.
  - intros b [<-|[<-|[]]]; [done|]. intros _.
    unfold callbacks. cbn [callback_data].
    change (PyStr.starts_with "pdf|" ("markdel|" ++ pid)) with false.
    change (PyStr.starts_with "markdel|" ("markdel|" ++ pid)) with true.
    cbn iota. rewrite after_first_markdel.
    destruct (update_pedido_status now pid "entregue" db) as [[[] db'] lg];
      cbn [fst snd andb]; [|done].
    by destruct (sends (Edit_marked_delivered _)).
  - intros b [<-|[<-|[]]]; [|done]. intros _.
    unfold callbacks. cbn [callback_data].
    change (PyStr.starts_with "pdf|" ("pdf|" ++ pid)) with true.
    cbn iota. rewrite after_first_pdf.
    destruct (get_pedido_by_id pid db) as [[p|] lg]; cbn [fst snd].
    + unfold send_receipt.
      destruct (null_amount p) eqn:Hnull;
        [|destruct (sends (Answer_document _ pid _)) eqn:Hdoc;
          [destruct (sends (Edit_pdf_sent text))|]];
        cbn [fst snd]; (split; [done|]); (split; [done|]); (split; [done|]);
        intros p' [= <-]; (split; [intros; congruence|]);
        try done; intros [?|?]; congruence.
    + cbn [fst snd]. repeat split; done.
Qed.

Lemma buttons_act_on_their_order_witness :
  callbacks (fun _ => true) Sample.now_str "markdel|ORD1" "Status: PENDENTE"
    Sample.db_one =
    ([Edit_marked_delivered "Status: ENTREGUE"],
     mk_db false (Some [set_row_status "entregue" Sample.now_str Sample.ord1]),
     [Store_log (Info_status_updated "ORD1" "entregue")], Returned) /\
  fst (fst (fst (callbacks (fun _ => true) Sample.now_str "pdf|ORD1" "Status: PENDENTE"
                   Sample.db_one))) =
    [Answer_document "comprovante_ORD1.pdf" "ORD1"
       (generate_pdf_bytes Sample.now_str (dict_of_row Sample.ord1));
     Edit_pdf_sent "Status: PENDENTE"].
Proof.
  split.
  - exact (proj1 (proj2 (buttons_act_on_their_order (fun _ => true) Sample.now_str "ORD1"
                           "Status: PENDENTE" Sample.db_one))
             (mk_button Button_markdel "markdel|ORD1") (or_intror (or_introl eq_refl))
             eq_refl).
  - exact (proj1 (proj2 (proj2 (proj2
             (proj2 (proj2 (buttons_act_on_their_order (fun _ => true) Sample.now_str
                              "ORD1" "Status: PENDENTE" Sample.db_one))
                (mk_button Button_pdf "pdf|ORD1") (or_introl eq_refl) eq_refl)))
             (dict_of_row Sample.ord1) eq_refl) eq_refl eq_refl).
Defined.

Lemma command_args_pdf (rest : string) :
  command_args ("/pdf " ++ rest) = PyStr.split rest.
Proof. reflexivity. Qed.



(** The command takes only the first word: an id with a blank, which
    the step of the id accepts, is not what [/pdf] looks up. *)
Lemma pdf_command_takes_first_word :
  command_args "/pdf ORD 1" = ["ORD"; "1"] /\
  sanitize_input (PyStr.strip "ORD 1") 255 = "ORD 1".
Proof. by vm_compute. Qed.

Lemma uuid4_version_bits (random : N) :
  ((PyUuid.uuid4 random / 16 ^ 19) mod 16 = 4)%N.
Proof.
  change (16 ^ 19)%N with (2 ^ 76)%N. change 16%N with (2 ^ 4)%N.
  rewrite <- N.shiftr_div_pow2, <- N.land_ones.
  apply N.bits_inj. intros i.
  rewrite N.land_spec, N.shiftr_spec; [|apply N.le_0_l].
  destruct (N.ltb_spec i 4) as [Hi|Hi].
  - rewrite N.ones_spec_low, andb_true_r; [|exact Hi].
    unfold PyUuid.uuid4. cbv zeta.
    rewrite N.lor_spec, N.ldiff_spec.
    assert (Hc : (i = 0 \/ i = 1 \/ i = 2 \/ i = 3)%N) by lia.
    destruct Hc as [-> | [-> | [-> | ->]]];
      change (N.testbit (N.shiftl 61440 64) _) with true;
      rewrite andb_false_r; reflexivity.
  - rewrite N.ones_spec_high, andb_false_r; [|exact Hi].
    symmetry. change 4%N with (2 ^ 2)%N.
    apply N.pow2_bits_false. lia.
Qed.

Lemma uuid4_variant_bits (random : N) :
  ((PyUuid.uuid4 random / 16 ^ 15) mod 16 / 4 = 2)%N.
Proof.
  change (16 ^ 15)%N with (2 ^ 60)%N. change 16%N with (2 ^ 4)%N.
  change 4%N with (2 ^ 2)%N at 2.
  rewrite <- N.shiftr_div_pow2, <- N.land_ones, <- N.shiftr_div_pow2.
  apply N.bits_inj. intros i.
  rewrite N.shiftr_spec; [|apply N.le_0_l].
  rewrite N.land_spec, N.shiftr_spec; [|apply N.le_0_l].
  destruct (N.ltb_spec (i + 2) 4) as [Hi|Hi].
  - rewrite N.ones_spec_low, andb_true_r; [|exact Hi].
    unfold PyUuid.uuid4. cbv zeta.
    rewrite N.lor_spec, N.ldiff_spec, N.lor_spec, N.ldiff_spec.
    assert (Hc : (i = 0 \/ i = 1)%N) by lia.
    destruct Hc as [-> | ->];
      change (N.testbit (N.shiftl 61440 64) _) with false;
      change (N.testbit (N.shiftl 4 76) _) with false;
      change (N.testbit (N.shiftl 49152 48) _) with true;
      rewrite andb_false_r, andb_true_r, orb_false_r; reflexivity.
  - rewrite N.ones_spec_high, andb_false_r; [|exact Hi].
    symmetry. change 2%N with (2 ^ 1)%N at 1.
    apply N.pow2_bits_false. lia.
Qed.

Lemma hex_digit_below_16 (d : N) :
  (d <= 15)%N -> is_hex_lower (PyUuid.hex_digit d) = true.
Proof.
  revert d. refine (N_le_cases _ 15 _). each_case ltac:(by vm_compute).
Qed.

Lemma hex_digit_is_hex (n : N) : is_hex_lower (PyUuid.hex_digit (n mod 16)) = true.
Proof.
  apply hex_digit_below_16. pose proof (N.mod_upper_bound n 16). lia.
Qed.

Lemma variant_digit_below_16 (d : N) :
  (d <= 15)%N -> (d / 4 = 2)%N ->
  In (PyUuid.hex_digit d) ["8"; "9"; "a"; "b"]%char.
Proof.
  revert d. refine (N_le_cases _ 15 _).
  each_case ltac:(vm_compute; intros H; first [discriminate H | tauto]).
Qed.

Lemma variant_digit (x : N) :
  (x mod 16 / 4 = 2)%N -> In (PyUuid.hex_digit (x mod 16)) ["8"; "9"; "a"; "b"]%char.
Proof.
  apply variant_digit_below_16. pose proof (N.mod_upper_bound x 16). lia.
Qed.

(** An id asked for with [gerar] is the text of a version 4 UUID: five
    groups of 8, 4, 4, 4 and 12 lower-case hexadecimal digits joined by
    hyphens, the third group starting with 4 and the fourth with 8, 9, a
    or b.  The handler opens the draft with this id and goes on to the
    CPF without looking the id up in the store. *)
Theorem generated_id_shape (o : oracle) (message_text : string)
    (ud : gmap string pedido) (db : database) :
  PyStr.lower (sanitize_input (PyStr.strip message_text) 255) = "gerar" ->
  exists (a b c d e : string) (v : ascii),
    add_pedido_id o message_text ud db =
      Some (mk_result ASK_CPF
              (<["pedido" :=
                   new_pedido (a ++ "-" ++ b ++ "-" ++ String "4" c ++ "-" ++
                               String v d ++ "-" ++ e)]> ud)
              db
              [Reply_id_generated (a ++ "-" ++ b ++ "-" ++ String "4" c ++ "-" ++
                                   String v d ++ "-" ++ e);
               Reply_ask_cpf] []) /\
    PyStr.len a = 8 /\ PyStr.len b = 4 /\ PyStr.len c = 3 /\ PyStr.len d = 3 /\
    PyStr.len e = 12 /\
    In v ["8"; "9"; "a"; "b"]%char /\
    hex_text (a ++ b ++ c ++ d ++ e) = true.
Proof.
  intros Hg. unfold add_pedido_id. cbv zeta. rewrite Hg.
  change (String.eqb "gerar" "gerar") with true. cbn iota.
  set (u := PyUuid.uuid4 (uuid_random o)).
  pose (h := fun k : N => PyUuid.hex_digit ((u / 16 ^ k) mod 16)%N).
  assert (Hstr : PyUuid.str u =
    String (h 31%N) (String (h 30%N) (String (h 29%N) (String (h 28%N)
      (String (h 27%N) (String (h 26%N) (String (h 25%N) (String (h 24%N) "")))))))
    ++ "-" ++
    String (h 23%N) (String (h 22%N) (String (h 21%N) (String (h 20%N) "")))
    ++ "-" ++
    String (h 19%N) (String (h 18%N) (String (h 17%N) (String (h 16%N) "")))
    ++ "-" ++
    String (h 15%N) (String (h 14%N) (String (h 13%N) (String (h 12%N) "")))
    ++ "-" ++
    String (h 11%N) (String (h 10%N) (String (h 9%N) (String (h 8%N)
      (String (h 7%N) (String (h 6%N) (String (h 5%N) (String (h 4%N)
      (String (h 3%N) (String (h 2%N) (String (h 1%N) (String (h 0%N) "")))))))))))).
  { reflexivity. }
  assert (H19 : h 19%N = "4"%char).
  { unfold h, u. by rewrite uuid4_version_bits. }
  assert (H15 : In (h 15%N) ["8"; "9"; "a"; "b"]%char).
  { unfold h, u. apply variant_digit. apply uuid4_variant_bits. }
  assert (Hh : forall k, is_hex_lower (h k) = true).
  { intros k. apply hex_digit_is_hex. }
  rewrite Hstr, H19.
  eexists _, _, _, _, _, _. split; [reflexivity|].
  repeat (split; [reflexivity|]). split; [exact H15|].
  cbv beta iota delta [hex_text String.append]. rewrite !Hh. reflexivity.
Qed.

Lemma generated_id_shape_witness :
  exists (a b c d e : string) (v : ascii),
    add_pedido_id Sample.the_oracle " Gerar " (∅ : gmap string pedido) Sample.db_one =
      Some (mk_result ASK_CPF
              (<["pedido" :=
                   new_pedido (a ++ "-" ++ b ++ "-" ++ String "4" c ++ "-" ++
                               String v d ++ "-" ++ e)]> ∅)
              Sample.db_one
              [Reply_id_generated (a ++ "-" ++ b ++ "-" ++ String "4" c ++ "-" ++
                                   String v d ++ "-" ++ e);
               Reply_ask_cpf] []) /\
    PyStr.len a = 8 /\ PyStr.len b = 4 /\ PyStr.len c = 3 /\ PyStr.len d = 3 /\
    PyStr.len e = 12 /\
    In v ["8"; "9"; "a"; "b"]%char /\
    hex_text (a ++ b ++ c ++ d ++ e) = true.
Proof.
  exact (generated_id_shape Sample.the_oracle " Gerar " ∅ Sample.db_one eq_refl).
Defined.

Lemma string_of_uint_digits (u : Decimal.uint) :
  PyStr.digits_only (NilEmpty.string_of_uint u) = NilEmpty.string_of_uint u.
Proof.
  unfold PyStr.digits_only.
  induction u as [|u IH|u IH|u IH|u IH|u IH|u IH|u IH|u IH|u IH|u IH];
    [reflexivity|..];
    cbn [NilEmpty.string_of_uint PyStr.keep];
    match goal with
    | |- context [PyStr.is_digit ?c] => change (PyStr.is_digit c) with true
    end; cbn iota; by rewrite IH.
Qed.

Lemma string_of_N_digits (n : N) :
  PyStr.digits_only (PyFloat.string_of_N n) = PyFloat.string_of_N n /\
  PyFloat.string_of_N n <> "".
Proof.
  split; [apply string_of_uint_digits|].
  unfold PyFloat.string_of_N. destruct n as [|p]; [done|].
  cbn [N.to_uint].
  pose proof (DecimalPos.Unsigned.to_uint_nonnil p) as Hnil.
  by destruct (Pos.to_uint p).
Qed.

Lemma two_digits_shape (k : N) :
  (k <= 99)%N ->
  PyFloat.two_digits k =
    String (ascii_of_N (48 + k / 10)) (String (ascii_of_N (48 + k mod 10)) "") /\
  PyStr.is_digit (ascii_of_N (48 + k / 10)) = true /\
  PyStr.is_digit (ascii_of_N (48 + k mod 10)) = true.
Proof.
  revert k. refine (N_le_cases _ 99 _). each_case ltac:(by vm_compute).
Qed.

(** How an accepted amount is printed.  Every value that [validate_value]
    accepts is formatted by [{:.2f}] as one or more digits, a point and
    exactly two digits, with two exceptions that the validation lets
    through: infinity prints as [inf] and negative zero as [-0.00]. *)
Theorem accepted_amount_prints :
  (forall (text : string) (v : PyFloat.float),
     validate_value text = Some v ->
     PyFloat.format_2f v = "inf" \/
     PyFloat.format_2f v = "-0.00" \/
     exists (whole : string) (d1 d2 : ascii),
       PyFloat.format_2f v = whole ++ "." ++ String d1 (String d2 "") /\
       whole <> "" /\ PyStr.digits_only whole = whole /\
       PyStr.is_digit d1 = true /\ PyStr.is_digit d2 = true) /\
  option_map PyFloat.format_2f (validate_value "inf") = Some "inf" /\
  option_map PyFloat.format_2f (validate_value "-0") = Some "-0.00".
Proof.
  split; [|split; by vm_compute].
  intros text v Hv. apply validate_value_ge0 in Hv.
  destruct v as [s|s| |s m e].
  - destruct s; [right; left; reflexivity|].
    right. right. exists "0", "0"%char, "0"%char. by vm_compute.
  - destruct s; [done|]. by left.
  - done.
  - destruct s; [done|]. right. right.
    unfold PyFloat.format_2f, PyFloat.sign_prefix.
    destruct (two_digits_shape (PyFloat.cents m e mod 100)) as (-> & Hd1 & Hd2).
    { pose proof (N.mod_upper_bound (PyFloat.cents m e) 100). lia. }
    destruct (string_of_N_digits (PyFloat.cents m e / 100)) as [Hdig Hne].
    eexists _, _, _. split; [reflexivity|]. done.
Qed.
